(** * SASL AWS_MSK_IAM for librdkafka: SigV4 signing and the credential store

    A shallow embedding of [rdkafka_aws.c] (the signing engine) and of the
    builtin SASL AWS_MSK_IAM provider (credential handle, refresh timer and
    per-connection state machine), with the properties of the design
    document stated and proved against the embedded code.

    Conventions.
    - a C string ([char *], NUL-terminated) is a [string]; a nullable
      [char *] is an [option string];
    - an [unsigned char] buffer with an explicit length is a [list Z] of
      values in [0, 256);
    - [rd_ts_t] / [int64_t] values are [Z]; microseconds unless the name says
      [_ms];
    - the string builder of [rdstringbuilder.h] is an append-only buffer. *)

From Stdlib Require Import ZArith List String Ascii Bool Lia DecimalString.
Import ListNotations.

Local Open Scope Z_scope.

(* ------------------------------------------------------------------ *)
(** ** Bytes and C strings *)

Definition bytes := list Z.

(** A C string seen as an [unsigned char] buffer of [strlen(s)] bytes. *)
Fixpoint bytes_of_string (s : string) : bytes :=
  match s with
  | EmptyString => []
  | String c r => Z.of_N (N_of_ascii c) :: bytes_of_string r
  end.

(** [strlen]. *)
Definition strlen (s : string) : nat := String.length s.

(* ------------------------------------------------------------------ *)
(** ** SHA-256 and HMAC-SHA-256 (OpenSSL) *)

Module SHA256.

Definition mask32 : Z := 4294967295.

Definition add32 (x y : Z) : Z := (x + y) mod 4294967296.

Definition rotr (n x : Z) : Z :=
  Z.lor (Z.shiftr x n) (Z.land (Z.shiftl x (32 - n)) mask32).

Definition not32 (x : Z) : Z := Z.lxor x mask32.

Definition Ch (x y z : Z) : Z := Z.lxor (Z.land x y) (Z.land (not32 x) z).
Definition Maj (x y z : Z) : Z :=
  Z.lxor (Z.lxor (Z.land x y) (Z.land x z)) (Z.land y z).
Definition bsig0 (x : Z) : Z :=
  Z.lxor (Z.lxor (rotr 2 x) (rotr 13 x)) (rotr 22 x).
Definition bsig1 (x : Z) : Z :=
  Z.lxor (Z.lxor (rotr 6 x) (rotr 11 x)) (rotr 25 x).
Definition ssig0 (x : Z) : Z :=
  Z.lxor (Z.lxor (rotr 7 x) (rotr 18 x)) (Z.shiftr x 3).
Definition ssig1 (x : Z) : Z :=
  Z.lxor (Z.lxor (rotr 17 x) (rotr 19 x)) (Z.shiftr x 10).

Definition primes : list Z :=
  [ 2; 3; 5; 7; 11; 13; 17; 19; 23; 29; 31; 37; 41; 43; 47; 53; 59; 61; 67;
    71; 73; 79; 83; 89; 97; 101; 103; 107; 109; 113; 127; 131; 137; 139;
    149; 151; 157; 163; 167; 173; 179; 181; 191; 193; 197; 199; 211; 223;
    227; 229; 233; 239; 241; 251; 257; 263; 269; 271; 277; 281; 283; 293;
    307; 311 ].

(** The integer cube root below [2 ^ bits], one bit at a time. *)
Fixpoint cube_root (bits : nat) (n r : Z) : Z :=
  match bits with
  | O => r
  | S b =>
      let r' := r + 2 ^ Z.of_nat b in
      cube_root b n (if r' * r' * r' <=? n then r' else r)
  end.

(** The first 32 bits of the fractional part of a cube root and of a square
    root. *)
Definition frac_cbrt32 (p : Z) : Z := cube_root 36 (p * 2 ^ 96) 0 mod 2 ^ 32.
Definition frac_sqrt32 (p : Z) : Z := Z.sqrt (p * 2 ^ 64) mod 2 ^ 32.

(** The round constants: from the cube roots of the first 64 primes. *)
Definition K : list Z := Eval vm_compute in map frac_cbrt32 primes.

(** The eight working variables / the chaining value. *)
Record regs : Set := Regs {
  ra : Z; rb : Z; rc : Z; rd : Z; re : Z; rf : Z; rg : Z; rh : Z }.

(** The initial hash value: from the square roots of the first 8 primes. *)
Definition H0 : regs :=
  Eval vm_compute in
    Regs (frac_sqrt32 2) (frac_sqrt32 3) (frac_sqrt32 5) (frac_sqrt32 7)
         (frac_sqrt32 11) (frac_sqrt32 13) (frac_sqrt32 17) (frac_sqrt32 19).

(** One round with round constant [k] and schedule word [w]. *)
Definition round (k w : Z) (r : regs) : regs :=
  let t1 := add32 (add32 (add32 (add32 (rh r) (bsig1 (re r)))
                                (Ch (re r) (rf r) (rg r))) k) w in
  let t2 := add32 (bsig0 (ra r)) (Maj (ra r) (rb r) (rc r)) in
  Regs (add32 t1 t2) (ra r) (rb r) (rc r) (add32 (rd r) t1)
       (re r) (rf r) (rg r).

(** The message schedule is kept as a sliding window of sixteen words:
    the head is W[t], and the word appended for t+16 is
    ssig1 W[t+14] + W[t+9] + ssig0 W[t+1] + W[t]. *)
Definition next_word (win : list Z) : Z :=
  add32 (add32 (add32 (ssig1 (nth 14 win 0)) (nth 9 win 0))
               (ssig0 (nth 1 win 0))) (nth 0 win 0).

Fixpoint rounds (ks : list Z) (win : list Z) (r : regs) : regs :=
  match ks with
  | [] => r
  | k :: ks' =>
      rounds ks' (tl win ++ [next_word win]) (round k (nth 0 win 0) r)
  end.

(** Big-endian packing of a 64-byte block into sixteen words. *)
Fixpoint words_of_block (n : nat) (b : bytes) : list Z :=
  match n with
  | O => []
  | S n' =>
      (nth 0 b 0 * 16777216 + nth 1 b 0 * 65536 + nth 2 b 0 * 256
       + nth 3 b 0) :: words_of_block n' (skipn 4 b)
  end.

Definition compress (r : regs) (block : bytes) : regs :=
  let r' := rounds K (words_of_block 16 block) r in
  Regs (add32 (ra r) (ra r')) (add32 (rb r) (rb r'))
       (add32 (rc r) (rc r')) (add32 (rd r) (rd r'))
       (add32 (re r) (re r')) (add32 (rf r) (rf r'))
       (add32 (rg r) (rg r')) (add32 (rh r) (rh r')).

Fixpoint blocks (n : nat) (r : regs) (m : bytes) : regs :=
  match n with
  | O => r
  | S n' => blocks n' (compress r (firstn 64 m)) (skipn 64 m)
  end.

(** Big-endian bytes of a [n]-byte unsigned value. *)
Fixpoint be_bytes (n : nat) (x : Z) : bytes :=
  match n with
  | O => []
  | S n' => (Z.shiftr x (8 * Z.of_nat n')) mod 256 :: be_bytes n' x
  end.

(** Padding: 0x80, zeros up to 56 mod 64, then the bit length on 8 bytes. *)
Definition pad (m : bytes) : bytes :=
  let len := Z.of_nat (List.length m) in
  let zeros := Z.to_nat ((55 - len) mod 64) in
  m ++ [128] ++ repeat 0 zeros ++ be_bytes 8 (8 * len).

Definition digest_of_regs (r : regs) : bytes :=
  be_bytes 4 (ra r) ++ be_bytes 4 (rb r) ++ be_bytes 4 (rc r)
  ++ be_bytes 4 (rd r) ++ be_bytes 4 (re r) ++ be_bytes 4 (rf r)
  ++ be_bytes 4 (rg r) ++ be_bytes 4 (rh r).

(** Modelled from the spec: OpenSSL's SHA-256 ([EVP_sha256],
    [EVP_DigestInit_ex] / [EVP_DigestUpdate] / [EVP_DigestFinal_ex]) is an
    external library that is not among the sources.  The design document's
    primitive [sha256(bytes) -> 32 bytes] is the FIPS 180-4 function, which
    is written out here so that the vectors of the unit tests evaluate. *)
Definition sha256 (m : bytes) : bytes :=
  let p := pad m in
  digest_of_regs (blocks (Nat.div (List.length p) 64) H0 p).

Definition block_size : nat := 64.

Definition xor_pad (c : Z) (key : bytes) : bytes :=
  map (fun b => Z.lxor b c) (key ++ repeat 0 (block_size - List.length key)).

(** Modelled from the spec: OpenSSL's one-shot [HMAC(EVP_sha256(), ...)] is
    an external library that is not among the sources.  The design
    document's primitive [hmac_sha256(key, data) -> 32 bytes] is RFC 2104
    over SHA-256: keys longer than one block are hashed first. *)
Definition hmac_sha256 (key data : bytes) : bytes :=
  let key0 :=
    if Nat.ltb block_size (List.length key) then sha256 key else key in
  sha256 (xor_pad 92 key0 ++ sha256 (xor_pad 54 key0 ++ data)).

End SHA256.

(** [const EVP_MD *]: a message digest, as the function it computes. *)
Definition EVP_MD : Type := bytes -> bytes.

(** [EVP_get_digestbyname("SHA256")], the only digest the program looks up. *)
Definition EVP_get_digestbyname_SHA256 : EVP_MD := SHA256.sha256.

(* ------------------------------------------------------------------ *)
(** ** Hexadecimal rendering *)

Definition hex_lower : string := "0123456789abcdef".
Definition hex_upper : string := "0123456789ABCDEF".

Definition digit_of (alphabet : string) (n : Z) : ascii :=
  match String.get (Z.to_nat n) alphabet with
  | Some c => c
  | None => "0"%char
  end.

(** [sprintf(buf, "%02x", b)] for an [unsigned char] [b]. *)
Definition sprintf_02x (b : Z) : string :=
  String (digit_of hex_lower (b / 16))
         (String (digit_of hex_lower (b mod 16)) EmptyString).

(** The loop [for (i = 0; i < len; i++) sprintf(&out[i * 2], "%02x", v[i])]
    followed by the terminating NUL. *)
Fixpoint hex_of_bytes (v : bytes) : string :=
  match v with
  | [] => EmptyString
  | b :: r => (sprintf_02x b ++ hex_of_bytes r)%string
  end.

(* ------------------------------------------------------------------ *)
(** ** C library pieces used by the signing engine *)

Local Open Scope string_scope.

(** The one-character C literals [\n] and the double quote. *)
Definition LF : string := String "010"%char EmptyString.
Definition DQ : string := String "034"%char EmptyString.

(** A C string literal in which every escaped double quote of the source is
    written as an apostrophe (no literal of the program holds one). *)
Fixpoint c_lit (s : string) : string :=
  match s with
  | EmptyString => EmptyString
  | String c r =>
      String (if Ascii.eqb c "'"%char then "034"%char else c) (c_lit r)
  end.

(** [rd_snprintf(buf, size, fmt, ...)] with [formatted] the expansion of the
    format: at most [size - 1] characters are kept. *)
Definition rd_snprintf (size : nat) (formatted : string) : string :=
  String.substring 0 (size - 1) formatted.

(** [rd_strdup]. *)
Definition rd_strdup (s : string) : string := s.

(** Modelled from the spec: [rdstringbuilder.h] is not among the sources; the
    builder accumulates the concatenation the design document writes with
    [+], [str_builder_dump] returns a copy of what was accumulated and
    [str_builder_clear] empties it. *)
Definition str_builder_t : Set := string.
Definition str_builder_create : str_builder_t := EmptyString.
Definition str_builder_add_str (sb : str_builder_t) (s : string)
  : str_builder_t := sb ++ s.
Definition str_builder_dump (sb : str_builder_t) : string := sb.
Definition str_builder_clear (sb : str_builder_t) : str_builder_t :=
  EmptyString.

Notation "sb +> s" := (str_builder_add_str sb s)
  (at level 50, left associativity).

(** The characters libcurl leaves alone: alphanumerics and [- . _ ~]. *)
Definition is_unreserved (c : ascii) : bool :=
  let n := N_of_ascii c in
  ((48 <=? n) && (n <=? 57) || (65 <=? n) && (n <=? 90)
   || (97 <=? n) && (n <=? 122)
   || (n =? 45) || (n =? 46) || (n =? 95) || (n =? 126))%N.

(** The escape [%HH] libcurl emits for one byte. *)
Definition percent_escape (c : ascii) : string :=
  let n := Z.of_N (N_of_ascii c) in
  String "%"%char
    (String (digit_of hex_upper (n / 16))
       (String (digit_of hex_upper (n mod 16)) EmptyString)).

Definition escape_char (c : ascii) : string :=
  if is_unreserved c then String c EmptyString else percent_escape c.

(** Modelled from the spec: libcurl's [curl_easy_escape] is an external
    library that is not among the sources.  The design document's
    [uri_encode(s)] percent-encodes every byte outside the unreserved set
    [A-Z a-z 0-9 - _ . ~] with uppercase hexadecimal digits. *)
Fixpoint curl_easy_escape (s : string) : string :=
  match s with
  | EmptyString => EmptyString
  | String c r => escape_char c ++ curl_easy_escape r
  end.

(* ------------------------------------------------------------------ *)
(** ** rdkafka_aws.c: the signing engine *)

(** [rd_kafka_aws_uri_encode]: the escaped string is copied into a buffer of
    [strlen(encoded) + 1] bytes.  [curl_easy_init], like the allocator, is
    taken to succeed. *)
Definition rd_kafka_aws_uri_encode (in_ : string) : string :=
  let encoded := curl_easy_escape in_ in
  let ret_len := (strlen encoded + 1)%nat in
  String.substring 0 (ret_len - 1) encoded.

(** [rd_kafka_aws_hmac_sha256]: the result buffer and its length. *)
Definition rd_kafka_aws_hmac_sha256 (key data : bytes) : bytes :=
  SHA256.hmac_sha256 key data.

Definition rd_kafka_aws_construct_amz_date (ymd hms : string) : string :=
  let amz_date_size := (strlen ymd + strlen hms + strlen "TZ" + 1)%nat in
  rd_snprintf amz_date_size (ymd ++ "T" ++ hms ++ "Z").

Definition rd_kafka_aws_construct_authorization_header
    (algorithm aws_access_key_id credential_scope signed_headers
       signature : string) : string :=
  let sb := str_builder_create
      +> algorithm +> " Credential=" +> aws_access_key_id +> "/"
      +> credential_scope +> ", SignedHeaders=" +> signed_headers
      +> ", Signature=" +> signature in
  str_builder_dump sb.

Definition rd_kafka_aws_construct_credential_scope
    (ymd aws_region aws_service : string) : string :=
  let credential_scope_size :=
    (strlen ymd + strlen aws_region + strlen aws_service
     + strlen "///aws4_request" + 1)%nat in
  rd_snprintf credential_scope_size
    (ymd ++ "/" ++ aws_region ++ "/" ++ aws_service ++ "/aws4_request").

(** [rd_kafka_aws_build_sasl_canonical_querystring]; [rk] only receives a
    debug line and is left out. *)
Definition rd_kafka_aws_build_sasl_canonical_querystring
    (action aws_access_key_id aws_region ymd hms aws_service : string)
    (aws_security_token : option string) : string :=
  let uri_action := rd_kafka_aws_uri_encode action in
  let credential_scope :=
    rd_kafka_aws_construct_credential_scope ymd aws_region aws_service in
  let sb := str_builder_create
      +> aws_access_key_id +> "/" +> credential_scope in
  let credential := str_builder_dump sb in
  let sb := str_builder_clear sb in
  let uri_credential := rd_kafka_aws_uri_encode credential in
  let amz_date := rd_kafka_aws_construct_amz_date ymd hms in
  let uri_amz_date := rd_kafka_aws_uri_encode amz_date in
  let sb := sb
      +> "Action=" +> uri_action +> "&"
      +> "X-Amz-Algorithm=AWS4-HMAC-SHA256&"
      +> "X-Amz-Credential=" +> uri_credential +> "&"
      +> "X-Amz-Date=" +> uri_amz_date +> "&"
      +> "X-Amz-Expires=900&" in
  let sb :=
    match aws_security_token with
    | Some token =>
        let uri_amz_security_token := rd_kafka_aws_uri_encode token in
        sb +> "X-Amz-Security-Token=" +> uri_amz_security_token +> "&"
    | None => sb
    end in
  let sb := sb +> "X-Amz-SignedHeaders=host" in
  str_builder_dump sb.

(** [rd_kafka_aws_build_canonical_request].  [payload_hash] has room for 64
    characters, which is what a 32-byte digest fills. *)
Definition rd_kafka_aws_build_canonical_request
    (method canonical_query_string canonical_headers signed_headers
       request_parameters : string) (md : EVP_MD) : string :=
  let md_value := md (bytes_of_string request_parameters) in
  let payload_hash := hex_of_bytes md_value in
  let sb := str_builder_create
      +> method +> LF
      +> "/" +> LF
      +> canonical_query_string +> LF
      +> canonical_headers +> LF
      +> signed_headers +> LF
      +> payload_hash in
  str_builder_dump sb.

Definition rd_kafka_aws_build_string_to_sign
    (algorithm credential_scope amz_date canonical_request : string)
    (md : EVP_MD) : string :=
  let md_value := md (bytes_of_string canonical_request) in
  let hashed_canonical_request := hex_of_bytes md_value in
  let sb := str_builder_create
      +> algorithm +> LF
      +> amz_date +> LF
      +> credential_scope +> LF
      +> hashed_canonical_request in
  str_builder_dump sb.

Definition rd_kafka_aws_build_signature
    (aws_secret_access_key aws_region ymd aws_service
       string_to_sign : string) : string :=
  let sb := str_builder_create +> "AWS4" +> aws_secret_access_key in
  let date_key := str_builder_dump sb in
  let hmac_date_key :=
    rd_kafka_aws_hmac_sha256 (bytes_of_string date_key)
                             (bytes_of_string ymd) in
  let hmac_date_region_key :=
    rd_kafka_aws_hmac_sha256 hmac_date_key (bytes_of_string aws_region) in
  let hmac_date_region_service_key :=
    rd_kafka_aws_hmac_sha256 hmac_date_region_key
                             (bytes_of_string aws_service) in
  let hmac_signing_key :=
    rd_kafka_aws_hmac_sha256 hmac_date_region_service_key
                             (bytes_of_string "aws4_request") in
  let hmac_signature :=
    rd_kafka_aws_hmac_sha256 hmac_signing_key
                             (bytes_of_string string_to_sign) in
  let res_hexstring := hex_of_bytes hmac_signature in
  rd_strdup res_hexstring.

(** [rd_kafka_aws_build_sasl_payload]; [rk] only receives debug lines. *)
Definition rd_kafka_aws_build_sasl_payload
    (ymd hms host aws_access_key_id aws_secret_access_key : string)
    (aws_security_token : option string)
    (aws_region aws_service method algorithm canonical_headers
       canonical_querystring signed_headers request_parameters : string)
    (md : EVP_MD) : string :=
  let canonical_request :=
    rd_kafka_aws_build_canonical_request method canonical_querystring
      canonical_headers signed_headers request_parameters md in
  let credential_scope :=
    rd_kafka_aws_construct_credential_scope ymd aws_region aws_service in
  let amz_date := rd_kafka_aws_construct_amz_date ymd hms in
  let string_to_sign :=
    rd_kafka_aws_build_string_to_sign algorithm credential_scope amz_date
      canonical_request md in
  let signature :=
    rd_kafka_aws_build_signature aws_secret_access_key aws_region ymd
      aws_service string_to_sign in
  let sb := str_builder_create
      +> c_lit "{'version':'2020_10_22',"
      +> c_lit "'host':'" +> host +> c_lit "',"
      +> c_lit "'user-agent':'librdkafka',"
      +> c_lit "'action':'" +> "kafka-cluster:Connect" +> c_lit "',"
      +> c_lit "'x-amz-algorithm':'AWS4-HMAC-SHA256',"
      +> c_lit "'x-amz-credential':'" +> aws_access_key_id +> "/"
      +> credential_scope +> c_lit "',"
      +> c_lit "'x-amz-date':'" +> amz_date +> c_lit "'," in
  let sb :=
    match aws_security_token with
    | Some token =>
        sb +> c_lit "'x-amz-security-token':'" +> token +> c_lit "',"
    | None => sb
    end in
  let sb := sb
      +> c_lit "'x-amz-signedheaders':'host',"
      +> c_lit "'x-amz-expires':'900',"
      +> c_lit "'x-amz-signature':'" +> signature +> c_lit "'}" in
  str_builder_dump sb.

(** The inputs of [unittest_build_signature], with the header block as the
    per-connection state machine builds it. *)
Definition scenario2_querystring : string :=
  rd_kafka_aws_build_sasl_canonical_querystring "kafka-cluster:Connect"
    "AWS_ACCESS_KEY_ID" "us-east-1" "20100101" "000000" "kafka-cluster" None.

Definition scenario2_canonical_request : string :=
  rd_kafka_aws_build_canonical_request "GET" scenario2_querystring
    ("host:" ++ "hostname" ++ LF) "host" "" EVP_get_digestbyname_SHA256.

Definition scenario2_string_to_sign : string :=
  rd_kafka_aws_build_string_to_sign "AWS4-HMAC-SHA256"
    (rd_kafka_aws_construct_credential_scope "20100101" "us-east-1"
       "kafka-cluster")
    (rd_kafka_aws_construct_amz_date "20100101" "000000")
    scenario2_canonical_request EVP_get_digestbyname_SHA256.

(* ------------------------------------------------------------------ *)
(** ** Machine integers and formatting *)

(** Two's-complement wrap-around of [int64_t], [int] and [unsigned long]
    (64 bits wide, as on the LP64 platforms the library is built for). *)
Definition int64 (x : Z) : Z :=
  (x + 9223372036854775808) mod 18446744073709551616 - 9223372036854775808.
Definition int32 (x : Z) : Z :=
  (x + 2147483648) mod 4294967296 - 2147483648.
Definition uint64 (x : Z) : Z := x mod 18446744073709551616.

(** [%d], [%zu] and [%PRId64]: the decimal rendering of an integer. *)
Definition dec (z : Z) : string := NilZero.string_of_int (Z.to_int z).

(** [rd_snprintf(buf, size, ...)] into an existing buffer: nothing is written
    when [size] is 0, otherwise at most [size - 1] characters. *)
Definition rd_snprintf_into (buf : string) (size : nat) (formatted : string)
  : string :=
  match size with
  | O => buf
  | S n => String.substring 0 n formatted
  end.

(** [rd_strlcpy(dst, src, dstsize)]. *)
Definition rd_strlcpy (dst : string) (src : string) (dstsize : nat)
  : string :=
  rd_snprintf_into dst dstsize src.

(** [strcmp(a, b) != 0]. *)
Definition strcmp_ne (a b : string) : bool := negb (String.eqb a b).

(* ------------------------------------------------------------------ *)
(** ** The client instance, its SASL handle and its effects *)

Inductive rd_kafka_resp_err_t : Set :=
| RD_KAFKA_RESP_ERR_NO_ERROR
| RD_KAFKA_RESP_ERR_UNKNOWN
| RD_KAFKA_RESP_ERR__INVALID_ARG
| RD_KAFKA_RESP_ERR__STATE
| RD_KAFKA_RESP_ERR__AUTHENTICATION.

Definition resp_err_eqb (a b : rd_kafka_resp_err_t) : bool :=
  match a, b with
  | RD_KAFKA_RESP_ERR_NO_ERROR, RD_KAFKA_RESP_ERR_NO_ERROR
  | RD_KAFKA_RESP_ERR_UNKNOWN, RD_KAFKA_RESP_ERR_UNKNOWN
  | RD_KAFKA_RESP_ERR__INVALID_ARG, RD_KAFKA_RESP_ERR__INVALID_ARG
  | RD_KAFKA_RESP_ERR__STATE, RD_KAFKA_RESP_ERR__STATE
  | RD_KAFKA_RESP_ERR__AUTHENTICATION, RD_KAFKA_RESP_ERR__AUTHENTICATION =>
      true
  | _, _ => false
  end.

(** What [rk->rk_conf.sasl.provider] points to. *)
Inductive sasl_provider_t : Set :=
| rd_kafka_sasl_aws_msk_iam_provider
| other_sasl_provider.

Module Conf.
Record sasl_t : Set := mk {
  provider : sasl_provider_t;
  aws_access_key_id : option string;
  aws_secret_access_key : option string;
  aws_region : option string;
  enable_use_sts : bool;
  role_arn : option string;
  role_session_name : option string;
  aws_external_id : option string;
  duration_sec : Z }.
End Conf.

(** Modelled from the spec: [rdkafka_timer.c] is not among the sources.  A
    timer remembers whether it is armed, its period, and the delay until its
    next fire; [rd_kafka_timer_start] (re)arms it one period out and
    [rd_kafka_timer_override_once] replaces the delay of the next fire only. *)
Record rd_kafka_timer_t : Set := mk_timer {
  rtmr_started : bool;
  rtmr_interval : Z;
  rtmr_next_in : Z }.

Definition rd_kafka_timer_start (interval : Z) : rd_kafka_timer_t :=
  mk_timer true interval interval.

Definition rd_kafka_timer_override_once (t : rd_kafka_timer_t) (delay : Z)
  : rd_kafka_timer_t :=
  mk_timer (rtmr_started t) (rtmr_interval t) delay.

Definition timer_zero : rd_kafka_timer_t := mk_timer false 0 0.

Module Handle.
(** [rd_kafka_sasl_aws_msk_iam_handle_t]; the lock shows up as events and
    the back-pointer is the enclosing client. *)
Record t : Set := mk {
  aws_access_key_id : option string;
  aws_secret_access_key : option string;
  aws_region : option string;
  aws_security_token : option string;
  errstr : option string;
  credential_refresh_tmr : rd_kafka_timer_t }.

Definition calloc : t := mk None None None None None timer_zero.
End Handle.

(** The effects on the rest of the client, in program order. *)
Inductive event : Set :=
| Ev_rwlock_wrlock
| Ev_rwlock_wrunlock
| Ev_rwlock_rdlock
| Ev_rwlock_rdunlock
| Ev_timer_start (interval : Z)
| Ev_timer_override_once (delay : Z)
| Ev_all_brokers_wakeup (reason : string)
| Ev_op_err (err : rd_kafka_resp_err_t) (text : string).

Record rd_kafka_t : Set := mk_rk {
  rk_conf : Conf.sasl_t;
  rk_sasl_handle : option Handle.t;
  rk_events : list event }.

Definition emit (rk : rd_kafka_t) (e : event) : rd_kafka_t :=
  mk_rk (rk_conf rk) (rk_sasl_handle rk) (rk_events rk ++ [e])%list.

Definition set_handle (rk : rd_kafka_t) (h : Handle.t) : rd_kafka_t :=
  mk_rk (rk_conf rk) (Some h) (rk_events rk).

(** The guard [rk->rk_conf.sasl.provider != &rd_kafka_sasl_aws_msk_iam_provider
    || !handle]: the handle when the guard lets the call through. *)
Definition configured_handle (rk : rd_kafka_t) : option Handle.t :=
  match Conf.provider (rk_conf rk) with
  | rd_kafka_sasl_aws_msk_iam_provider => rk_sasl_handle rk
  | other_sasl_provider => None
  end.

(* ------------------------------------------------------------------ *)
(** ** The credential store *)

(** [rd_kafka_aws_msk_iam_set_credential].  [uclock] is what [rd_uclock()]
    returns (wall clock, microseconds); the result carries the caller's
    [errstr] buffer, and [None] is a NULL string reaching [rd_strdup]. *)
Definition rd_kafka_aws_msk_iam_set_credential (rk : rd_kafka_t)
    (aws_access_key_id aws_secret_access_key aws_region : option string)
    (aws_security_token : option string) (md_lifetime_ms : Z)
    (uclock : Z) (errstr : string) (errstr_size : nat)
  : option (rd_kafka_resp_err_t * rd_kafka_t * string) :=
  let wts_md_lifetime := int64 (md_lifetime_ms * 1000) in
  match configured_handle rk with
  | None =>
      Some (RD_KAFKA_RESP_ERR__STATE, rk,
            rd_snprintf_into errstr errstr_size
              ("SASL/AWS_MSK_IAM is not the "
               ++ "configured authentication mechanism"))
  | Some handle =>
      let now_wallclock := uclock in
      if (wts_md_lifetime <=? now_wallclock)%Z then
        Some (RD_KAFKA_RESP_ERR__INVALID_ARG, rk,
              rd_snprintf_into errstr errstr_size
                ("Must supply an unexpired token: "
                 ++ "now=" ++ dec (Z.quot now_wallclock 1000)
                 ++ "ms, exp=" ++ dec (Z.quot wts_md_lifetime 1000)
                 ++ "ms"))
      else
        match aws_access_key_id, aws_secret_access_key, aws_region with
        | Some aws_access_key_id, Some aws_secret_access_key,
          Some aws_region =>
        let rk := emit rk Ev_rwlock_wrlock in
        let interval :=
          int64 (uint64 (uint64 (int64 (wts_md_lifetime - now_wallclock))
                         * 8) / 10) in
        let handle :=
          Handle.mk (Some (rd_strdup aws_access_key_id))
                    (Some (rd_strdup aws_secret_access_key))
                    (Some (rd_strdup aws_region))
                    (match aws_security_token with
                     | Some token => Some (rd_strdup token)
                     | None => None
                     end)
                    None
                    (rd_kafka_timer_start interval) in
        let rk := emit (set_handle rk handle) (Ev_timer_start interval) in
        let rk := emit rk Ev_rwlock_wrunlock in
        let rk :=
          emit rk (Ev_all_brokers_wakeup "AWS_MSK_IAM credential refresh") in
        Some (RD_KAFKA_RESP_ERR_NO_ERROR, rk, errstr)
        | _, _, _ => None
        end
  end.

(** [rd_kafka_aws_msk_iam_set_credential_failure]. *)
Definition rd_kafka_aws_msk_iam_set_credential_failure (rk : rd_kafka_t)
    (errstr : option string) : rd_kafka_t :=
  match configured_handle rk with
  | None => rk
  | Some handle =>
      let rk := emit rk Ev_rwlock_wrlock in
      let interval := 10 * 1000 * 1000 in
      let handle :=
        Handle.mk (Handle.aws_access_key_id handle)
                  (Handle.aws_secret_access_key handle)
                  (Handle.aws_region handle)
                  (Handle.aws_security_token handle)
                  (Handle.errstr handle)
                  (rd_kafka_timer_start interval) in
      let rk := emit (set_handle rk handle) (Ev_timer_start interval) in
      match errstr with
      | None | Some EmptyString => emit rk Ev_rwlock_wrunlock
      | Some errstr =>
          let error_changed :=
            match Handle.errstr handle with
            | None => true
            | Some old => strcmp_ne old errstr
            end in
          let handle :=
            Handle.mk (Handle.aws_access_key_id handle)
                      (Handle.aws_secret_access_key handle)
                      (Handle.aws_region handle)
                      (Handle.aws_security_token handle)
                      (Some (rd_strdup errstr))
                      (Handle.credential_refresh_tmr handle) in
          let rk := emit (set_handle rk handle) Ev_rwlock_wrunlock in
          if error_changed then
            emit rk (Ev_op_err RD_KAFKA_RESP_ERR__AUTHENTICATION
                       ("Failed to acquire SASL AWS_MSK_IAM credential: "
                        ++ errstr))
          else rk
      end
  end.

(** [rd_kafka_sasl_aws_msk_iam_init]: the handle is allocated before the
    provider check, so the check can only fail on the provider. *)
Definition rd_kafka_sasl_aws_msk_iam_init (rk : rd_kafka_t)
    (errstr : string) (errstr_size : nat)
  : option (rd_kafka_resp_err_t * rd_kafka_t * string) :=
  let conf := rk_conf rk in
  let handle := Handle.calloc in
  let rk := set_handle rk handle in
  match configured_handle rk with
  | None =>
      Some (RD_KAFKA_RESP_ERR__STATE, rk,
            rd_snprintf_into errstr errstr_size
              ("SASL/AWS_MSK_IAM is not the "
               ++ "configured authentication mechanism"))
  | Some handle =>
      match Conf.aws_access_key_id conf, Conf.aws_secret_access_key conf,
            Conf.aws_region conf with
      | Some key, Some secret, Some region =>
          let rk := emit rk Ev_rwlock_wrlock in
          let handle :=
            Handle.mk (Some (rd_strdup key)) (Some (rd_strdup secret))
                      (Some (rd_strdup region))
                      (Handle.aws_security_token handle)
                      (Handle.errstr handle)
                      (Handle.credential_refresh_tmr handle) in
          let '(handle, rk) :=
            if Conf.enable_use_sts conf && (0 <? Conf.duration_sec conf)%Z then
              let interval :=
                uint64 (uint64 (uint64 (Conf.duration_sec conf) * 800)
                        * 1000) in
              let tmr :=
                rd_kafka_timer_override_once
                  (rd_kafka_timer_start interval) 0 in
              (Handle.mk (Handle.aws_access_key_id handle)
                         (Handle.aws_secret_access_key handle)
                         (Handle.aws_region handle)
                         (Handle.aws_security_token handle)
                         (Handle.errstr handle) tmr,
               emit (emit rk (Ev_timer_start interval))
                    (Ev_timer_override_once 0))
            else (handle, rk) in
          let handle :=
            Handle.mk (Handle.aws_access_key_id handle)
                      (Handle.aws_secret_access_key handle)
                      (Handle.aws_region handle)
                      (Handle.aws_security_token handle)
                      None
                      (Handle.credential_refresh_tmr handle) in
          Some (RD_KAFKA_RESP_ERR_NO_ERROR,
                emit (set_handle rk handle) Ev_rwlock_wrunlock, errstr)
      | _, _, _ => None
      end
  end.

(* ------------------------------------------------------------------ *)
(** ** The per-connection authenticator *)

Inductive fsm_state_t : Set :=
| RD_KAFKA_SASL_AWS_MSK_IAM_SEND_CLIENT_FIRST_MESSAGE
| RD_KAFKA_SASL_AWS_MSK_IAM_RECEIVE_SERVER_RESPONSE.

Module State.
(** [struct rd_kafka_sasl_aws_msk_iam_state]. *)
Record t : Type := mk {
  state : fsm_state_t;
  md : option EVP_MD;
  hostname : option string;
  aws_access_key_id : option string;
  aws_secret_access_key : option string;
  aws_region : option string;
  aws_security_token : option string }.

Definition calloc : t :=
  mk RD_KAFKA_SASL_AWS_MSK_IAM_SEND_CLIENT_FIRST_MESSAGE
     None None None None None None.

Definition set_state (s : t) (st : fsm_state_t) : t :=
  mk st (md s) (hostname s) (aws_access_key_id s) (aws_secret_access_key s)
     (aws_region s) (aws_security_token s).
End State.

(** [rd_chariov_t]: [ptr] is the text found at the pointer (what [%s]
    prints), [size] the length the transport announced. *)
Record rd_chariov_t : Set := mk_chariov {
  ptr : string;
  size : nat }.

(** The part of [rd_kafka_transport_t] the provider touches: its state
    object, the frames handed to [rd_kafka_sasl_send], and whether
    [rd_kafka_sasl_auth_done] was called. *)
Record rd_kafka_transport_t : Type := mk_transport {
  rktrans_sasl_state : option State.t;
  rktrans_sent : list string;
  rktrans_auth_done : bool }.

(** What the surroundings supply during one step of the state machine: the
    UTC date and time [strftime] renders from [time()], and the outcome of
    [rd_kafka_sasl_send] ([None]: sent, returns 0; [Some e]: returns -1 with
    [e] in [errstr]). *)
Record fsm_env_t : Type := mk_env {
  env_ymd : string;
  env_hms : string;
  env_sasl_send : string -> option string }.

(** [rd_kafka_sasl_auth_done]. *)
Definition rd_kafka_sasl_auth_done (rktrans : rd_kafka_transport_t)
  : rd_kafka_transport_t :=
  mk_transport (rktrans_sasl_state rktrans) (rktrans_sent rktrans) true.

(** [rd_kafka_sasl_send]. *)
Definition rd_kafka_sasl_send (env : fsm_env_t)
    (rktrans : rd_kafka_transport_t) (payload : string)
    (errstr : string) (errstr_size : nat)
  : Z * rd_kafka_transport_t * string :=
  let rktrans :=
    mk_transport (rktrans_sasl_state rktrans)
                 (rktrans_sent rktrans ++ [payload])%list
                 (rktrans_auth_done rktrans) in
  match env_sasl_send env payload with
  | None => (0, rktrans, errstr)
  | Some e => (-1, rktrans, rd_snprintf_into errstr errstr_size e)
  end%Z.

(** [rd_kafka_sasl_aws_msk_iam_build_client_first_message]: the frame put in
    [out].  The fields of the state are dereferenced without a check. *)
Definition rd_kafka_sasl_aws_msk_iam_build_client_first_message
    (env : fsm_env_t) (state : State.t) : option rd_chariov_t :=
  let aws_service := "kafka-cluster" in
  let algorithm := "AWS4-HMAC-SHA256" in
  let signed_headers := "host" in
  let method := "GET" in
  let request_parameters := "" in
  let action := "kafka-cluster:Connect" in
  let ymd := env_ymd env in
  let hms := env_hms env in
  match State.aws_access_key_id state, State.aws_secret_access_key state,
        State.aws_region state, State.hostname state, State.md state with
  | Some key, Some secret, Some region, Some hostname, Some md =>
      let canonical_querystring :=
        rd_kafka_aws_build_sasl_canonical_querystring action key region
          ymd hms aws_service (State.aws_security_token state) in
      let sb := str_builder_create +> "host:" +> hostname +> LF in
      let canonical_headers := str_builder_dump sb in
      let sasl_payload :=
        rd_kafka_aws_build_sasl_payload ymd hms hostname key secret
          (State.aws_security_token state) region aws_service method
          algorithm canonical_headers canonical_querystring signed_headers
          request_parameters md in
      let out_size := strlen sasl_payload in
      Some (mk_chariov (rd_snprintf (out_size + 1) sasl_payload) out_size)
  | _, _, _, _, _ => None
  end.

(** [rd_kafka_sasl_aws_msk_iam_handle_server_response]. *)
Definition rd_kafka_sasl_aws_msk_iam_handle_server_response
    (rktrans : rd_kafka_transport_t) (in_ : rd_chariov_t)
    (errstr : string) (errstr_size : nat)
  : Z * rd_kafka_transport_t * string :=
  (if negb (Nat.eqb (size in_) 0) then
     (0, rd_kafka_sasl_auth_done rktrans, errstr)
   else
     (-1, rktrans,
      rd_snprintf_into errstr errstr_size
        ("SASL AWS MSK IAM authentication failed: "
         ++ "Broker response: " ++ ptr in_)))%Z.

(** [rd_kafka_sasl_aws_msk_iam_fsm]; [None] is a failed [rd_assert] or a
    NULL dereference.  The timing of the step is only logged. *)
Definition rd_kafka_sasl_aws_msk_iam_fsm (env : fsm_env_t)
    (rktrans : rd_kafka_transport_t) (in_ : option rd_chariov_t)
    (errstr : string) (errstr_size : nat)
  : option (Z * rd_kafka_transport_t * string) :=
  match rktrans_sasl_state rktrans with
  | None => None
  | Some state =>
      let r := (-1)%Z in
      match State.state state with
      | RD_KAFKA_SASL_AWS_MSK_IAM_SEND_CLIENT_FIRST_MESSAGE =>
          match in_ with
          | Some _ => None
          | None =>
              match rd_kafka_sasl_aws_msk_iam_build_client_first_message
                      env state with
              | None => None
              | Some out =>
                  let state :=
                    State.set_state state
                      RD_KAFKA_SASL_AWS_MSK_IAM_RECEIVE_SERVER_RESPONSE in
                  let rktrans :=
                    mk_transport (Some state) (rktrans_sent rktrans)
                                 (rktrans_auth_done rktrans) in
                  Some (rd_kafka_sasl_send env rktrans (ptr out)
                          errstr errstr_size)
              end
          end
      | RD_KAFKA_SASL_AWS_MSK_IAM_RECEIVE_SERVER_RESPONSE =>
          match in_ with
          | None => None
          | Some in_ =>
              Some (rd_kafka_sasl_aws_msk_iam_handle_server_response
                      rktrans in_ errstr errstr_size)
          end
      end
  end.

(** [rd_kafka_sasl_aws_msk_iam_recv]. *)
Definition rd_kafka_sasl_aws_msk_iam_recv (env : fsm_env_t)
    (rktrans : rd_kafka_transport_t) (buf : string) (size : nat)
    (errstr : string) (errstr_size : nat)
  : option (Z * rd_kafka_transport_t * string) :=
  let in_ := mk_chariov buf size in
  rd_kafka_sasl_aws_msk_iam_fsm env rktrans (Some in_) errstr errstr_size.

Definition last_error_text (h : Handle.t) : string :=
  match Handle.errstr h with
  | Some e => e
  | None => "(not available)"
  end.

(** [rd_kafka_sasl_aws_msk_iam_client_new]; the result carries the client
    (for the lock events), the transport and the caller's [errstr]. *)
Definition rd_kafka_sasl_aws_msk_iam_client_new (env : fsm_env_t)
    (rk : rd_kafka_t) (rktrans : rd_kafka_transport_t) (hostname : string)
    (errstr : string) (errstr_size : nat)
  : option (Z * rd_kafka_t * rd_kafka_transport_t * string) :=
  match rk_sasl_handle rk with
  | None => None
  | Some handle =>
      let state := State.calloc in
      let rktrans :=
        mk_transport (Some state) (rktrans_sent rktrans)
                     (rktrans_auth_done rktrans) in
      let rk := emit rk Ev_rwlock_rdlock in
      match Handle.aws_access_key_id handle,
            Handle.aws_secret_access_key handle,
            Handle.aws_region handle with
      | Some key, Some secret, Some region =>
          if Conf.enable_use_sts (rk_conf rk)
             && match Handle.aws_security_token handle with
                | None => true
                | Some _ => false
                end
          then
            Some ((-1)%Z, emit rk Ev_rwlock_rdunlock, rktrans,
                  rd_snprintf_into errstr errstr_size
                    ("AWS_MSK_IAM_STS cannot authenticate; last error: "
                     ++ last_error_text handle))
          else
            let state :=
              State.mk (State.state state)
                       (Some EVP_get_digestbyname_SHA256)
                       (Some (rd_strdup hostname))
                       (Some (rd_strdup key))
                       (Some (rd_strdup secret))
                       (Some (rd_strdup region))
                       (match Handle.aws_security_token handle with
                        | Some token => Some (rd_strdup token)
                        | None => State.aws_security_token state
                        end) in
            let rktrans :=
              mk_transport (Some state) (rktrans_sent rktrans)
                           (rktrans_auth_done rktrans) in
            let rk := emit rk Ev_rwlock_rdunlock in
            match rd_kafka_sasl_aws_msk_iam_fsm env rktrans None
                    errstr errstr_size with
            | None => None
            | Some (r, rktrans, errstr) => Some (r, rk, rktrans, errstr)
            end
      | _, _, _ =>
          Some ((-1)%Z, emit rk Ev_rwlock_rdunlock, rktrans,
                rd_snprintf_into errstr errstr_size
                  ("AWS_MSK_IAM cannot log in because there "
                   ++ "is no credentials available; last error: "
                   ++ last_error_text handle))
      end
  end.

(* ------------------------------------------------------------------ *)
(** ** The STS client and the credential refresher *)

Module Credential.
(** [rd_kafka_aws_credential_t]. *)
Record t : Set := mk {
  aws_access_key_id : option string;
  aws_secret_access_key : option string;
  aws_region : option string;
  aws_security_token : option string;
  md_lifetime_ms : Z }.

(** [memset(credential, 0, sizeof( *credential))]. *)
Definition zero : t := mk None None None None 0.
End Credential.

(** Modelled from the spec: libxml2 is an external library that is not among
    the sources.  A parsed document is a tree of named elements and text
    nodes; a text node is named [text]. *)
#[warnings="-register-all"]
Inductive xmlNode : Set :=
| XmlElement (name : string) (children : list xmlNode)
| XmlText (content : string).

Definition xml_name (n : xmlNode) : string :=
  match n with
  | XmlElement name _ => name
  | XmlText _ => "text"
  end.

Definition xml_children (n : xmlNode) : list xmlNode :=
  match n with
  | XmlElement _ children => children
  | XmlText _ => []
  end.

(** Modelled from the spec: [xmlNodeListGetString(doc, list, 1)] of libxml2,
    the text carried by a list of nodes; NULL when the list has no text. *)
Fixpoint xmlNodeListGetString (l : list xmlNode) : option string :=
  match l with
  | [] => None
  | XmlText c :: r =>
      match xmlNodeListGetString r with
      | Some rest => Some (c ++ rest)
      | None => Some c
      end
  | XmlElement _ _ :: r => xmlNodeListGetString r
  end.

(** The loop [while (cur != NULL) { if (!xmlStrcmp(cur->name, name)) break;
    cur = cur->next; }]. *)
Fixpoint xml_find (name : string) (l : list xmlNode) : option xmlNode :=
  match l with
  | [] => None
  | n :: r => if String.eqb (xml_name n) name then Some n else xml_find name r
  end.

(** [struct tm], the fields the program sets. *)
Record tm : Set := mk_tm {
  tm_year : Z; tm_mon : Z; tm_mday : Z;
  tm_hour : Z; tm_min : Z; tm_sec : Z }.

(** The C library calls on the [Expiration] text.  [libc_sscanf] is
    [sscanf(content, "%4d-%2d-%2dT%2d:%2d:%fZ", ...) == 6] with the six
    values it stored (the seconds already truncated to an integer, as the
    assignment to [tm_sec] does); [libc_mktime] is [mktime]. *)
Record libc_t : Type := mk_libc {
  libc_sscanf : string -> option tm;
  libc_mktime : tm -> Z }.

(** What [curl_easy_perform] and [xmlReadMemory] hand back. *)
Inductive sts_reply_t : Set :=
| Curl_failed (curl_errbuf : string)
| Curl_ok (document : option xmlNode).

(** The request given to libcurl. *)
Record http_request_t : Set := mk_request {
  req_method : string;
  req_url : string;
  req_headers : list string;
  req_postfields : string }.

(** One iteration of the loop over the children of [Credentials]; [None] is
    a NULL handed to [rd_strdup] or [sscanf]. *)
Definition sts_credentials_child (libc : libc_t)
    (credential : option Credential.t) (cur : xmlNode)
  : option Credential.t :=
  match credential with
  | None => None
  | Some credential =>
      let content := xmlNodeListGetString (xml_children cur) in
      let step1 :=
        if String.eqb (xml_name cur) "AccessKeyId" then
          match content with
          | None => None
          | Some c =>
              Some (Credential.mk (Some (rd_strdup c))
                      (Credential.aws_secret_access_key credential)
                      (Credential.aws_region credential)
                      (Credential.aws_security_token credential)
                      (Credential.md_lifetime_ms credential))
          end
        else Some credential in
      let step2 :=
        match step1 with
        | None => None
        | Some credential =>
            if String.eqb (xml_name cur) "SecretAccessKey" then
              match content with
              | None => None
              | Some c =>
                  Some (Credential.mk
                          (Credential.aws_access_key_id credential)
                          (Some (rd_strdup c))
                          (Credential.aws_region credential)
                          (Credential.aws_security_token credential)
                          (Credential.md_lifetime_ms credential))
              end
            else Some credential
        end in
      let step3 :=
        match step2 with
        | None => None
        | Some credential =>
            if String.eqb (xml_name cur) "SessionToken" then
              match content with
              | None => None
              | Some c =>
                  Some (Credential.mk
                          (Credential.aws_access_key_id credential)
                          (Credential.aws_secret_access_key credential)
                          (Credential.aws_region credential)
                          (Some (rd_strdup c))
                          (Credential.md_lifetime_ms credential))
              end
            else Some credential
        end in
      match step3 with
      | None => None
      | Some credential =>
          if String.eqb (xml_name cur) "Expiration" then
            match content with
            | None => None
            | Some c =>
                match libc_sscanf libc c with
                | Some scanned =>
                    let tm :=
                      mk_tm (int32 (tm_year scanned - 1900))
                            (int32 (tm_mon scanned - 1))
                            (tm_mday scanned) (tm_hour scanned)
                            (tm_min scanned) (tm_sec scanned) in
                    let epochSec := libc_mktime libc tm in
                    if (0 <? epochSec)%Z then
                      Some (Credential.mk
                              (Credential.aws_access_key_id credential)
                              (Credential.aws_secret_access_key credential)
                              (Credential.aws_region credential)
                              (Credential.aws_security_token credential)
                              (int64 (epochSec * 1000)))
                    else Some credential
                | None => Some credential
                end
            end
          else Some credential
      end
  end.

(** The libxml2 block of [rd_kafka_aws_send_request]: the return code, the
    credential and the error buffer after the document was walked. *)
Definition sts_parse_document (libc : libc_t) (document : option xmlNode)
    (credential : Credential.t) (errbuf : option string)
    (errbuf_size : nat)
  : option (rd_kafka_resp_err_t * Credential.t * option string) :=
  let ret := RD_KAFKA_RESP_ERR_UNKNOWN in
  match document with
  | None => Some (ret, credential, errbuf)
  | Some root =>
      if String.eqb (xml_name root) "ErrorResponse" then
        match errbuf with
        | None => Some (ret, credential, errbuf)
        | Some buf =>
            match xml_find "Error" (xml_children root) with
            | None => Some (ret, credential, errbuf)
            | Some err =>
                match
                  fold_left
                    (fun (acc : option string) (cur : xmlNode) =>
                       match acc with
                       | None => None
                       | Some buf =>
                           if String.eqb (xml_name cur) "Message" then
                             match xmlNodeListGetString (xml_children cur)
                             with
                             | None => None
                             | Some content =>
                                 Some (rd_strlcpy buf content errbuf_size)
                             end
                           else Some buf
                       end)
                    (xml_children err) (Some buf)
                with
                | None => None
                | Some buf => Some (ret, credential, Some buf)
                end
            end
        end
      else
        match xml_find "AssumeRoleResult" (xml_children root) with
        | None => Some (ret, credential, errbuf)
        | Some result =>
            match xml_find "Credentials" (xml_children result) with
            | None => Some (ret, credential, errbuf)
            | Some creds =>
                match fold_left (sts_credentials_child libc)
                        (xml_children creds) (Some credential) with
                | None => None
                | Some credential =>
                    Some (RD_KAFKA_RESP_ERR_NO_ERROR, credential, errbuf)
                end
            end
        end
  end.

(** [rd_kafka_aws_send_request]; the TLS options copied from the
    configuration into the curl handle are left out.  The result carries the
    request handed to libcurl. *)
Definition rd_kafka_aws_send_request (libc : libc_t) (reply : sts_reply_t)
    (credential : Credential.t)
    (ymd hms host aws_access_key_id aws_secret_access_key aws_region
       aws_service method algorithm canonical_headers signed_headers
       request_parameters : string) (md : EVP_MD)
    (errbuf : option string) (errbuf_size : nat)
  : option (rd_kafka_resp_err_t * Credential.t * option string
            * http_request_t) :=
  let canonical_request :=
    rd_kafka_aws_build_canonical_request method "" canonical_headers
      signed_headers request_parameters md in
  let credential_scope :=
    rd_kafka_aws_construct_credential_scope ymd aws_region aws_service in
  let amz_date := rd_kafka_aws_construct_amz_date ymd hms in
  let string_to_sign :=
    rd_kafka_aws_build_string_to_sign algorithm credential_scope amz_date
      canonical_request md in
  let signature :=
    rd_kafka_aws_build_signature aws_secret_access_key aws_region ymd
      aws_service string_to_sign in
  let authorization_header :=
    rd_kafka_aws_construct_authorization_header algorithm aws_access_key_id
      credential_scope signed_headers signature in
  let curl_host := str_builder_dump (str_builder_create +> "https://" +> host) in
  let curl_host_header :=
    str_builder_dump (str_builder_create +> "Host: " +> host) in
  let content_length :=
    rd_snprintf 256 (dec (Z.of_nat (strlen request_parameters))) in
  let curl_content_length_header :=
    str_builder_dump
      (str_builder_create +> "Content-Length: " +> content_length) in
  let curl_auth_header :=
    str_builder_dump
      (str_builder_create +> "Authorization: " +> authorization_header) in
  let curl_amz_date_header :=
    str_builder_dump (str_builder_create +> "X-Amz-Date: " +> amz_date) in
  let headers :=
    [ curl_host_header; "User-Agent: librdkafka";
      curl_content_length_header;
      "Content-Type: application/x-www-form-urlencoded; charset=utf-8";
      curl_auth_header; curl_amz_date_header; "Accept-Encoding: gzip" ] in
  let request := mk_request method curl_host headers request_parameters in
  let walked :=
    match reply with
    | Curl_failed curl_errbuf =>
        Some (RD_KAFKA_RESP_ERR_UNKNOWN, credential,
              match errbuf with
              | Some buf => Some (rd_strlcpy buf curl_errbuf errbuf_size)
              | None => None
              end)
    | Curl_ok document =>
        sts_parse_document libc document credential errbuf errbuf_size
    end in
  match walked with
  | None => None
  | Some (ret, credential, errbuf) =>
      let errbuf :=
        match errbuf with
        | Some EmptyString =>
            if resp_err_eqb ret RD_KAFKA_RESP_ERR_NO_ERROR then errbuf
            else Some (rd_strlcpy EmptyString
                         "AWS send request: unknown error" errbuf_size)
        | _ => errbuf
        end in
      Some (ret, credential, errbuf, request)
  end.

(** What the surroundings supply during one refresh: the UTC date and time
    of [time()], the two readings of [rd_uclock()] (before the STS call and
    inside the installer) and the answer of STS. *)
Record refresh_env_t : Type := mk_refresh_env {
  renv_ymd : string;
  renv_hms : string;
  renv_uclock_refresh : Z;
  renv_uclock_install : Z;
  renv_reply : sts_reply_t;
  renv_libc : libc_t }.

(** The credential [rd_kafka_aws_msk_iam_credential_refresh0] hands to
    [rd_kafka_aws_send_request]: zeroed, then the region and the lifetime
    computed from the clock and [aws.duration.sec]. *)
Definition refresh0_initial_credential (conf : Conf.sasl_t)
    (aws_region : string) (uclock : Z) : Credential.t :=
  let credential := Credential.zero in
  Credential.mk (Credential.aws_access_key_id credential)
                (Credential.aws_secret_access_key credential)
                (Some (rd_strdup aws_region))
                (Credential.aws_security_token credential)
                (int64 (Z.quot uclock 1000
                        + int32 (Conf.duration_sec conf * 1000))).

(** [rd_kafka_aws_msk_iam_credential_refresh0]; [None] is a NULL among the
    configuration strings it copies or a NULL met while parsing. *)
Definition rd_kafka_aws_msk_iam_credential_refresh0 (env : refresh_env_t)
    (rk : rd_kafka_t) (errstr : string) (errstr_size : nat)
  : option (rd_kafka_resp_err_t * rd_kafka_t * Credential.t * string
            * http_request_t) :=
  let conf := rk_conf rk in
  let ymd := renv_ymd env in
  let hms := renv_hms env in
  match Conf.aws_access_key_id conf, Conf.aws_secret_access_key conf,
        Conf.aws_region conf, Conf.role_arn conf,
        Conf.role_session_name conf with
  | Some key, Some secret, Some region, Some arn, Some session_name =>
      let rk := emit rk Ev_rwlock_wrlock in
      let aws_access_key_id := rd_strdup key in
      let aws_secret_access_key := rd_strdup secret in
      let aws_region := rd_strdup region in
      let role_arn := rd_kafka_aws_uri_encode arn in
      let role_session_name := rd_strdup session_name in
      let external_id :=
        match Conf.aws_external_id conf with
        | Some id => Some (rd_kafka_aws_uri_encode id)
        | None => None
        end in
      let duration_sec := rd_snprintf 256 (dec (Conf.duration_sec conf)) in
      let action := "AssumeRole" in
      let version := "2011-06-15" in
      let rk := emit rk Ev_rwlock_wrunlock in
      let host := "sts.amazonaws.com" in
      let aws_service := "sts" in
      let method := "POST" in
      let algorithm := "AWS4-HMAC-SHA256" in
      let md := EVP_get_digestbyname_SHA256 in
      let signed_headers := "content-length;content-type;host;x-amz-date" in
      let sb := str_builder_create
          +> "Action=" +> action
          +> "&DurationSeconds=" +> duration_sec
          +> "&RoleArn=" +> role_arn
          +> "&RoleSessionName=" +> role_session_name in
      let sb :=
        match external_id with
        | Some id => sb +> "&ExternalId=" +> id
        | None => sb
        end in
      let sb := sb +> "&Version=" +> version in
      let request_parameters := str_builder_dump sb in
      let sb := str_builder_clear sb in
      let content_length :=
        rd_snprintf 256 (dec (Z.of_nat (strlen request_parameters))) in
      let sb := sb
          +> "content-length:" +> content_length +> LF
          +> "content-type:application/x-www-form-urlencoded; charset=utf-8"
          +> LF
          +> "host:" +> host +> LF
          +> "x-amz-date:" +> ymd +> "T" +> hms +> "Z" +> LF in
      let canonical_headers := str_builder_dump sb in
      let credential :=
        refresh0_initial_credential conf aws_region
          (renv_uclock_refresh env) in
      match rd_kafka_aws_send_request (renv_libc env) (renv_reply env)
              credential ymd hms host aws_access_key_id
              aws_secret_access_key aws_region aws_service method algorithm
              canonical_headers signed_headers request_parameters md
              (Some errstr) errstr_size with
      | None => None
      | Some (ret, credential, errbuf, request) =>
          Some (ret, rk, credential,
                match errbuf with Some e => e | None => errstr end,
                request)
      end
  | _, _, _, _, _ => None
  end.

(** [rd_kafka_aws_msk_iam_credential_refresh], what the timer callback runs;
    [errstr] starts as the empty 512-byte buffer.  [None] is a NULL string
    reaching [rd_strdup]. *)
Definition rd_kafka_aws_msk_iam_credential_refresh (env : refresh_env_t)
    (rk : rd_kafka_t) : option rd_kafka_t :=
  let errstr := EmptyString in
  let errstr_size := 512%nat in
  if Conf.enable_use_sts (rk_conf rk) then
    match rd_kafka_aws_msk_iam_credential_refresh0 env rk errstr
            errstr_size with
    | None => None
    | Some (ret, rk, credential, errstr, _) =>
        if negb (resp_err_eqb ret RD_KAFKA_RESP_ERR_NO_ERROR) then
          Some (rd_kafka_aws_msk_iam_set_credential_failure rk (Some errstr))
        else
          match
            rd_kafka_aws_msk_iam_set_credential rk
              (Credential.aws_access_key_id credential)
              (Credential.aws_secret_access_key credential)
              (Credential.aws_region credential)
              (Credential.aws_security_token credential)
              (Credential.md_lifetime_ms credential)
              (renv_uclock_install env) errstr errstr_size
          with
          | None => None
          | Some (err, rk, errstr) =>
              if negb (resp_err_eqb err RD_KAFKA_RESP_ERR_NO_ERROR) then
                Some (rd_kafka_aws_msk_iam_set_credential_failure rk
                        (Some errstr))
              else Some rk
          end
    end
  else Some rk.

(* ------------------------------------------------------------------ *)
(** ** The design document's formulations, for comparison with the code *)

(** The unreserved set [A-Z a-z 0-9 - _ . ~], character by character. *)
Definition unreserved_chars : string :=
  "ABCDEFGHIJKLMNOPQRSTUVWXYZabcdefghijklmnopqrstuvwxyz0123456789-_.~".

Definition char_in (c : ascii) (s : string) : bool :=
  existsb (Ascii.eqb c) (list_ascii_of_string s).

(** The value of an uppercase hexadecimal digit. *)
Definition upper_hex_value (c : ascii) : option Z :=
  match String.index 0 (String c EmptyString) hex_upper with
  | Some i => Some (Z.of_nat i)
  | None => None
  end.

(** [%HH] read back: the byte an escape stands for. *)
Definition escape_value (s : string) : option Z :=
  match s with
  | String p (String hi (String lo EmptyString)) =>
      if Ascii.eqb p "%"%char then
        match upper_hex_value hi, upper_hex_value lo with
        | Some h, Some l => Some (16 * h + l)%Z
        | _, _ => None
        end
      else None
  | _ => None
  end.

(** A string of lowercase hexadecimal digits. *)
Definition is_lower_hex (s : string) : bool :=
  forallb (fun c => char_in c hex_lower) (list_ascii_of_string s).

(** The signer as the design document writes it. *)
Definition hmac_sha256 (key data : bytes) : bytes :=
  SHA256.hmac_sha256 key data.

Definition spec_signature (secret region ymd service string_to_sign : string)
  : string :=
  let k_date :=
    hmac_sha256 (bytes_of_string ("AWS4" ++ secret)) (bytes_of_string ymd) in
  let k_region := hmac_sha256 k_date (bytes_of_string region) in
  let k_service := hmac_sha256 k_region (bytes_of_string service) in
  let k_signing := hmac_sha256 k_service (bytes_of_string "aws4_request") in
  hex_of_bytes (hmac_sha256 k_signing (bytes_of_string string_to_sign)).

(** Lines joined by single newlines. *)
Definition join_lines (lines : list string) : string :=
  String.concat LF lines.

(** The query string as the design document lists it: [key=value] pairs in
    a fixed order, joined by [&]. *)
Definition spec_sasl_query_pairs
    (action access_key_id region ymd hms service : string)
    (session_token : option string) : list (string * string) :=
  List.app
   [ ("Action", rd_kafka_aws_uri_encode action);
     ("X-Amz-Algorithm", "AWS4-HMAC-SHA256");
     ("X-Amz-Credential",
      rd_kafka_aws_uri_encode
        (access_key_id ++ "/" ++ ymd ++ "/" ++ region ++ "/" ++ service
         ++ "/aws4_request"));
     ("X-Amz-Date", rd_kafka_aws_uri_encode (ymd ++ "T" ++ hms ++ "Z"));
     ("X-Amz-Expires", "900") ]
   (List.app
      match session_token with
      | Some token =>
          [ ("X-Amz-Security-Token", rd_kafka_aws_uri_encode token) ]
      | None => []
      end
      [ ("X-Amz-SignedHeaders", "host") ]).

Definition render_query (pairs : list (string * string)) : string :=
  String.concat "&" (map (fun kv => fst kv ++ "=" ++ snd kv) pairs).



(** The rule of the design document for the server response: success on
    an empty response, failure with the server's bytes as the error text
    otherwise. *)
Definition spec_server_response (in_ : rd_chariov_t) (errstr : string)
  : Z * string :=
  if Nat.eqb (size in_) 0 then (0%Z, errstr) else ((-1)%Z, ptr in_).

(** A transport whose authenticator awaits the server response. *)
Definition awaiting_response (rktrans : rd_kafka_transport_t) : Prop :=
  exists st, rktrans_sasl_state rktrans = Some st
             /\ State.state st
                = RD_KAFKA_SASL_AWS_MSK_IAM_RECEIVE_SERVER_RESPONSE.

(** The connection used in the examples: credentials snapshotted, first
    message sent. *)
Definition example_state : State.t :=
  State.mk RD_KAFKA_SASL_AWS_MSK_IAM_RECEIVE_SERVER_RESPONSE
    (Some EVP_get_digestbyname_SHA256) (Some "hostname")
    (Some "AWS_ACCESS_KEY_ID") (Some "AWS_SECRET_ACCESS_KEY")
    (Some "us-east-1") None.

Definition example_transport : rd_kafka_transport_t :=
  mk_transport (Some example_state) [] false.

Definition example_env : fsm_env_t :=
  mk_env "20100101" "000000" (fun _ => None).

(** The four credential fields of the store. *)
Definition stored_credentials (h : Handle.t)
  : option string * option string * option string * option string :=
  (Handle.aws_access_key_id h, Handle.aws_secret_access_key h,
   Handle.aws_region h, Handle.aws_security_token h).


(** The client used in the examples: static credentials from the
    configuration, STS enabled, the handle as the initializer leaves it. *)
Definition example_conf : Conf.sasl_t :=
  Conf.mk rd_kafka_sasl_aws_msk_iam_provider
    (Some "TESTKEY") (Some "TESTSECRET") (Some "us-east-1") true
    (Some "arn:aws:iam::789750736714:role/Identity_Account_Access_Role")
    (Some "librdkafka_session") None 900.

Definition example_handle : Handle.t :=
  Handle.mk (Some "TESTKEY") (Some "TESTSECRET") (Some "us-east-1") None
    None (mk_timer true 720000000 0).

Definition example_rk : rd_kafka_t :=
  mk_rk example_conf (Some example_handle) [].

(** Equality of nullable strings is decidable. *)
Definition option_string_eq_dec (a b : option string) : {a = b} + {a <> b}.
Proof. decide equality. apply String.string_dec. Defined.

(** The credential fields of a per-connection snapshot. *)
Definition snapshot_fields (s : State.t)
  : option string * option string * option string * option string
    * option string :=
  (State.hostname s, State.aws_access_key_id s,
   State.aws_secret_access_key s, State.aws_region s,
   State.aws_security_token s).

(** The first client message for a snapshot, as
    [rd_kafka_sasl_aws_msk_iam_build_client_first_message] signs it. *)
Definition client_first_message (env : fsm_env_t)
    (hostname key secret region : string) (token : option string)
  : string :=
  rd_kafka_aws_build_sasl_payload (env_ymd env) (env_hms env) hostname key
    secret token region "kafka-cluster" "GET" "AWS4-HMAC-SHA256"
    ("host:" ++ hostname ++ LF)
    (rd_kafka_aws_build_sasl_canonical_querystring "kafka-cluster:Connect"
       key region (env_ymd env) (env_hms env) "kafka-cluster" token)
    "host" "" EVP_get_digestbyname_SHA256.

(** Whether an effect is an error event. *)
Definition is_op_err (e : event) : bool :=
  match e with
  | Ev_op_err _ _ => true
  | _ => false
  end.

(** The expiry an [Expiration] element yields: present, with text that
    [sscanf] reads in full and [mktime] maps to a positive time. *)
Definition expiration_ms (libc : libc_t) (cur : xmlNode) : option Z :=
  if String.eqb (xml_name cur) "Expiration" then
    match xmlNodeListGetString (xml_children cur) with
    | Some content =>
        match libc_sscanf libc content with
        | Some scanned =>
            let epochSec :=
              libc_mktime libc
                (mk_tm (int32 (tm_year scanned - 1900))
                       (int32 (tm_mon scanned - 1)) (tm_mday scanned)
                       (tm_hour scanned) (tm_min scanned) (tm_sec scanned)) in
            if (0 <? epochSec)%Z then Some (int64 (epochSec * 1000)) else None
        | None => None
        end
    | None => None
    end
  else None.

(** The [Credentials] element of an [AssumeRole] answer, if there is one. *)
Definition sts_credentials (reply : sts_reply_t) : option xmlNode :=
  match reply with
  | Curl_ok (Some root) =>
      if String.eqb (xml_name root) "ErrorResponse" then None
      else
        match xml_find "AssumeRoleResult" (xml_children root) with
        | Some result => xml_find "Credentials" (xml_children result)
        | None => None
        end
  | _ => None
  end.

Definition last_expiration (libc : libc_t) (kids : list xmlNode)
    (start : option Z) : option Z :=
  fold_left
    (fun acc cur =>
       match expiration_ms libc cur with
       | Some v => Some v
       | None => acc
       end) kids start.

(** The expiry the answer of STS carries, if any. *)
Definition sts_expiration (libc : libc_t) (reply : sts_reply_t) : option Z :=
  match sts_credentials reply with
  | Some creds => last_expiration libc (xml_children creds) None
  | None => None
  end.

(** Every credential element of the answer has text. *)
Definition is_credential_field (name : string) : bool :=
  String.eqb name "AccessKeyId" || String.eqb name "SecretAccessKey"
  || String.eqb name "SessionToken" || String.eqb name "Expiration".

Definition field_has_text (cur : xmlNode) : bool :=
  if is_credential_field (xml_name cur) then
    match xmlNodeListGetString (xml_children cur) with
    | Some _ => true
    | None => false
    end
  else true.

(** The configuration strings the refresher copies are set. *)
Definition sts_conf_complete (conf : Conf.sasl_t) : bool :=
  match Conf.aws_access_key_id conf, Conf.aws_secret_access_key conf,
        Conf.aws_region conf, Conf.role_arn conf,
        Conf.role_session_name conf with
  | Some _, Some _, Some _, Some _, Some _ => true
  | _, _, _, _, _ => false
  end.

(** The range in which the fallback lifetime is computed without
    wrap-around. *)
Definition fallback_in_range (uclock duration_sec : Z) : Prop :=
  (0 <= uclock < 4611686018427387904000
   /\ 0 <= duration_sec * 1000 < 2147483648)%Z.

(** An answer of STS without an [Expiration] element, and the C library
    seen by a refresh that never gets to parse one. *)
Definition example_sts_document : xmlNode :=
  XmlElement "AssumeRoleResponse"
    [ XmlElement "AssumeRoleResult"
        [ XmlElement "Credentials"
            [ XmlElement "AccessKeyId" [ XmlText "ASIAEXAMPLE" ];
              XmlElement "SecretAccessKey" [ XmlText "SECRETEXAMPLE" ];
              XmlElement "SessionToken" [ XmlText "TOKENEXAMPLE" ] ] ] ].

Definition example_libc : libc_t :=
  mk_libc (fun _ => None) (fun _ => 0%Z).

Definition example_refresh_env : refresh_env_t :=
  mk_refresh_env "20210910" "190714" 1631300834000000 1631300835000000
    (Curl_ok (Some example_sts_document)) example_libc.

(** A client with static credentials (STS disabled) and a fresh transport. *)
Definition example_static_rk : rd_kafka_t :=
  mk_rk (Conf.mk rd_kafka_sasl_aws_msk_iam_provider
           (Some "AWS_ACCESS_KEY_ID") (Some "AWS_SECRET_ACCESS_KEY")
           (Some "us-east-1") false None None None 0)
        (Some (Handle.mk (Some "AWS_ACCESS_KEY_ID")
                 (Some "AWS_SECRET_ACCESS_KEY") (Some "us-east-1") None
                 None timer_zero))
        [].

Definition fresh_transport : rd_kafka_transport_t :=
  mk_transport None [] false.

(* ------------------------------------------------------------------ *)
(** ** Further functions of the two files *)

Definition CHUNK_SIZE : nat := 2048.

(** [curl_in_mem_buf]: [buffer] holds the [len] bytes received so far (the
    byte after them is the NUL the callback writes), [buflen] is the size of
    the allocation. *)
Record curl_in_mem_buf : Set := mk_mem_buf {
  buffer : bytes;
  len : nat;
  buflen : nat }.

(** The loop [while (req->buflen < need) { realloc; req->buflen +=
    CHUNK_SIZE; }].  Every turn adds [CHUNK_SIZE], so [need] turns are
    enough. *)
Fixpoint grow_buflen (fuel : nat) (buflen need : nat) : nat :=
  match fuel with
  | O => buflen
  | S fuel' =>
      if Nat.ltb buflen need then grow_buflen fuel' (buflen + CHUNK_SIZE) need
      else buflen
  end.

(** [rd_kafka_aws_curl_write_callback]: [ptr] is the chunk of
    [size * nmemb] bytes; the result is the return value and the buffer. *)
Definition rd_kafka_aws_curl_write_callback (ptr : bytes) (size nmemb : nat)
    (req : curl_in_mem_buf) : nat * curl_in_mem_buf :=
  let realsize := (size * nmemb)%nat in
  let need := (len req + realsize + 1)%nat in
  let buflen' := grow_buflen need (buflen req) need in
  (realsize,
   mk_mem_buf (firstn (len req) (buffer req) ++ firstn realsize ptr)%list
              (len req + realsize) buflen').

(** The buffer [rd_kafka_aws_send_request] hands to libcurl. *)
Definition initial_mem_buf : curl_in_mem_buf := mk_mem_buf [] 0 CHUNK_SIZE.

(** libcurl delivering a response as a sequence of chunks. *)
Definition receive_chunks (chunks : list bytes) (req : curl_in_mem_buf)
  : curl_in_mem_buf :=
  fold_left
    (fun req chunk =>
       snd (rd_kafka_aws_curl_write_callback chunk 1 (List.length chunk) req))
    chunks req.

(** [rd_kafka_sasl_aws_msk_iam_conf_validate]: the return value and, on
    failure, the error text. *)
Definition rd_kafka_sasl_aws_msk_iam_conf_validate (rk : rd_kafka_t)
    (errstr : string) (errstr_size : nat) : Z * string :=
  let conf := rk_conf rk in
  match Conf.aws_access_key_id conf, Conf.aws_secret_access_key conf,
        Conf.aws_region conf with
  | Some _, Some _, Some _ =>
      if Conf.enable_use_sts conf
         && match Conf.role_arn conf, Conf.role_session_name conf with
            | Some _, Some _ => false
            | _, _ => true
            end
      then
        ((-1)%Z,
         rd_snprintf_into errstr errstr_size
           "sasl.enable_use_sts is true but missing sasl.role_arn or sasl.role_session_name")
      else (0%Z, errstr)
  | _, _, _ =>
      ((-1)%Z,
       rd_snprintf_into errstr errstr_size
         "sasl.aws_access_key_id, sasl.aws_secret_access_key, and sasl.aws_region must be set")
  end.

(** [rd_kafka_timer_stop]: the timer is disarmed. *)
Definition rd_kafka_timer_stop (t : rd_kafka_timer_t) : rd_kafka_timer_t :=
  mk_timer false (rtmr_interval t) (rtmr_next_in t).

(** [rd_kafka_sasl_aws_msk_iam_term]: the client without its handle, and
    the refresh timer as [rd_kafka_timer_stop] left it before the handle
    was freed ([None] when there was no handle). *)
Definition rd_kafka_sasl_aws_msk_iam_term (rk : rd_kafka_t)
  : rd_kafka_t * option rd_kafka_timer_t :=
  match rk_sasl_handle rk with
  | None => (rk, None)
  | Some handle =>
      (mk_rk (rk_conf rk) None (rk_events rk),
       Some (rd_kafka_timer_stop (Handle.credential_refresh_tmr handle)))
  end.

(** [rd_kafka_sasl_aws_msk_iam_close]. *)
Definition rd_kafka_sasl_aws_msk_iam_close (rktrans : rd_kafka_transport_t)
  : rd_kafka_transport_t :=
  match rktrans_sasl_state rktrans with
  | None => rktrans
  | Some _ =>
      mk_transport None (rktrans_sent rktrans) (rktrans_auth_done rktrans)
  end.

(** [rd_kafka_sasl_aws_msk_iam_credential_refresh_tmr_cb], what the timer
    runs on the main thread. *)
Definition rd_kafka_sasl_aws_msk_iam_credential_refresh_tmr_cb
    (env : refresh_env_t) (rk : rd_kafka_t) : option rd_kafka_t :=
  rd_kafka_aws_msk_iam_credential_refresh env rk.

(** *** Helpers for stating the properties *)

(** Percent-decoding: [%HH] with two uppercase hexadecimal digits stands for
    one byte, every other character for itself. *)
Fixpoint uri_decode (s : string) : string :=
  match s with
  | EmptyString => EmptyString
  | String c r =>
      if Ascii.eqb c "%"%char then
        match r with
        | String hi (String lo r') =>
            match upper_hex_value hi, upper_hex_value lo with
            | Some h, Some l =>
                String (ascii_of_N (Z.to_N (16 * h + l))) (uri_decode r')
            | _, _ => String c (uri_decode r)
            end
        | _ => String c (uri_decode r)
        end
      else String c (uri_decode r)
  end.

(** The number of occurrences of a character. *)
Fixpoint count_char (c : ascii) (s : string) : nat :=
  match s with
  | EmptyString => O
  | String x r => ((if Ascii.eqb x c then 1 else 0) + count_char c r)%nat
  end.

(** The number of characters outside the unreserved set. *)
Fixpoint count_escaped (s : string) : nat :=
  match s with
  | EmptyString => O
  | String x r => ((if is_unreserved x then 0 else 1) + count_escaped r)%nat
  end.

Definition all_chars (p : ascii -> bool) (s : string) : bool :=
  forallb p (list_ascii_of_string s).

(** The value of a lowercase hexadecimal digit. *)
Definition lower_hex_value (c : ascii) : option Z :=
  match String.index 0 (String c EmptyString) hex_lower with
  | Some i => Some (Z.of_nat i)
  | None => None
  end.

(** Reading a hexadecimal rendering back, two digits per byte. *)
Fixpoint unhex (s : string) : option bytes :=
  match s with
  | EmptyString => Some []
  | String hi (String lo r) =>
      match lower_hex_value hi, lower_hex_value lo, unhex r with
      | Some h, Some l, Some v => Some ((16 * h + l)%Z :: v)
      | _, _, _ => None
      end
  | String _ EmptyString => None
  end.

Definition all_bytes (v : bytes) : Prop := Forall (fun b => 0 <= b < 256)%Z v.

(** A character the encoder can emit. *)
Definition unreserved_or_percent (c : ascii) : bool :=
  char_in c unreserved_chars || Ascii.eqb c "%"%char.

(** The configuration is acceptable to
    [rd_kafka_sasl_aws_msk_iam_conf_validate]. *)
Definition conf_valid (conf : Conf.sasl_t) : bool :=
  match Conf.aws_access_key_id conf, Conf.aws_secret_access_key conf,
        Conf.aws_region conf with
  | Some _, Some _, Some _ =>
      negb (Conf.enable_use_sts conf)
      || match Conf.role_arn conf, Conf.role_session_name conf with
         | Some _, Some _ => true
         | _, _ => false
         end
  | _, _, _ => false
  end.

(** The state a step of the state machine starts from, if any. *)
Definition fsm_state_of (rktrans : rd_kafka_transport_t)
  : option fsm_state_t :=
  match rktrans_sasl_state rktrans with
  | Some st => Some (State.state st)
  | None => None
  end.

(** All the fields the first client message is built from are set. *)
Definition snapshot_complete (st : State.t) : bool :=
  match State.aws_access_key_id st, State.aws_secret_access_key st,
        State.aws_region st, State.hostname st, State.md st with
  | Some _, Some _, Some _, Some _, Some _ => true
  | _, _, _, _, _ => false
  end.

(** No element of the list has the given name. *)
Definition no_child_named (name : string) (kids : list xmlNode) : bool :=
  forallb (fun cur => negb (String.eqb (xml_name cur) name)) kids.

(** A refresh during which the transfer to STS fails. *)
Definition example_failed_env : refresh_env_t :=
  mk_refresh_env "20210910" "190714" 1631300834000000 1631300835000000
    (Curl_failed "Could not resolve host: sts.amazonaws.com") example_libc.

(** A refresh whose answer has no [AccessKeyId]. *)
Definition example_partial_env : refresh_env_t :=
  mk_refresh_env "20210910" "190714" 1631300834000000 1631300835000000
    (Curl_ok
       (Some (XmlElement "AssumeRoleResponse"
                [ XmlElement "AssumeRoleResult"
                    [ XmlElement "Credentials"
                        [ XmlElement "SecretAccessKey"
                            [ XmlText "SECRETEXAMPLE" ];
                          XmlElement "SessionToken"
                            [ XmlText "TOKENEXAMPLE" ] ] ] ])))
    example_libc.

(** A character of a decimal rendering. *)
Definition decimal_char (c : ascii) : bool := char_in c "0123456789-".

(* ------------------------------------------------------------------ *)
(** ** The C library calls on the [Expiration] text, on a POSIX host *)

(** [isspace] in the C locale: blank, and the controls 9 to 13. *)
Definition c_isspace (c : ascii) : bool :=
  let n := Z.of_N (N_of_ascii c) in
  ((n =? 32) || ((9 <=? n) && (n <=? 13)))%Z.

(** The white space a numeric conversion of [sscanf] skips first. *)
Fixpoint skip_blanks (s : string) : string :=
  match s with
  | String c r => if c_isspace c then skip_blanks r else s
  | EmptyString => s
  end.

Definition decimal_digit (c : ascii) : option Z :=
  let n := Z.of_N (N_of_ascii c) in
  if ((48 <=? n) && (n <=? 57))%Z then Some (n - 48)%Z else None.

(** The run of decimal digits at the head of [s], at most [width] of them:
    their value (none when the run is empty) and the text after them. *)
Fixpoint scan_digits (width : nat) (s : string) (acc : option Z)
  : option Z * string :=
  match width, s with
  | S w, String c r =>
      match decimal_digit c with
      | Some d =>
          scan_digits w r
            (Some (match acc with Some a => a * 10 + d | None => d end)%Z)
      | None => (acc, s)
      end
  | _, _ => (acc, s)
  end.

(** A sign, which counts in the field width of a conversion. *)
Definition scan_sign (width : nat) (s : string) : bool * nat * string :=
  match width, s with
  | S w, String "-" r => (true, w, r)
  | S w, String "+" r => (false, w, r)
  | _, _ => (false, width, s)
  end.

(** The conversion [%<width>d]: white space, a sign, digits; the value and
    the text left, or nothing when no digit is there. *)
Definition scan_d (width : nat) (s : string) : option (Z * string) :=
  let '(negative, w, r) := scan_sign width (skip_blanks s) in
  match scan_digits w r None with
  | (Some v, rest) => Some (if negative then (- v)%Z else v, rest)
  | (None, _) => None
  end.

(** A character of the format that is matched as it is. *)
Definition scan_literal (c : ascii) (s : string) : option string :=
  match s with
  | String c' r => if Ascii.eqb c c' then Some r else None
  | EmptyString => None
  end.

(** The conversion [%f] followed by the assignment [tm.tm_sec = secf]: the
    integer part of the decimal number read, a fraction alone counting as
    zero.  Exponents, hexadecimal numbers, [inf] and [nan], and the rounding
    of [float] (which cannot reach the next integer for a fraction of up to
    five digits) are not modelled. *)
Definition scan_f (s : string) : option Z :=
  let '(negative, _, r) :=
    let t := skip_blanks s in scan_sign (String.length t) t in
  let whole :=
    match scan_digits (String.length r) r None with
    | (Some v, _) => Some v
    | (None, String "." f) =>
        match scan_digits (String.length f) f None with
        | (Some _, _) => Some 0%Z
        | (None, _) => None
        end
    | (None, _) => None
    end in
  match whole with
  | Some v => Some (if negative then (- v)%Z else v)
  | None => None
  end.

(** [sscanf(content, "%4d-%2d-%2dT%2d:%2d:%fZ", ...) == 6] with the values
    stored, the seconds as [tm_sec] receives them.  The [Z] of the format
    comes after the last conversion, so it does not count in the result. *)
Definition sscanf_expiration (content : string) : option tm :=
  match scan_d 4 content with
  | None => None
  | Some (year, s1) =>
  match scan_literal "-" s1 with
  | None => None
  | Some s2 =>
  match scan_d 2 s2 with
  | None => None
  | Some (mon, s3) =>
  match scan_literal "-" s3 with
  | None => None
  | Some s4 =>
  match scan_d 2 s4 with
  | None => None
  | Some (mday, s5) =>
  match scan_literal "T" s5 with
  | None => None
  | Some s6 =>
  match scan_d 2 s6 with
  | None => None
  | Some (hour, s7) =>
  match scan_literal ":" s7 with
  | None => None
  | Some s8 =>
  match scan_d 2 s8 with
  | None => None
  | Some (minute, s9) =>
  match scan_literal ":" s9 with
  | None => None
  | Some s10 =>
  match scan_f s10 with
  | None => None
  | Some sec => Some (mk_tm year mon mday hour minute sec)
  end end end end end end end end end end end.

(** Leap days of the Gregorian calendar in the years before [y]. *)
Definition leap_days_before (y : Z) : Z :=
  ((y - 1) / 4 - (y - 1) / 100 + (y - 1) / 400)%Z.

Definition is_leap_year (y : Z) : bool :=
  ((y mod 4 =? 0) && (negb (y mod 100 =? 0) || (y mod 400 =? 0)))%Z.

(** Days from 1 January 1970 to 1 January of year [y]. *)
Definition days_before_year (y : Z) : Z :=
  ((y - 1970) * 365 + (leap_days_before y - leap_days_before 1970))%Z.

(** Days from 1 January to the first of month [m] (0 is January). *)
Definition days_before_month (y m : Z) : Z :=
  (nth (Z.to_nat m) [0; 31; 59; 90; 120; 151; 181; 212; 243; 273; 304; 334] 0
   + (if is_leap_year y && (2 <=? m) then 1 else 0))%Z.

(** [timegm]: the seconds since the epoch of a broken-down time read as UTC
    ([tm_year] counts from 1900, [tm_mon] from 0; a month outside 0..11 is
    carried into the year, the other fields count on linearly). *)
Definition timegm (t : tm) : Z :=
  let months := (tm_year t * 12 + tm_mon t)%Z in
  let y := (1900 + months / 12)%Z in
  let m := (months mod 12)%Z in
  ((days_before_year y + days_before_month y m + (tm_mday t - 1)) * 86400
   + tm_hour t * 3600 + tm_min t * 60 + tm_sec t)%Z.

(** [mktime] on a host whose local time is [utc_offset] seconds ahead of UTC
    all year ([tm_isdst] is 0 from [RD_ZERO_INIT]): the broken-down time is
    read as local time.  Times that do not fit [time_t] are not modelled. *)
Definition mktime (utc_offset : Z) (t : tm) : Z := (timegm t - utc_offset)%Z.

(** The C library of such a host. *)
Definition host_libc (utc_offset : Z) : libc_t :=
  mk_libc sscanf_expiration (mktime utc_offset).

(** The design document's conversion of an [Expiration] stamp, whose fields
    are a UTC date and time of day, to unix milliseconds (whole seconds). *)
Definition expiration_unix_ms (stamp : tm) : Z :=
  (timegm (mk_tm (tm_year stamp - 1900) (tm_mon stamp - 1) (tm_mday stamp)
             (tm_hour stamp) (tm_min stamp) (tm_sec stamp)) * 1000)%Z.

(** The form [YYYY-MM-DDTHH:MM:SS[.fff]Z] of the stamps of STS, with one to
    three digits of a fraction; on such a text the conversions above read
    what [sscanf] reads. *)
Definition is_decimal_digit (c : ascii) : bool :=
  match decimal_digit c with
  | Some _ => true
  | None => false
  end.

Definition iso8601_stamp (content : string) : bool :=
  match list_ascii_of_string content with
  | y1 :: y2 :: y3 :: y4 :: "-"%char :: m1 :: m2 :: "-"%char :: d1 :: d2
    :: "T"%char :: h1 :: h2 :: ":"%char :: i1 :: i2 :: ":"%char :: s1 :: s2
    :: rest =>
      forallb is_decimal_digit
        [ y1; y2; y3; y4; m1; m2; d1; d2; h1; h2; i1; i2; s1; s2 ]
      && match rest with
         | [ "Z"%char ] => true
         | "."%char :: fraction =>
             match rev fraction with
             | "Z"%char :: digits =>
                 forallb is_decimal_digit digits
                 && (1 <=? List.length digits)%nat
                 && (List.length digits <=? 3)%nat
             | _ => false
             end
         | _ => false
         end
  | _ => false
  end.

(** The fields of a stamp are a date from 1970 on and a time of day. *)
Definition stamp_in_range (stamp : tm) : Prop :=
  (1970 <= tm_year stamp <= 9999 /\ 1 <= tm_mon stamp <= 12
   /\ 1 <= tm_mday stamp <= 31 /\ 0 <= tm_hour stamp <= 23
   /\ 0 <= tm_min stamp <= 59 /\ 0 <= tm_sec stamp <= 60)%Z.

(** A complete answer of STS to a request for 900 seconds made at
    2021-09-10T19:07:14Z. *)
Definition example_expiring_document : xmlNode :=
  XmlElement "AssumeRoleResponse"
    [ XmlElement "AssumeRoleResult"
        [ XmlElement "Credentials"
            [ XmlElement "AccessKeyId" [ XmlText "ASIAEXAMPLE" ];
              XmlElement "SecretAccessKey" [ XmlText "SECRETEXAMPLE" ];
              XmlElement "SessionToken" [ XmlText "TOKENEXAMPLE" ];
              XmlElement "Expiration" [ XmlText "2021-09-10T19:22:14Z" ] ] ] ].

(** That refresh on a host with the given offset from UTC. *)
Definition example_expiring_env (utc_offset : Z) : refresh_env_t :=
  mk_refresh_env "20210910" "190714" 1631300834000000 1631300835000000
    (Curl_ok (Some example_expiring_document)) (host_libc utc_offset).

(* ------------------------------------------------------------------ *)
(** * Properties *)

(** ** Test vectors *)

Example sha256_constants :
  firstn 2 SHA256.K = [ 0x428a2f98; 0x71374491 ]%Z
  /\ nth 63 SHA256.K 0%Z = 0xc67178f2%Z
  /\ SHA256.ra SHA256.H0 = 0x6a09e667%Z
  /\ SHA256.rh SHA256.H0 = 0x5be0cd19%Z.
Proof. repeat split. Qed.

Example sha256_empty :
  hex_of_bytes (SHA256.sha256 []) =
  "e3b0c44298fc1c149afbf4c8996fb92427ae41e4649b934ca495991b7852b855"%string.
Proof. vm_compute. reflexivity. Qed.

Example sha256_abc :
  hex_of_bytes (SHA256.sha256 (bytes_of_string "abc")) =
  "ba7816bf8f01cfea414140de5dae2223b00361a396177a9cb410ff61f20015ad"%string.
Proof. vm_compute. reflexivity. Qed.

Example sha256_two_blocks :
  hex_of_bytes (SHA256.sha256 (bytes_of_string
    "abcdbcdecdefdefgefghfghighijhijkijkljklmklmnlmnomnopnopq")) =
  "248d6a61d20638b8e5c026930c3e6039a33ce45964ff2167f6ecedd419db06c1"%string.
Proof. vm_compute. reflexivity. Qed.

(** RFC 4231, test case 2. *)
Example hmac_rfc4231_2 :
  hex_of_bytes (SHA256.hmac_sha256 (bytes_of_string "Jefe")
                  (bytes_of_string "what do ya want for nothing?")) =
  "5bdcc146bf60754e6a042426089575c75a003f089d2739839dec58b964ec3843"%string.
Proof. vm_compute. reflexivity. Qed.

Example scenario2_querystring_value :
  scenario2_querystring =
  "Action=kafka-cluster%3AConnect&X-Amz-Algorithm=AWS4-HMAC-SHA256&X-Amz-Credential=AWS_ACCESS_KEY_ID%2F20100101%2Fus-east-1%2Fkafka-cluster%2Faws4_request&X-Amz-Date=20100101T000000Z&X-Amz-Expires=900&X-Amz-SignedHeaders=host".
Proof. vm_compute. reflexivity. Qed.

Example scenario2_canonical_request_value :
  scenario2_canonical_request =
  "GET" ++ LF ++ "/" ++ LF ++ scenario2_querystring ++ LF
  ++ "host:hostname" ++ LF ++ LF ++ "host" ++ LF
  ++ "e3b0c44298fc1c149afbf4c8996fb92427ae41e4649b934ca495991b7852b855".
Proof. vm_compute. reflexivity. Qed.

Example scenario2_string_to_sign_value :
  scenario2_string_to_sign =
  "AWS4-HMAC-SHA256" ++ LF ++ "20100101T000000Z" ++ LF
  ++ "20100101/us-east-1/kafka-cluster/aws4_request" ++ LF
  ++ "8a719fb6d4b33f7d9c5b25b65af85a44d3627bdca66e1287b1a366fa90bafaa1".
Proof. vm_compute. reflexivity. Qed.

Example scenario2_signature_value :
  rd_kafka_aws_build_signature "AWS_SECRET_ACCESS_KEY" "us-east-1"
    "20100101" "kafka-cluster" scenario2_string_to_sign =
  "d3eeeddfb2c2b76162d583d7499c2364eb9a92b248218e31866659b18997ef44".
Proof. vm_compute. reflexivity. Qed.

Example uri_encode_unittest :
  rd_kafka_aws_uri_encode "testString-123/*&" = "testString-123%2F%2A%26".
Proof. vm_compute. reflexivity. Qed.

(** ** Strings *)

Lemma append_nil_r (s : string) : s ++ "" = s.
Proof. induction s as [|c s IH]; simpl; [reflexivity | now rewrite IH]. Qed.

Lemma append_assoc (a b c : string) : (a ++ b) ++ c = a ++ (b ++ c).
Proof. induction a as [|x a IH]; simpl; [reflexivity | now rewrite IH]. Qed.

Lemma length_append (a b : string) :
  String.length (a ++ b) = (String.length a + String.length b)%nat.
Proof. induction a as [|x a IH]; simpl; [reflexivity | now rewrite IH]. Qed.

Lemma substring_0_length (s : string) :
  String.substring 0 (String.length s) s = s.
Proof. induction s as [|c s IH]; simpl; [reflexivity | now rewrite IH]. Qed.

Lemma list_ascii_of_string_append (a b : string) :
  list_ascii_of_string (a ++ b)
  = (list_ascii_of_string a ++ list_ascii_of_string b)%list.
Proof. induction a as [|x a IH]; simpl; [reflexivity | now rewrite IH]. Qed.

Lemma rd_snprintf_fits (n : nat) (s : string) :
  n = (String.length s + 1)%nat -> rd_snprintf n s = s.
Proof.
  intros ->. unfold rd_snprintf.
  replace (String.length s + 1 - 1)%nat with (String.length s) by lia.
  apply substring_0_length.
Qed.

Lemma uri_encode_is_escape (s : string) :
  rd_kafka_aws_uri_encode s = curl_easy_escape s.
Proof.
  unfold rd_kafka_aws_uri_encode, strlen.
  replace (String.length (curl_easy_escape s) + 1 - 1)%nat
    with (String.length (curl_easy_escape s)) by lia.
  apply substring_0_length.
Qed.

Lemma amz_date_value (ymd hms : string) :
  rd_kafka_aws_construct_amz_date ymd hms = ymd ++ "T" ++ hms ++ "Z".
Proof.
  unfold rd_kafka_aws_construct_amz_date, strlen.
  apply rd_snprintf_fits.
  rewrite !length_append. simpl. lia.
Qed.

Lemma credential_scope_value (ymd region service : string) :
  rd_kafka_aws_construct_credential_scope ymd region service
  = ymd ++ "/" ++ region ++ "/" ++ service ++ "/aws4_request".
Proof.
  unfold rd_kafka_aws_construct_credential_scope, strlen.
  apply rd_snprintf_fits.
  rewrite !length_append. simpl. lia.
Qed.

(** ** Digests are 32 bytes, their rendering 64 lowercase digits *)

Lemma be_bytes_length (n : nat) (x : Z) : List.length (SHA256.be_bytes n x) = n.
Proof. induction n as [|n IH]; simpl; [reflexivity | now rewrite IH]. Qed.

Lemma sha256_length (m : bytes) : List.length (SHA256.sha256 m) = 32%nat.
Proof.
  unfold SHA256.sha256, SHA256.digest_of_regs.
  rewrite !length_app, !be_bytes_length. reflexivity.
Qed.

Lemma hmac_sha256_length (key data : bytes) :
  List.length (SHA256.hmac_sha256 key data) = 32%nat.
Proof. unfold SHA256.hmac_sha256. apply sha256_length. Qed.

Lemma hex_of_bytes_length (v : bytes) :
  String.length (hex_of_bytes v) = (2 * List.length v)%nat.
Proof.
  induction v as [|b v IH]; [reflexivity|].
  cbn [hex_of_bytes List.length]. rewrite length_append, IH.
  simpl. lia.
Qed.

Lemma digit_of_lower (n : Z) : char_in (digit_of hex_lower n) hex_lower = true.
Proof.
  unfold digit_of.
  do 16 (destruct (Z.to_nat n) as [|k]; [reflexivity | clear n; rename k into n;
         assert (H : exists z, Z.to_nat z = n) by (exists (Z.of_nat n); lia);
         destruct H as [z <-]; rename z into n]).
  simpl. reflexivity.
Qed.

Lemma sprintf_02x_lower (b : Z) : is_lower_hex (sprintf_02x b) = true.
Proof.
  unfold is_lower_hex, sprintf_02x. cbn [list_ascii_of_string forallb].
  now rewrite !digit_of_lower.
Qed.

Lemma is_lower_hex_append (a b : string) :
  is_lower_hex (a ++ b) = is_lower_hex a && is_lower_hex b.
Proof.
  unfold is_lower_hex. rewrite list_ascii_of_string_append.
  apply forallb_app.
Qed.

Lemma hex_of_bytes_lower (v : bytes) : is_lower_hex (hex_of_bytes v) = true.
Proof.
  induction v as [|b v IH]; [reflexivity|].
  cbn [hex_of_bytes]. now rewrite is_lower_hex_append, sprintf_02x_lower, IH.
Qed.

(** ** URI encoding *)

Ltac ascii_cases c := destruct c as [[] [] [] [] [] [] [] []].

Lemma is_unreserved_chars (c : ascii) :
  is_unreserved c = char_in c unreserved_chars.
Proof. ascii_cases c; vm_compute; reflexivity. Qed.

Lemma percent_escape_value (c : ascii) :
  escape_value (percent_escape c) = Some (Z.of_N (N_of_ascii c)).
Proof. ascii_cases c; vm_compute; reflexivity. Qed.

Lemma curl_easy_escape_append (a b : string) :
  curl_easy_escape (a ++ b) = curl_easy_escape a ++ curl_easy_escape b.
Proof.
  induction a as [|c a IH]; [reflexivity|].
  cbn [append curl_easy_escape]. now rewrite IH, append_assoc.
Qed.

(** C5. [rd_kafka_aws_uri_encode] works byte by byte (the encoding of a
    concatenation is the concatenation of the encodings); a byte of the
    unreserved set [A-Z a-z 0-9 - _ . ~] is left as it is; every other byte
    becomes a three-character escape [%HH] whose two uppercase hexadecimal
    digits are the value of the byte; and
    [uri_encode("testString-123/*&") = "testString-123%2F%2A%26"]. *)
Theorem uri_encode_unreserved_verbatim_others_escaped :
  (forall a b : string,
      rd_kafka_aws_uri_encode (a ++ b)
      = rd_kafka_aws_uri_encode a ++ rd_kafka_aws_uri_encode b)
  /\ rd_kafka_aws_uri_encode "" = ""
  /\ (forall c : ascii,
         char_in c unreserved_chars = true ->
         rd_kafka_aws_uri_encode (String c "") = String c "")
  /\ (forall c : ascii,
         char_in c unreserved_chars = false ->
         String.length (rd_kafka_aws_uri_encode (String c "")) = 3%nat
         /\ escape_value (rd_kafka_aws_uri_encode (String c ""))
            = Some (Z.of_N (N_of_ascii c)))
  /\ rd_kafka_aws_uri_encode "testString-123/*&" = "testString-123%2F%2A%26".
Proof.
  repeat split.
  - intros a b. rewrite !uri_encode_is_escape. apply curl_easy_escape_append.
  - intros c H. rewrite uri_encode_is_escape. cbn [curl_easy_escape].
    unfold escape_char. now rewrite is_unreserved_chars, H.
  - rewrite uri_encode_is_escape. cbn [curl_easy_escape].
    unfold escape_char. rewrite is_unreserved_chars, H. reflexivity.
  - rewrite uri_encode_is_escape. cbn [curl_easy_escape].
    unfold escape_char. rewrite is_unreserved_chars, H, append_nil_r.
    apply percent_escape_value.
Qed.

Lemma uri_encode_witness :
  char_in "a"%char unreserved_chars = true
  /\ rd_kafka_aws_uri_encode "a" = "a"
  /\ char_in "/"%char unreserved_chars = false
  /\ escape_value (rd_kafka_aws_uri_encode "/") = Some 47%Z.
Proof.
  destruct uri_encode_unreserved_verbatim_others_escaped
    as (_ & _ & Hkeep & Hesc & _).
  split; [reflexivity|]. split; [apply Hkeep; reflexivity|].
  split; [reflexivity|]. apply (Hesc "/"%char). reflexivity.
Defined.

(** ** The canonical request *)

Ltac builder :=
  unfold str_builder_dump, str_builder_add_str, str_builder_clear,
    str_builder_create, rd_strdup.

(** C3. With the SHA-256 digest every caller passes,
    [rd_kafka_aws_build_canonical_request] returns the six lines method,
    the literal [/], canonical query string, canonical headers, signed
    headers and the lowercase hexadecimal SHA-256 of the request body, in
    that order and joined by single newlines; the last line has 64
    lowercase hexadecimal digits, and for an empty body it is
    [e3b0c44298fc1c149afbf4c8996fb92427ae41e4649b934ca495991b7852b855]. *)
Theorem canonical_request_six_lines :
  forall method canonical_query_string canonical_headers signed_headers
         request_body : string,
    let payload_hash :=
      hex_of_bytes (SHA256.sha256 (bytes_of_string request_body)) in
    rd_kafka_aws_build_canonical_request method canonical_query_string
      canonical_headers signed_headers request_body
      EVP_get_digestbyname_SHA256
    = join_lines [ method; "/"; canonical_query_string; canonical_headers;
                   signed_headers; payload_hash ]
    /\ String.length payload_hash = 64%nat
    /\ is_lower_hex payload_hash = true
    /\ rd_kafka_aws_build_canonical_request method canonical_query_string
         canonical_headers signed_headers "" EVP_get_digestbyname_SHA256
       = join_lines
           [ method; "/"; canonical_query_string; canonical_headers;
             signed_headers;
             "e3b0c44298fc1c149afbf4c8996fb92427ae41e4649b934ca495991b7852b855" ].
Proof.
  intros method cqs ch sh body payload_hash.
  assert (Hlayout : forall b,
    rd_kafka_aws_build_canonical_request method cqs ch sh b
      EVP_get_digestbyname_SHA256
    = join_lines [ method; "/"; cqs; ch; sh;
                   hex_of_bytes (SHA256.sha256 (bytes_of_string b)) ]).
  { intro b. unfold rd_kafka_aws_build_canonical_request,
      EVP_get_digestbyname_SHA256, join_lines. builder.
    cbn [String.concat]. rewrite !append_assoc. reflexivity. }
  split; [apply Hlayout|].
  split; [subst payload_hash; rewrite hex_of_bytes_length, sha256_length;
          reflexivity|].
  split; [apply hex_of_bytes_lower|].
  rewrite Hlayout. f_equal.
Qed.

(** With the header block of [unittest_build_canonical_request], which has
    no trailing newline, the headers and the signed headers are one newline
    apart. *)
Example canonical_request_unittest_headers :
  rd_kafka_aws_build_canonical_request "GET" "q" "host:hostname" "host" ""
    EVP_get_digestbyname_SHA256
  = "GET" ++ LF ++ "/" ++ LF ++ "q" ++ LF ++ "host:hostname" ++ LF ++ "host"
    ++ LF
    ++ "e3b0c44298fc1c149afbf4c8996fb92427ae41e4649b934ca495991b7852b855".
Proof. vm_compute. reflexivity. Qed.

(** ** The signer *)

(** C2. [rd_kafka_aws_build_signature] computes the key chain
    [k_date = hmac_sha256("AWS4" + secret, ymd)],
    [k_region = hmac_sha256(k_date, region)],
    [k_service = hmac_sha256(k_region, service)],
    [k_signing = hmac_sha256(k_service, "aws4_request")] and returns
    [hex(hmac_sha256(k_signing, string_to_sign))]; the result always has 64
    characters, all of them lowercase hexadecimal digits; and for the secret
    [AWS_SECRET_ACCESS_KEY], region [us-east-1], date [20100101], service
    [kafka-cluster] and the string to sign of the scenario-2 canonical
    request it is
    [d3eeeddfb2c2b76162d583d7499c2364eb9a92b248218e31866659b18997ef44]. *)
Theorem build_signature_key_chain :
  (forall secret region ymd service string_to_sign : string,
      rd_kafka_aws_build_signature secret region ymd service string_to_sign
      = spec_signature secret region ymd service string_to_sign
      /\ String.length
           (rd_kafka_aws_build_signature secret region ymd service
              string_to_sign) = 64%nat
      /\ is_lower_hex
           (rd_kafka_aws_build_signature secret region ymd service
              string_to_sign) = true)
  /\ rd_kafka_aws_build_signature "AWS_SECRET_ACCESS_KEY" "us-east-1"
       "20100101" "kafka-cluster" scenario2_string_to_sign
     = "d3eeeddfb2c2b76162d583d7499c2364eb9a92b248218e31866659b18997ef44".
Proof.
  split.
  - intros secret region ymd service sts.
    assert (Heq : rd_kafka_aws_build_signature secret region ymd service sts
                  = spec_signature secret region ymd service sts).
    { unfold rd_kafka_aws_build_signature, spec_signature,
        rd_kafka_aws_hmac_sha256, hmac_sha256. builder. reflexivity. }
    split; [exact Heq|]. rewrite Heq. unfold spec_signature, hmac_sha256.
    split; [|apply hex_of_bytes_lower].
    rewrite hex_of_bytes_length, hmac_sha256_length. reflexivity.
  - vm_compute. reflexivity.
Qed.

(** ** The SASL query string and payload *)

Lemma sasl_canonical_querystring_pairs
    (action key region ymd hms service : string) (token : option string) :
  rd_kafka_aws_build_sasl_canonical_querystring action key region ymd hms
    service token
  = render_query
      (spec_sasl_query_pairs action key region ymd hms service token).
Proof.
  unfold rd_kafka_aws_build_sasl_canonical_querystring, render_query,
    spec_sasl_query_pairs.
  rewrite credential_scope_value, amz_date_value. builder.
  destruct token as [t|]; cbn [List.app map String.concat fst snd];
    rewrite !append_assoc; reflexivity.
Qed.



(** The session token [a/b] appears as [a%2Fb] in the signed query string
    and as [a/b] in the payload. *)
Example sasl_token_encoded_in_query_raw_in_payload :
  rd_kafka_aws_build_sasl_canonical_querystring "kafka-cluster:Connect"
    "AWS_ACCESS_KEY_ID" "us-east-1" "20100101" "000000" "kafka-cluster"
    (Some "a/b")
  = "Action=kafka-cluster%3AConnect&X-Amz-Algorithm=AWS4-HMAC-SHA256&X-Amz-Credential=AWS_ACCESS_KEY_ID%2F20100101%2Fus-east-1%2Fkafka-cluster%2Faws4_request&X-Amz-Date=20100101T000000Z&X-Amz-Expires=900&X-Amz-Security-Token=a%2Fb&X-Amz-SignedHeaders=host"
  /\ rd_kafka_aws_build_sasl_payload "20100101" "000000" "hostname"
       "AWS_ACCESS_KEY_ID" "AWS_SECRET_ACCESS_KEY" (Some "a/b") "us-east-1"
       "kafka-cluster" "GET" "AWS4-HMAC-SHA256" ("host:hostname" ++ LF)
       scenario2_querystring "host" "" EVP_get_digestbyname_SHA256
     = c_lit "{'version':'2020_10_22','host':'hostname','user-agent':'librdkafka','action':'kafka-cluster:Connect','x-amz-algorithm':'AWS4-HMAC-SHA256','x-amz-credential':'AWS_ACCESS_KEY_ID/20100101/us-east-1/kafka-cluster/aws4_request','x-amz-date':'20100101T000000Z','x-amz-security-token':'a/b','x-amz-signedheaders':'host','x-amz-expires':'900','x-amz-signature':'d3eeeddfb2c2b76162d583d7499c2364eb9a92b248218e31866659b18997ef44'}".
Proof. split; vm_compute; reflexivity. Qed.

(** The payload of [unittest_build_sasl_payload], with the header block as
    the state machine builds it. *)
Example sasl_payload_scenario4 :
  rd_kafka_aws_build_sasl_payload "20100101" "000000" "hostname"
    "AWS_ACCESS_KEY_ID" "AWS_SECRET_ACCESS_KEY" None "us-east-1"
    "kafka-cluster" "GET" "AWS4-HMAC-SHA256" ("host:hostname" ++ LF)
    scenario2_querystring "host" "" EVP_get_digestbyname_SHA256
  = c_lit "{'version':'2020_10_22','host':'hostname','user-agent':'librdkafka','action':'kafka-cluster:Connect','x-amz-algorithm':'AWS4-HMAC-SHA256','x-amz-credential':'AWS_ACCESS_KEY_ID/20100101/us-east-1/kafka-cluster/aws4_request','x-amz-date':'20100101T000000Z','x-amz-signedheaders':'host','x-amz-expires':'900','x-amz-signature':'d3eeeddfb2c2b76162d583d7499c2364eb9a92b248218e31866659b18997ef44'}".
Proof. vm_compute. reflexivity. Qed.

(** ** The server response *)

Lemma example_transport_awaits : awaiting_response example_transport.
Proof. exists example_state. split; reflexivity. Qed.

Lemma recv_is_handle_server_response
    (env : fsm_env_t) (rktrans : rd_kafka_transport_t) (buf : string)
    (n : nat) (errstr : string) (errstr_size : nat) :
  awaiting_response rktrans ->
  rd_kafka_sasl_aws_msk_iam_recv env rktrans buf n errstr errstr_size
  = Some (rd_kafka_sasl_aws_msk_iam_handle_server_response rktrans
            (mk_chariov buf n) errstr errstr_size).
Proof.
  intros (st & Hst & Hstate).
  unfold rd_kafka_sasl_aws_msk_iam_recv, rd_kafka_sasl_aws_msk_iam_fsm.
  now rewrite Hst, Hstate.
Qed.

(** C1, as the design document states it, fails: the one-byte response [x]
    delivered while awaiting the response ends the authentication
    successfully (return value 0, [rd_kafka_sasl_auth_done] called, no error
    text), where the design document asks for a failure with error text
    [x]. *)
Lemma nonempty_server_response_is_accepted :
  rd_kafka_sasl_aws_msk_iam_recv example_env example_transport "x" 1 "" 512
  = Some (0%Z, rd_kafka_sasl_auth_done example_transport, "")
  /\ spec_server_response (mk_chariov "x" 1) "" = ((-1)%Z, "x")
  /\ ~ (forall (buf : string) (n : nat) r t e,
           rd_kafka_sasl_aws_msk_iam_recv example_env example_transport
             buf n "" 512 = Some (r, t, e) ->
           (r, e) = spec_server_response (mk_chariov buf n) "").
Proof.
  split; [reflexivity|]. split; [reflexivity|].
  intro H. specialize (H "x" 1%nat _ _ _ eq_refl). discriminate H.
Qed.

(** C1, amended.  A response delivered while the authenticator awaits it
    ends the attempt successfully ([rd_kafka_sasl_auth_done], return value
    0, error buffer untouched) if and only if it is non-empty; an empty
    response fails the attempt (return value -1, no
    [rd_kafka_sasl_auth_done]) and the error text is
    [SASL AWS MSK IAM authentication failed: Broker response: ] followed by
    the text at the response pointer, cut to the size of the buffer. *)
Theorem server_response_succeeds_iff_nonempty :
  forall (env : fsm_env_t) (rktrans : rd_kafka_transport_t) (buf : string)
         (n : nat) (errstr : string) (errstr_size : nat),
    awaiting_response rktrans ->
    exists r rktrans' errstr',
      rd_kafka_sasl_aws_msk_iam_recv env rktrans buf n errstr errstr_size
      = Some (r, rktrans', errstr')
      /\ (r = 0%Z <-> n <> 0%nat)
      /\ (r = (-1)%Z <-> n = 0%nat)
      /\ (n <> 0%nat ->
          rktrans' = rd_kafka_sasl_auth_done rktrans /\ errstr' = errstr)
      /\ (n = 0%nat ->
          rktrans' = rktrans
          /\ errstr'
             = rd_snprintf_into errstr errstr_size
                 ("SASL AWS MSK IAM authentication failed: Broker response: "
                  ++ buf)).
Proof.
  intros env rktrans buf n errstr errstr_size Hawait.
  rewrite (recv_is_handle_server_response _ _ _ _ _ _ Hawait).
  unfold rd_kafka_sasl_aws_msk_iam_handle_server_response.
  cbn [size ptr]. destruct n as [|n]; cbn [Nat.eqb negb].
  - do 3 eexists. split; [reflexivity|].
    repeat split; try easy.
  - do 3 eexists. split; [reflexivity|].
    repeat split; try easy.
Qed.

Lemma server_response_witness :
  exists r rktrans' errstr',
    rd_kafka_sasl_aws_msk_iam_recv example_env example_transport "" 0
      "" 512 = Some (r, rktrans', errstr')
    /\ (r = 0%Z <-> 0%nat <> 0%nat)
    /\ (r = (-1)%Z <-> 0%nat = 0%nat)
    /\ (0%nat <> 0%nat ->
        rktrans' = rd_kafka_sasl_auth_done example_transport
        /\ errstr' = "")
    /\ (0%nat = 0%nat ->
        rktrans' = example_transport
        /\ errstr'
           = rd_snprintf_into "" 512
               ("SASL AWS MSK IAM authentication failed: Broker response: "
                ++ "")).
Proof.
  apply (server_response_succeeds_iff_nonempty example_env example_transport
           "" 0 "" 512).
  exists example_state. split; reflexivity.
Defined.

(** ** The credential store *)

Lemma int64_id (x : Z) :
  (- 9223372036854775808 <= x < 9223372036854775808)%Z -> int64 x = x.
Proof. intros H. unfold int64. rewrite Z.mod_small; lia. Qed.

Lemma uint64_id (x : Z) :
  (0 <= x < 18446744073709551616)%Z -> uint64 x = x.
Proof. intros H. unfold uint64. apply Z.mod_small; lia. Qed.

Lemma int32_id (x : Z) :
  (- 2147483648 <= x < 2147483648)%Z -> int32 x = x.
Proof. intros H. unfold int32. rewrite Z.mod_small; lia. Qed.


Lemma example_rk_init :
  rd_kafka_sasl_aws_msk_iam_init (mk_rk example_conf None []) "" 512
  = Some (RD_KAFKA_RESP_ERR_NO_ERROR,
          mk_rk example_conf (Some example_handle)
            [ Ev_rwlock_wrlock; Ev_timer_start 720000000;
              Ev_timer_override_once 0; Ev_rwlock_wrunlock ],
          "").
Proof. reflexivity. Qed.



Lemma strcmp_ne_iff (a b : string) : strcmp_ne a b = true <-> a <> b.
Proof.
  unfold strcmp_ne. destruct (String.eqb_spec a b); simpl; split;
    congruence.
Qed.

Lemma error_changed_iff (old : option string) (e : string) :
  match old with
  | None => true
  | Some o => strcmp_ne o e
  end = negb (if option_string_eq_dec old (Some e) then true else false).
Proof.
  destruct old as [o|].
  - destruct (option_string_eq_dec (Some o) (Some e)) as [E|E]; cbn [negb].
    + injection E as ->. unfold strcmp_ne. now rewrite String.eqb_refl.
    + apply strcmp_ne_iff. congruence.
  - destruct (option_string_eq_dec None (Some e)); [discriminate|reflexivity].
Qed.

Lemma set_credential_failure_value
    (rk : rd_kafka_t) (handle : Handle.t) (errstr : string) :
  configured_handle rk = Some handle ->
  errstr <> "" ->
  rd_kafka_aws_msk_iam_set_credential_failure rk (Some errstr)
  = mk_rk (rk_conf rk)
      (Some (Handle.mk (Handle.aws_access_key_id handle)
               (Handle.aws_secret_access_key handle)
               (Handle.aws_region handle)
               (Handle.aws_security_token handle) (Some errstr)
               (rd_kafka_timer_start (10 * 1000 * 1000))))
      (rk_events rk
       ++ [ Ev_rwlock_wrlock; Ev_timer_start 10000000; Ev_rwlock_wrunlock ]
       ++ (if match Handle.errstr handle with
              | None => true
              | Some old => strcmp_ne old errstr
              end
           then [ Ev_op_err RD_KAFKA_RESP_ERR__AUTHENTICATION
                    ("Failed to acquire SASL AWS_MSK_IAM credential: "
                     ++ errstr) ]
           else []))%list.
Proof.
  intros Hconf Hne.
  unfold rd_kafka_aws_msk_iam_set_credential_failure. rewrite Hconf.
  destruct errstr as [|c errstr]; [congruence|].
  unfold emit, set_handle, rd_strdup.
  cbn [rk_conf rk_sasl_handle rk_events Handle.errstr
       Handle.credential_refresh_tmr Handle.aws_access_key_id
       Handle.aws_secret_access_key Handle.aws_region
       Handle.aws_security_token].
  destruct (match Handle.errstr handle with
            | None => true
            | Some old => strcmp_ne old (String c errstr)
            end);
    cbn [rk_conf rk_sasl_handle rk_events];
    rewrite <- ?app_assoc; reflexivity.
Qed.

(** C7. On a client configured for AWS_MSK_IAM, a call of the failure
    recorder with a non-empty error string leaves the four credential
    fields as they were, starts the refresh timer 10 seconds out, stores
    the error string, and emits the [RD_KAFKA_RESP_ERR__AUTHENTICATION]
    event [Failed to acquire SASL AWS_MSK_IAM credential: errstr] if and
    only if the string differs from the stored last error (none stored
    counts as different); a repeated identical string emits no event. *)
Theorem set_credential_failure_debounces :
  forall (rk : rd_kafka_t) (handle : Handle.t) (errstr : string),
    configured_handle rk = Some handle ->
    errstr <> "" ->
    let rk' := rd_kafka_aws_msk_iam_set_credential_failure rk (Some errstr) in
    let ev :=
      Ev_op_err RD_KAFKA_RESP_ERR__AUTHENTICATION
        ("Failed to acquire SASL AWS_MSK_IAM credential: " ++ errstr) in
    exists handle' emitted,
      rk_sasl_handle rk' = Some handle'
      /\ rk_conf rk' = rk_conf rk
      /\ stored_credentials handle' = stored_credentials handle
      /\ Handle.errstr handle' = Some errstr
      /\ Handle.credential_refresh_tmr handle'
         = rd_kafka_timer_start (10 * 1000 * 1000)
      /\ rk_events rk'
         = (rk_events rk
            ++ [ Ev_rwlock_wrlock; Ev_timer_start 10000000;
                 Ev_rwlock_wrunlock ] ++ emitted)%list
      /\ (Handle.errstr handle <> Some errstr -> emitted = [ ev ])
      /\ (Handle.errstr handle = Some errstr -> emitted = [])
      /\ (In ev emitted <-> Handle.errstr handle <> Some errstr).
Proof.
  intros rk handle errstr Hconf Hne rk' ev.
  subst rk'.
  rewrite (set_credential_failure_value rk handle errstr Hconf Hne).
  cbn [rk_sasl_handle rk_conf rk_events].
  rewrite error_changed_iff.
  eexists. eexists. split; [reflexivity|]. split; [reflexivity|].
  split; [reflexivity|]. split; [reflexivity|]. split; [reflexivity|].
  split; [reflexivity|].
  destruct (option_string_eq_dec (Handle.errstr handle) (Some errstr))
    as [E|E].
  - rewrite E. destruct (option_string_eq_dec (Some errstr) (Some errstr));
      [|congruence].
    cbn [negb In]. repeat split; try tauto; congruence.
  - destruct (option_string_eq_dec (Handle.errstr handle) (Some errstr));
      [congruence|].
    cbn [negb In]. repeat split; try tauto; congruence.
Qed.

Lemma set_credential_failure_witness :
  let rk' :=
    rd_kafka_aws_msk_iam_set_credential_failure example_rk (Some "boom") in
  let ev :=
    Ev_op_err RD_KAFKA_RESP_ERR__AUTHENTICATION
      ("Failed to acquire SASL AWS_MSK_IAM credential: " ++ "boom") in
  exists handle' emitted,
    rk_sasl_handle rk' = Some handle'
    /\ rk_conf rk' = rk_conf example_rk
    /\ stored_credentials handle' = stored_credentials example_handle
    /\ Handle.errstr handle' = Some "boom"
    /\ Handle.credential_refresh_tmr handle'
       = rd_kafka_timer_start (10 * 1000 * 1000)
    /\ rk_events rk'
       = (rk_events example_rk
          ++ [ Ev_rwlock_wrlock; Ev_timer_start 10000000;
               Ev_rwlock_wrunlock ] ++ emitted)%list
    /\ (Handle.errstr example_handle <> Some "boom" -> emitted = [ ev ])
    /\ (Handle.errstr example_handle = Some "boom" -> emitted = [])
    /\ (In ev emitted <-> Handle.errstr example_handle <> Some "boom").
Proof.
  apply (set_credential_failure_debounces example_rk example_handle "boom");
    [reflexivity | discriminate].
Defined.

(** The same error recorded twice: one event. *)
Example set_credential_failure_twice :
  rk_events
    (rd_kafka_aws_msk_iam_set_credential_failure
       (rd_kafka_aws_msk_iam_set_credential_failure example_rk (Some "boom"))
       (Some "boom"))
  = [ Ev_rwlock_wrlock; Ev_timer_start 10000000; Ev_rwlock_wrunlock;
      Ev_op_err RD_KAFKA_RESP_ERR__AUTHENTICATION
        "Failed to acquire SASL AWS_MSK_IAM credential: boom";
      Ev_rwlock_wrlock; Ev_timer_start 10000000; Ev_rwlock_wrunlock ].
Proof. reflexivity. Qed.

(** C10. On a client configured for AWS_MSK_IAM, a call of the failure
    recorder with a NULL or empty error string still starts the refresh
    timer 10 seconds out, and returns with the stored last error (and the
    credentials) as they were and without emitting an error event. *)
Theorem set_credential_failure_without_text :
  forall (rk : rd_kafka_t) (handle : Handle.t) (errstr : option string),
    configured_handle rk = Some handle ->
    errstr = None \/ errstr = Some "" ->
    let rk' := rd_kafka_aws_msk_iam_set_credential_failure rk errstr in
    let added :=
      [ Ev_rwlock_wrlock; Ev_timer_start (10 * 1000 * 1000);
        Ev_rwlock_wrunlock ] in
    rk' = mk_rk (rk_conf rk)
            (Some (Handle.mk (Handle.aws_access_key_id handle)
                     (Handle.aws_secret_access_key handle)
                     (Handle.aws_region handle)
                     (Handle.aws_security_token handle)
                     (Handle.errstr handle)
                     (rd_kafka_timer_start (10 * 1000 * 1000))))
            (rk_events rk ++ added)%list
    /\ existsb is_op_err added = false
    /\ (exists handle',
           rk_sasl_handle rk' = Some handle'
           /\ Handle.errstr handle' = Handle.errstr handle
           /\ stored_credentials handle' = stored_credentials handle
           /\ rtmr_started (Handle.credential_refresh_tmr handle') = true
           /\ rtmr_next_in (Handle.credential_refresh_tmr handle')
              = 10000000%Z).
Proof.
  intros rk handle errstr Hconf Herr rk' added.
  assert (Hval : rk' = mk_rk (rk_conf rk)
            (Some (Handle.mk (Handle.aws_access_key_id handle)
                     (Handle.aws_secret_access_key handle)
                     (Handle.aws_region handle)
                     (Handle.aws_security_token handle)
                     (Handle.errstr handle)
                     (rd_kafka_timer_start (10 * 1000 * 1000))))
            (rk_events rk ++ added)%list).
  { subst rk' added.
    unfold rd_kafka_aws_msk_iam_set_credential_failure. rewrite Hconf.
    destruct Herr as [-> | ->]; unfold emit, set_handle;
      cbn [rk_conf rk_sasl_handle rk_events];
      rewrite <- !app_assoc; reflexivity. }
  split; [exact Hval|]. split; [reflexivity|].
  rewrite Hval. eexists. split; [reflexivity|].
  repeat split.
Qed.

Lemma set_credential_failure_without_text_witness :
  let rk' := rd_kafka_aws_msk_iam_set_credential_failure example_rk None in
  let added :=
    [ Ev_rwlock_wrlock; Ev_timer_start (10 * 1000 * 1000);
      Ev_rwlock_wrunlock ] in
  rk' = mk_rk (rk_conf example_rk)
          (Some (Handle.mk (Handle.aws_access_key_id example_handle)
                   (Handle.aws_secret_access_key example_handle)
                   (Handle.aws_region example_handle)
                   (Handle.aws_security_token example_handle)
                   (Handle.errstr example_handle)
                   (rd_kafka_timer_start (10 * 1000 * 1000))))
          (rk_events example_rk ++ added)%list
  /\ existsb is_op_err added = false
  /\ (exists handle',
         rk_sasl_handle rk' = Some handle'
         /\ Handle.errstr handle' = Handle.errstr example_handle
         /\ stored_credentials handle' = stored_credentials example_handle
         /\ rtmr_started (Handle.credential_refresh_tmr handle') = true
         /\ rtmr_next_in (Handle.credential_refresh_tmr handle')
            = 10000000%Z).
Proof.
  apply (set_credential_failure_without_text example_rk example_handle None);
    [reflexivity | left; reflexivity].
Defined.

(** ** Creating the per-connection authenticator *)

Lemma build_client_first_message_value
    (env : fsm_env_t) (st : fsm_state_t)
    (hostname key secret region : string) (token : option string) :
  rd_kafka_sasl_aws_msk_iam_build_client_first_message env
    (State.mk st (Some EVP_get_digestbyname_SHA256) (Some hostname)
       (Some key) (Some secret) (Some region) token)
  = Some (mk_chariov (client_first_message env hostname key secret region
                        token)
            (strlen (client_first_message env hostname key secret region
                       token))).
Proof.
  unfold rd_kafka_sasl_aws_msk_iam_build_client_first_message.
  cbn [State.aws_access_key_id State.aws_secret_access_key State.aws_region
       State.hostname State.md State.aws_security_token].
  builder. fold (client_first_message env hostname key secret region token).
  rewrite rd_snprintf_fits by reflexivity. reflexivity.
Qed.




(** The first message of that connection is the payload of
    [unittest_build_sasl_payload]. *)
Example client_first_message_scenario4 :
  client_first_message example_env "hostname" "AWS_ACCESS_KEY_ID"
    "AWS_SECRET_ACCESS_KEY" "us-east-1" None
  = c_lit "{'version':'2020_10_22','host':'hostname','user-agent':'librdkafka','action':'kafka-cluster:Connect','x-amz-algorithm':'AWS4-HMAC-SHA256','x-amz-credential':'AWS_ACCESS_KEY_ID/20100101/us-east-1/kafka-cluster/aws4_request','x-amz-date':'20100101T000000Z','x-amz-signedheaders':'host','x-amz-expires':'900','x-amz-signature':'d3eeeddfb2c2b76162d583d7499c2364eb9a92b248218e31866659b18997ef44'}".
Proof. vm_compute. reflexivity. Qed.

(** ** The expiry of refreshed credentials *)

Lemma credentials_child_lifetime
    (libc : libc_t) (credential credential' : Credential.t) (cur : xmlNode) :
  sts_credentials_child libc (Some credential) cur = Some credential' ->
  Credential.md_lifetime_ms credential'
  = match expiration_ms libc cur with
    | Some v => v
    | None => Credential.md_lifetime_ms credential
    end.
Proof.
  unfold sts_credentials_child, expiration_ms.
  destruct (xmlNodeListGetString (xml_children cur)) as [content|];
    destruct (String.eqb (xml_name cur) "AccessKeyId");
    destruct (String.eqb (xml_name cur) "SecretAccessKey");
    destruct (String.eqb (xml_name cur) "SessionToken");
    destruct (String.eqb (xml_name cur) "Expiration");
    try discriminate;
    try (intros [= <-]; reflexivity);
    destruct (libc_sscanf libc content) as [scanned|];
    try (intros [= <-]; reflexivity);
    match goal with
    | |- context [(0 <? ?e)%Z] => destruct (0 <? e)%Z
    end; intros [= <-]; reflexivity.
Qed.

Lemma credentials_fold_none (libc : libc_t) (kids : list xmlNode) :
  fold_left (sts_credentials_child libc) kids None = None.
Proof. induction kids as [|cur kids IH]; [reflexivity | exact IH]. Qed.

Lemma last_expiration_start
    (libc : libc_t) (kids : list xmlNode) (m : Z) :
  forall start,
    last_expiration libc kids
      (match start with
       | Some v => Some v
       | None => Some m
       end)
    = Some match last_expiration libc kids start with
           | Some v => v
           | None => m
           end.
Proof.
  induction kids as [|cur kids IH]; intros start.
  - destruct start; reflexivity.
  - unfold last_expiration in *. cbn [fold_left].
    destruct (expiration_ms libc cur) as [v|].
    + exact (IH (Some v)).
    + exact (IH start).
Qed.

Lemma credentials_fold_lifetime (libc : libc_t) (kids : list xmlNode) :
  forall credential credential',
    fold_left (sts_credentials_child libc) kids (Some credential)
    = Some credential' ->
    Credential.md_lifetime_ms credential'
    = match last_expiration libc kids None with
      | Some v => v
      | None => Credential.md_lifetime_ms credential
      end.
Proof.
  induction kids as [|cur kids IH]; intros credential credential' Hfold.
  - injection Hfold as <-. reflexivity.
  - cbn [fold_left] in Hfold.
    destruct (sts_credentials_child libc (Some credential) cur)
      as [c1|] eqn:Hchild.
    + rewrite (IH _ _ Hfold), (credentials_child_lifetime _ _ _ _ Hchild).
      unfold last_expiration at 2. cbn [fold_left].
      fold (last_expiration libc kids
              match expiration_ms libc cur with
              | Some v => Some v
              | None => None
              end).
      destruct (expiration_ms libc cur) as [v|]; [|reflexivity].
      rewrite (last_expiration_start libc kids v None). reflexivity.
    + rewrite credentials_fold_none in Hfold. discriminate Hfold.
Qed.

Lemma last_expiration_present
    (libc : libc_t) (kids : list xmlNode) (v : Z) :
  forall start,
    last_expiration libc kids start = Some v ->
    start = Some v
    \/ exists node, In node kids /\ expiration_ms libc node = Some v.
Proof.
  induction kids as [|cur kids IH]; intros start H.
  - left. exact H.
  - unfold last_expiration in H. cbn [fold_left] in H.
    destruct (expiration_ms libc cur) as [w|] eqn:Hcur.
    + destruct (IH _ H) as [[= ->] | (node & Hin & Hnode)].
      * right. exists cur. split; [left; reflexivity | exact Hcur].
      * right. exists node. split; [right; exact Hin | exact Hnode].
    + destruct (IH _ H) as [-> | (node & Hin & Hnode)].
      * left. reflexivity.
      * right. exists node. split; [right; exact Hin | exact Hnode].
Qed.

Lemma expiration_ms_parsed (libc : libc_t) (cur : xmlNode) (v : Z) :
  expiration_ms libc cur = Some v ->
  xml_name cur = "Expiration"
  /\ exists content scanned,
       xmlNodeListGetString (xml_children cur) = Some content
       /\ libc_sscanf libc content = Some scanned
       /\ v = int64
                (libc_mktime libc
                   (mk_tm (int32 (tm_year scanned - 1900))
                      (int32 (tm_mon scanned - 1)) (tm_mday scanned)
                      (tm_hour scanned) (tm_min scanned) (tm_sec scanned))
                 * 1000).
Proof.
  unfold expiration_ms.
  destruct (String.eqb_spec (xml_name cur) "Expiration") as [Hname|];
    [|discriminate].
  destruct (xmlNodeListGetString (xml_children cur)) as [content|];
    [|discriminate].
  destruct (libc_sscanf libc content) as [scanned|] eqn:Hscan;
    [|discriminate].
  match goal with
  | |- context [(0 <? ?e)%Z] => destruct (0 <? e)%Z
  end; [|discriminate].
  intros [= <-]. split; [exact Hname|].
  exists content, scanned. split; [reflexivity|]. split; [exact Hscan|].
  reflexivity.
Qed.

Lemma credentials_child_defined
    (libc : libc_t) (credential : Credential.t) (cur : xmlNode) :
  field_has_text cur = true ->
  exists credential',
    sts_credentials_child libc (Some credential) cur = Some credential'.
Proof.
  unfold field_has_text, is_credential_field, sts_credentials_child.
  destruct (xmlNodeListGetString (xml_children cur)) as [content|];
    destruct (String.eqb (xml_name cur) "AccessKeyId");
    destruct (String.eqb (xml_name cur) "SecretAccessKey");
    destruct (String.eqb (xml_name cur) "SessionToken");
    destruct (String.eqb (xml_name cur) "Expiration");
    cbn [orb]; try discriminate; intros _;
    try (eexists; reflexivity);
    destruct (libc_sscanf libc content) as [scanned|];
    try (eexists; reflexivity);
    match goal with
    | |- context [(0 <? ?e)%Z] => destruct (0 <? e)%Z
    end; eexists; reflexivity.
Qed.

Lemma credentials_fold_defined (libc : libc_t) (kids : list xmlNode) :
  forallb field_has_text kids = true ->
  forall credential,
  exists credential',
    fold_left (sts_credentials_child libc) kids (Some credential)
    = Some credential'.
Proof.
  induction kids as [|cur kids IH]; intros Htext credential.
  - exists credential. reflexivity.
  - cbn [forallb] in Htext. apply andb_prop in Htext as [Hcur Hkids].
    destruct (credentials_child_defined libc credential cur Hcur)
      as [c1 Hc1].
    cbn [fold_left]. rewrite Hc1. apply (IH Hkids).
Qed.

Lemma parse_document_lifetime
    (libc : libc_t) (document : option xmlNode)
    (credential credential' : Credential.t) (errbuf errbuf' : option string)
    (errbuf_size : nat) (ret : rd_kafka_resp_err_t) :
  sts_parse_document libc document credential errbuf errbuf_size
  = Some (ret, credential', errbuf') ->
  Credential.md_lifetime_ms credential'
  = match sts_expiration libc (Curl_ok document) with
    | Some v => v
    | None => Credential.md_lifetime_ms credential
    end.
Proof.
  unfold sts_parse_document, sts_expiration, sts_credentials.
  destruct document as [root|]; [|intros [= _ <- _]; reflexivity].
  destruct (String.eqb (xml_name root) "ErrorResponse").
  - destruct errbuf as [buf|]; [|intros [= _ <- _]; reflexivity].
    destruct (xml_find "Error" (xml_children root)) as [err|];
      [|intros [= _ <- _]; reflexivity].
    destruct (fold_left _ (xml_children err) (Some buf));
      [intros [= _ <- _]; reflexivity | discriminate].
  - destruct (xml_find "AssumeRoleResult" (xml_children root)) as [result|];
      [|intros [= _ <- _]; reflexivity].
    destruct (xml_find "Credentials" (xml_children result)) as [creds|];
      [|intros [= _ <- _]; reflexivity].
    destruct (fold_left (sts_credentials_child libc) (xml_children creds)
                (Some credential)) as [c|] eqn:Hfold; [|discriminate].
    intros [= _ <- _]. exact (credentials_fold_lifetime _ _ _ _ Hfold).
Qed.

Lemma send_request_lifetime
    (libc : libc_t) (reply : sts_reply_t)
    (credential credential' : Credential.t)
    (ymd hms host key secret region service method algorithm ch sh
       body : string) (md : EVP_MD) (errbuf errbuf' : option string)
    (errbuf_size : nat) (ret : rd_kafka_resp_err_t)
    (request : http_request_t) :
  rd_kafka_aws_send_request libc reply credential ymd hms host key secret
    region service method algorithm ch sh body md errbuf errbuf_size
  = Some (ret, credential', errbuf', request) ->
  Credential.md_lifetime_ms credential'
  = match sts_expiration libc reply with
    | Some v => v
    | None => Credential.md_lifetime_ms credential
    end.
Proof.
  unfold rd_kafka_aws_send_request.
  destruct reply as [curl_errbuf|document].
  - intros [= _ <- _ _]. reflexivity.
  - destruct (sts_parse_document libc document credential errbuf errbuf_size)
      as [[[r c] e]|] eqn:Hparse; [|discriminate].
    intros [= _ <- _ _]. exact (parse_document_lifetime _ _ _ _ _ _ _ _ Hparse).
Qed.

Lemma send_request_defined
    (libc : libc_t) (reply : sts_reply_t) (credential : Credential.t)
    (ymd hms host key secret region service method algorithm ch sh
       body : string) (md : EVP_MD) (errbuf : string) (errbuf_size : nat) :
  match reply with
  | Curl_failed _ => True
  | Curl_ok _ =>
      exists creds, sts_credentials reply = Some creds
                    /\ forallb field_has_text (xml_children creds) = true
  end ->
  exists ret credential' errbuf' request,
    rd_kafka_aws_send_request libc reply credential ymd hms host key secret
      region service method algorithm ch sh body md (Some errbuf) errbuf_size
    = Some (ret, credential', errbuf', request)
    /\ (ret = RD_KAFKA_RESP_ERR_NO_ERROR <-> exists d, reply = Curl_ok d).
Proof.
  unfold rd_kafka_aws_send_request.
  destruct reply as [curl_errbuf|document].
  - intros _. do 4 eexists. split; [reflexivity|].
    split; [discriminate | intros [d Hd]; discriminate Hd].
  - intros (creds & Hcreds & Htext).
    unfold sts_credentials in Hcreds. unfold sts_parse_document.
    destruct document as [root|]; [|discriminate].
    destruct (String.eqb (xml_name root) "ErrorResponse"); [discriminate|].
    destruct (xml_find "AssumeRoleResult" (xml_children root)) as [result|];
      [|discriminate].
    rewrite Hcreds.
    destruct (credentials_fold_defined libc _ Htext credential) as [c Hc].
    rewrite Hc. do 4 eexists. split; [reflexivity|].
    split; [intros _; eexists; reflexivity | reflexivity].
Qed.

Lemma refresh0_calls_send_request
    (env : refresh_env_t) (rk : rd_kafka_t) (errstr : string)
    (errstr_size : nat) :
  sts_conf_complete (rk_conf rk) = true ->
  exists key secret region ch body,
    Conf.aws_region (rk_conf rk) = Some region
    /\ rd_kafka_aws_msk_iam_credential_refresh0 env rk errstr errstr_size
       = match
           rd_kafka_aws_send_request (renv_libc env) (renv_reply env)
             (refresh0_initial_credential (rk_conf rk) region
                (renv_uclock_refresh env))
             (renv_ymd env) (renv_hms env) "sts.amazonaws.com" key secret
             region "sts" "POST" "AWS4-HMAC-SHA256" ch
             "content-length;content-type;host;x-amz-date" body
             EVP_get_digestbyname_SHA256 (Some errstr) errstr_size
         with
         | None => None
         | Some (ret, credential, errbuf, request) =>
             Some (ret, emit (emit rk Ev_rwlock_wrlock) Ev_rwlock_wrunlock,
                   credential,
                   match errbuf with
                   | Some e => e
                   | None => errstr
                   end, request)
         end.
Proof.
  unfold sts_conf_complete, rd_kafka_aws_msk_iam_credential_refresh0.
  destruct (Conf.aws_access_key_id (rk_conf rk)) as [key|]; [|discriminate].
  destruct (Conf.aws_secret_access_key (rk_conf rk)) as [secret|];
    [|discriminate].
  destruct (Conf.aws_region (rk_conf rk)) as [region|]; [|discriminate].
  destruct (Conf.role_arn (rk_conf rk)) as [arn|]; [|discriminate].
  destruct (Conf.role_session_name (rk_conf rk)) as [session|];
    [|discriminate].
  intros _. exists key, secret, region. do 2 eexists.
  split; reflexivity.
Qed.

Lemma fallback_value (conf : Conf.sasl_t) (region : string) (uclock : Z) :
  fallback_in_range uclock (Conf.duration_sec conf) ->
  Credential.md_lifetime_ms (refresh0_initial_credential conf region uclock)
  = (uclock / 1000 + Conf.duration_sec conf * 1000)%Z.
Proof.
  intros [Hclock Hdur].
  unfold refresh0_initial_credential. cbn [Credential.md_lifetime_ms].
  rewrite int32_id by lia. rewrite Z.quot_div_nonneg by lia.
  apply int64_id.
  assert (0 <= uclock / 1000)%Z by (apply Z.div_pos; lia).
  assert (uclock / 1000 < 4611686018427387904)%Z
    by (apply Z.div_lt_upper_bound; lia).
  lia.
Qed.

(** On every STS refresh (configuration strings set, clock and
    [aws.duration.sec] in the range where the arithmetic does not wrap):
    - the credential handed to the STS call already carries the expiry
      [now + duration_sec * 1000] milliseconds, whatever the answer will be;
    - in the credential that comes back the expiry is either that value or
      the one read from an [Expiration] element of the answer, and it is the
      latter only when such an element is present under [Credentials], has
      text that [sscanf] reads in full, and then it is [mktime] of the
      fields read times 1000;
    - so when the element is absent or does not parse the expiry is the
      fallback;
    - the refresh does come back with a credential when the answer has a
      [Credentials] element whose fields have text, and when the transfer
      failed;
    - the expiry of that credential is what the installer is called with. *)
Lemma refresh0_expiry_parsed_or_fallback :
  forall (env : refresh_env_t) (rk : rd_kafka_t),
    sts_conf_complete (rk_conf rk) = true ->
    fallback_in_range (renv_uclock_refresh env)
      (Conf.duration_sec (rk_conf rk)) ->
    let conf := rk_conf rk in
    let libc := renv_libc env in
    let reply := renv_reply env in
    let fallback :=
      (renv_uclock_refresh env / 1000 + Conf.duration_sec conf * 1000)%Z in
    let refreshed :=
      rd_kafka_aws_msk_iam_credential_refresh0 env rk "" 512 in
    (exists key secret region ch body,
        Credential.md_lifetime_ms
          (refresh0_initial_credential conf region (renv_uclock_refresh env))
        = fallback
        /\ refreshed
           = match
               rd_kafka_aws_send_request libc reply
                 (refresh0_initial_credential conf region
                    (renv_uclock_refresh env))
                 (renv_ymd env) (renv_hms env) "sts.amazonaws.com" key
                 secret region "sts" "POST" "AWS4-HMAC-SHA256" ch
                 "content-length;content-type;host;x-amz-date" body
                 EVP_get_digestbyname_SHA256 (Some "") 512
             with
             | None => None
             | Some (ret, credential, errbuf, request) =>
                 Some (ret,
                       emit (emit rk Ev_rwlock_wrlock) Ev_rwlock_wrunlock,
                       credential,
                       match errbuf with
                       | Some e => e
                       | None => ""
                       end, request)
             end)
    /\ (forall ret rk' credential errstr' request,
           refreshed = Some (ret, rk', credential, errstr', request) ->
           Credential.md_lifetime_ms credential
           = match sts_expiration libc reply with
             | Some v => v
             | None => fallback
             end)
    /\ (forall v,
           sts_expiration libc reply = Some v ->
           exists creds node content scanned,
             sts_credentials reply = Some creds
             /\ In node (xml_children creds)
             /\ xml_name node = "Expiration"
             /\ xmlNodeListGetString (xml_children node) = Some content
             /\ libc_sscanf libc content = Some scanned
             /\ v = int64
                      (libc_mktime libc
                         (mk_tm (int32 (tm_year scanned - 1900))
                            (int32 (tm_mon scanned - 1)) (tm_mday scanned)
                            (tm_hour scanned) (tm_min scanned)
                            (tm_sec scanned)) * 1000))
    /\ (match reply with
        | Curl_failed _ => True
        | Curl_ok _ =>
            exists creds,
              sts_credentials reply = Some creds
              /\ forallb field_has_text (xml_children creds) = true
        end ->
        exists ret rk' credential errstr' request,
          refreshed = Some (ret, rk', credential, errstr', request)
          /\ (ret = RD_KAFKA_RESP_ERR_NO_ERROR <->
              exists d, reply = Curl_ok d))
    /\ (Conf.enable_use_sts conf = true ->
        forall rk' credential errstr' request,
          refreshed
          = Some (RD_KAFKA_RESP_ERR_NO_ERROR, rk', credential, errstr',
                  request) ->
          rd_kafka_aws_msk_iam_credential_refresh env rk
          = match
              rd_kafka_aws_msk_iam_set_credential rk'
                (Credential.aws_access_key_id credential)
                (Credential.aws_secret_access_key credential)
                (Credential.aws_region credential)
                (Credential.aws_security_token credential)
                (Credential.md_lifetime_ms credential)
                (renv_uclock_install env) errstr' 512
            with
            | None => None
            | Some (err, rk'', errstr'') =>
                if negb (resp_err_eqb err RD_KAFKA_RESP_ERR_NO_ERROR) then
                  Some (rd_kafka_aws_msk_iam_set_credential_failure rk''
                          (Some errstr''))
                else Some rk''
            end).
Proof.
  intros env rk Hconf Hrange conf libc reply fallback refreshed.
  destruct (refresh0_calls_send_request env rk "" 512 Hconf)
    as (key & secret & region & ch & body & Hregion & Hcall).
  fold conf libc reply refreshed in Hcall.
  pose proof (fallback_value conf region _ Hrange) as Hfallback.
  fold fallback in Hfallback.
  split; [|split; [|split; [|split]]].
  - exists key, secret, region, ch, body. split; [exact Hfallback | exact Hcall].
  - intros ret rk' credential errstr' request Hret.
    rewrite Hcall in Hret.
    destruct (rd_kafka_aws_send_request _ _ _ _ _ _ _ _ _ _ _ _ _ _ _ _ _ _)
      as [[[[r c] e] q]|] eqn:Hsend; [|discriminate].
    injection Hret as _ _ <- _ _.
    rewrite (send_request_lifetime _ _ _ _ _ _ _ _ _ _ _ _ _ _ _ _ _ _ _ _ _ _
               Hsend).
    now rewrite Hfallback.
  - intros v Hv. unfold sts_expiration in Hv.
    destruct (sts_credentials reply) as [creds|] eqn:Hcreds; [|discriminate].
    destruct (last_expiration_present _ _ _ _ Hv)
      as [Hnone | (node & Hin & Hnode)]; [discriminate|].
    destruct (expiration_ms_parsed _ _ _ Hnode)
      as (Hname & content & scanned & Htext & Hscan & Hval).
    exists creds, node, content, scanned. repeat split; assumption.
  - intros Hreply.
    destruct (send_request_defined libc reply
                (refresh0_initial_credential conf region
                   (renv_uclock_refresh env))
                (renv_ymd env) (renv_hms env) "sts.amazonaws.com" key secret
                region "sts" "POST" "AWS4-HMAC-SHA256" ch
                "content-length;content-type;host;x-amz-date" body
                EVP_get_digestbyname_SHA256 "" 512 Hreply)
      as (ret & c & e & q & Hsend & Hok).
    rewrite Hcall, Hsend. do 5 eexists. split; [reflexivity | exact Hok].
  - intros Hsts rk' credential errstr' request Hret.
    unfold rd_kafka_aws_msk_iam_credential_refresh.
    fold conf. rewrite Hsts. fold refreshed. rewrite Hret.
    reflexivity.
Qed.

(** An answer without [Expiration]: the expiry is the fallback. *)
Lemma refresh0_fallback_expiry_example :
  exists ret rk' credential errstr' request,
    rd_kafka_aws_msk_iam_credential_refresh0 example_refresh_env example_rk
      "" 512
    = Some (ret, rk', credential, errstr', request)
    /\ Credential.md_lifetime_ms credential
       = (1631300834000 + 900 * 1000)%Z.
Proof.
  destruct (refresh0_expiry_parsed_or_fallback example_refresh_env
              example_rk eq_refl)
    as (_ & Hvalue & _ & Hdefined & _).
  { unfold fallback_in_range. cbn. lia. }
  destruct Hdefined as (ret & rk' & c & e & q & Hret & _).
  { eexists. split; reflexivity. }
  exists ret, rk', c, e, q. split; [exact Hret|].
  rewrite (Hvalue _ _ _ _ _ Hret). reflexivity.
Qed.

(** The calendar arithmetic of [timegm] on the fields of a stamp. *)
Lemma days_before_month_range (y m : Z) :
  (0 <= m <= 11)%Z -> (0 <= days_before_month y m <= 335)%Z.
Proof.
  intros Hm. unfold days_before_month.
  assert (Hcases : exists k, (k < 12)%nat /\ Z.to_nat m = k)
    by (exists (Z.to_nat m); split; [lia | reflexivity]).
  destruct Hcases as (k & Hk & ->).
  destruct (is_leap_year y && (2 <=? m))%Z;
    do 12 (destruct k as [|k]; [cbn; lia|]); lia.
Qed.

Lemma days_before_year_range (y : Z) :
  (1970 <= y <= 9999)%Z -> (0 <= days_before_year y <= 2932897)%Z.
Proof.
  intros Hy. unfold days_before_year, leap_days_before.
  Z.div_mod_to_equations. lia.
Qed.

Lemma expiration_unix_ms_range (stamp : tm) :
  stamp_in_range stamp ->
  (0 <= expiration_unix_ms stamp < 254000000000000)%Z.
Proof.
  intros (Hy & Hm & Hd & Hh & Hi & Hs).
  unfold expiration_unix_ms, timegm.
  cbn [tm_year tm_mon tm_mday tm_hour tm_min tm_sec].
  replace (((tm_year stamp - 1900) * 12 + (tm_mon stamp - 1)) / 12)%Z
    with (tm_year stamp - 1900)%Z by (Z.div_mod_to_equations; lia).
  replace (((tm_year stamp - 1900) * 12 + (tm_mon stamp - 1)) mod 12)%Z
    with (tm_mon stamp - 1)%Z by (Z.div_mod_to_equations; lia).
  replace (1900 + (tm_year stamp - 1900))%Z with (tm_year stamp) by lia.
  pose proof (days_before_year_range (tm_year stamp) Hy).
  pose proof (days_before_month_range (tm_year stamp) (tm_mon stamp - 1)
                ltac:(lia)).
  lia.
Qed.

(** What an [Expiration] element yields on a host [utc_offset] seconds
    ahead of UTC: the stamp's unix milliseconds less the offset. *)
Lemma expiration_ms_on_host
    (utc_offset : Z) (text : list xmlNode) (content : string) (stamp : tm) :
  xmlNodeListGetString text = Some content ->
  sscanf_expiration content = Some stamp ->
  stamp_in_range stamp ->
  (- 86400 < utc_offset < 86400)%Z ->
  (utc_offset * 1000 < expiration_unix_ms stamp)%Z ->
  expiration_ms (host_libc utc_offset) (XmlElement "Expiration" text)
  = Some (expiration_unix_ms stamp - utc_offset * 1000)%Z.
Proof.
  intros Htext Hscan Hstamp Hoff Hpositive.
  pose proof (expiration_unix_ms_range stamp Hstamp) as Hrange.
  destruct Hstamp as (Hy & Hm & _).
  unfold expiration_ms.
  cbn [xml_name xml_children host_libc libc_sscanf libc_mktime].
  rewrite String.eqb_refl, Htext, Hscan.
  rewrite !int32_id by lia.
  unfold mktime. unfold expiration_unix_ms in Hpositive, Hrange |- *.
  set (t := timegm _) in *.
  replace (0 <? t - utc_offset)%Z with true by (symmetry; apply Z.ltb_lt; lia).
  rewrite int64_id by lia. f_equal. lia.
Qed.

Lemma last_expiration_app
    (libc : libc_t) (first rest : list xmlNode) (start : option Z) :
  last_expiration libc (first ++ rest) start
  = last_expiration libc rest (last_expiration libc first start).
Proof. unfold last_expiration. apply fold_left_app. Qed.

Lemma last_expiration_no_child (libc : libc_t) (kids : list xmlNode) :
  no_child_named "Expiration" kids = true ->
  forall start, last_expiration libc kids start = start.
Proof.
  unfold no_child_named.
  induction kids as [|cur kids IH]; intros Hnone start; [reflexivity|].
  cbn [forallb] in Hnone. apply andb_prop in Hnone as (Hcur & Hkids).
  apply negb_true_iff in Hcur.
  assert (Hnot : expiration_ms libc cur = None)
    by (unfold expiration_ms; now rewrite Hcur).
  unfold last_expiration. cbn [fold_left]. rewrite Hnot.
  exact (IH Hkids start).
Qed.

(** C9. The expiry of a refreshed credential is not the unix-millisecond
    conversion of the [Expiration] stamp of the answer: [mktime] reads the
    stamp, which is a UTC time, as local time.  On a host whose local time
    is [utc_offset] seconds ahead of UTC, for an answer of STS whose
    [Credentials] element has fields with text and whose last [Expiration]
    element carries a stamp of the form [YYYY-MM-DDTHH:MM:SS[.fff]Z] (a date
    from 1970 on, a time of day, later than the epoch on that host), the
    refresher returns with [RD_KAFKA_RESP_ERR_NO_ERROR] and the expiry of
    the credential is the stamp's unix milliseconds less
    [utc_offset * 1000]; it is the unix milliseconds of the stamp exactly
    when the host is on UTC. *)
Theorem sts_expiry_reads_utc_stamp_as_local_time :
  forall (env : refresh_env_t) (rk : rd_kafka_t) (utc_offset : Z)
         (creds : xmlNode) (before after text : list xmlNode)
         (content : string) (stamp : tm),
    sts_conf_complete (rk_conf rk) = true ->
    fallback_in_range (renv_uclock_refresh env)
      (Conf.duration_sec (rk_conf rk)) ->
    renv_libc env = host_libc utc_offset ->
    (- 86400 < utc_offset < 86400)%Z ->
    sts_credentials (renv_reply env) = Some creds ->
    xml_children creds
    = (before ++ XmlElement "Expiration" text :: after)%list ->
    no_child_named "Expiration" after = true ->
    forallb field_has_text (xml_children creds) = true ->
    xmlNodeListGetString text = Some content ->
    iso8601_stamp content = true ->
    sscanf_expiration content = Some stamp ->
    stamp_in_range stamp ->
    (utc_offset * 1000 < expiration_unix_ms stamp)%Z ->
    exists rk' credential errstr' request,
      rd_kafka_aws_msk_iam_credential_refresh0 env rk "" 512
      = Some (RD_KAFKA_RESP_ERR_NO_ERROR, rk', credential, errstr', request)
      /\ Credential.md_lifetime_ms credential
         = (expiration_unix_ms stamp - utc_offset * 1000)%Z
      /\ (Credential.md_lifetime_ms credential = expiration_unix_ms stamp
          <-> utc_offset = 0%Z).
Proof.
  intros env rk utc_offset creds before after text content stamp Hconf
         Hrange Hlibc Hoff Hcreds Hkids Hafter Hfields Htext _ Hscan Hstamp
         Hpositive.
  destruct (refresh0_expiry_parsed_or_fallback env rk Hconf Hrange)
    as (_ & Hvalue & _ & Hdefined & _).
  destruct Hdefined as (ret & rk' & credential & errstr' & request & Hret
                        & Hok).
  { destruct (renv_reply env) as [e|document]; [discriminate Hcreds|].
    exists creds. split; assumption. }
  assert (Hcode : ret = RD_KAFKA_RESP_ERR_NO_ERROR).
  { apply Hok. destruct (renv_reply env) as [e|document];
      [discriminate Hcreds | now exists document]. }
  subst ret.
  assert (Hexpiry : Credential.md_lifetime_ms credential
                    = (expiration_unix_ms stamp - utc_offset * 1000)%Z).
  { rewrite (Hvalue _ _ _ _ _ Hret), Hlibc.
    unfold sts_expiration. rewrite Hcreds, Hkids, last_expiration_app.
    unfold last_expiration at 1. cbn [fold_left].
    rewrite (expiration_ms_on_host _ _ _ _ Htext Hscan Hstamp Hoff Hpositive).
    fold (last_expiration (host_libc utc_offset) after
            (Some (expiration_unix_ms stamp - utc_offset * 1000)%Z)).
    now rewrite (last_expiration_no_child _ _ Hafter). }
  exists rk', credential, errstr', request.
  split; [exact Hret|]. split; [exact Hexpiry|].
  rewrite Hexpiry. lia.
Qed.

Lemma sts_expiry_two_hours_east_witness :
  exists rk' credential errstr' request,
    rd_kafka_aws_msk_iam_credential_refresh0 (example_expiring_env 7200)
      example_rk "" 512
    = Some (RD_KAFKA_RESP_ERR_NO_ERROR, rk', credential, errstr', request)
    /\ Credential.md_lifetime_ms credential = 1631294534000%Z
    /\ expiration_unix_ms (mk_tm 2021 9 10 19 22 14) = 1631301734000%Z.
Proof.
  destruct (sts_expiry_reads_utc_stamp_as_local_time
              (example_expiring_env 7200) example_rk 7200
              (XmlElement "Credentials"
                 [ XmlElement "AccessKeyId" [ XmlText "ASIAEXAMPLE" ];
                   XmlElement "SecretAccessKey" [ XmlText "SECRETEXAMPLE" ];
                   XmlElement "SessionToken" [ XmlText "TOKENEXAMPLE" ];
                   XmlElement "Expiration"
                     [ XmlText "2021-09-10T19:22:14Z" ] ])
              [ XmlElement "AccessKeyId" [ XmlText "ASIAEXAMPLE" ];
                XmlElement "SecretAccessKey" [ XmlText "SECRETEXAMPLE" ];
                XmlElement "SessionToken" [ XmlText "TOKENEXAMPLE" ] ]
              [] [ XmlText "2021-09-10T19:22:14Z" ] "2021-09-10T19:22:14Z"
              (mk_tm 2021 9 10 19 22 14))
    as (rk' & credential & errstr' & request & Hret & Hexpiry & _);
    try reflexivity;
    try (unfold fallback_in_range, stamp_in_range; cbn; lia).
  exists rk', credential, errstr', request.
  split; [exact Hret|]. split; [rewrite Hexpiry|]; reflexivity.
Defined.

(** The failing refresh end to end.  STS answers a request made at
    2021-09-10T19:07:14Z with credentials that expire at 19:22:14Z.  On a
    host two hours ahead of UTC the expiry is taken for 17:22:14Z, the
    installer refuses the credentials as expired, and the failure is
    recorded; on a host on UTC the same answer is installed with 899 seconds
    left; on a host five hours behind UTC it is installed as if 18899
    seconds were left. *)
Example sts_expiry_depends_on_the_host_zone :
  rd_kafka_aws_msk_iam_credential_refresh (example_expiring_env 7200)
    example_rk
  = Some (rd_kafka_aws_msk_iam_set_credential_failure
            (emit (emit example_rk Ev_rwlock_wrlock) Ev_rwlock_wrunlock)
            (Some "Must supply an unexpired token: now=1631300835000ms, exp=1631294534000ms"))
  /\ option_map rk_sasl_handle
       (rd_kafka_aws_msk_iam_credential_refresh (example_expiring_env 0)
          example_rk)
     = Some (Some (Handle.mk (Some "ASIAEXAMPLE") (Some "SECRETEXAMPLE")
                     (Some "us-east-1") (Some "TOKENEXAMPLE") None
                     (rd_kafka_timer_start 719200000)))
  /\ option_map rk_sasl_handle
       (rd_kafka_aws_msk_iam_credential_refresh
          (example_expiring_env (- 18000)) example_rk)
     = Some (Some (Handle.mk (Some "ASIAEXAMPLE") (Some "SECRETEXAMPLE")
                     (Some "us-east-1") (Some "TOKENEXAMPLE") None
                     (rd_kafka_timer_start 15119200000))).
Proof. vm_compute. repeat split. Qed.

(** The calendar arithmetic on known instants, and [sscanf] on stamps with
    and without a fraction of a second. *)
Example timegm_known_instants :
  map timegm
    [ mk_tm 70 0 1 0 0 0; mk_tm 100 1 29 0 0 0; mk_tm 100 2 1 0 0 0;
      mk_tm 121 8 10 19 22 14; mk_tm 124 1 29 23 59 59; mk_tm 200 2 1 0 0 0 ]
  = [ 0; 951782400; 951868800; 1631301734; 1709251199; 4107542400 ]%Z.
Proof. reflexivity. Qed.

Example sscanf_expiration_stamps :
  sscanf_expiration "2021-09-10T19:22:14Z" = Some (mk_tm 2021 9 10 19 22 14)
  /\ sscanf_expiration "2021-09-10T19:22:14.250Z"
     = Some (mk_tm 2021 9 10 19 22 14)
  /\ sscanf_expiration "2021-09-10 19:22:14Z" = None
  /\ sscanf_expiration "soon" = None
  /\ map iso8601_stamp
       [ "2021-09-10T19:22:14Z"; "2021-09-10T19:22:14.250Z";
         "2021-09-10T19:22:14"; "2021-09-10T19:22:14.2500Z";
         "2021-09-10T19:22:1e1Z" ]
     = [ true; true; false; false; false ].
Proof. repeat split. Qed.


(** A refresh whose answer has no [Expiration]: the credentials of the
    answer are installed, and the timer is set from the fallback expiry
    (899 s remain at the installer's clock, eight tenths are 719.2 s). *)
Example refresh_installs_fallback_expiry :
  match rd_kafka_aws_msk_iam_credential_refresh example_refresh_env
          example_rk with
  | Some rk' =>
      rk_sasl_handle rk'
      = Some (Handle.mk (Some "ASIAEXAMPLE") (Some "SECRETEXAMPLE")
                (Some "us-east-1") (Some "TOKENEXAMPLE") None
                (rd_kafka_timer_start 719200000))
  | None => False
  end.
Proof. vm_compute. reflexivity. Qed.

(* ------------------------------------------------------------------ *)
(** * Further properties of the code *)

(** ** URI encoding *)

Lemma all_chars_append (p : ascii -> bool) (a b : string) :
  all_chars p (a ++ b) = all_chars p a && all_chars p b.
Proof.
  unfold all_chars. rewrite list_ascii_of_string_append. apply forallb_app.
Qed.

Lemma count_char_append (c : ascii) (a b : string) :
  count_char c (a ++ b) = (count_char c a + count_char c b)%nat.
Proof.
  induction a as [|x a IH]; [reflexivity|].
  cbn [append count_char]. rewrite IH. lia.
Qed.

Lemma escape_char_alphabet (c : ascii) :
  all_chars unreserved_or_percent (escape_char c) = true.
Proof. ascii_cases c; vm_compute; reflexivity. Qed.

Lemma all_chars_count_zero (p : ascii -> bool) (c : ascii) (s : string) :
  p c = false -> all_chars p s = true -> count_char c s = 0%nat.
Proof.
  intros Hc. induction s as [|x s IH]; [reflexivity|].
  unfold all_chars. cbn [list_ascii_of_string forallb count_char].
  intros H. apply andb_prop in H as [Hx Hs].
  destruct (Ascii.eqb_spec x c) as [->|_]; [congruence|].
  now rewrite (IH Hs).
Qed.

Lemma uri_encode_output_alphabet_aux (s : string) :
  all_chars unreserved_or_percent (rd_kafka_aws_uri_encode s) = true.
Proof.
  rewrite uri_encode_is_escape.
  induction s as [|c s IH]; [reflexivity|].
  cbn [curl_easy_escape].
  now rewrite all_chars_append, escape_char_alphabet, IH.
Qed.

(** X1. Whatever the input, the output of [rd_kafka_aws_uri_encode] consists
    of unreserved characters and [%] only; in particular it never contains
    [&], [=], [/], [+], [:], a space, a double quote or a newline. *)
Theorem uri_encode_output_alphabet :
  forall s : string,
    all_chars unreserved_or_percent (rd_kafka_aws_uri_encode s) = true
    /\ (forall c : ascii,
           In c (list_ascii_of_string ("&=/+: " ++ DQ ++ LF)) ->
           count_char c (rd_kafka_aws_uri_encode s) = 0%nat).
Proof.
  intros s.
  pose proof (uri_encode_output_alphabet_aux s) as Hall.
  split; [exact Hall|].
  intros c Hc. apply (all_chars_count_zero unreserved_or_percent c _); [|exact Hall].
  cbn in Hc.
  repeat (destruct Hc as [<-|Hc]; [reflexivity|]). contradiction.
Qed.

Lemma uri_decode_escape_char (c : ascii) (t : string) :
  uri_decode (escape_char c ++ t) = String c (uri_decode t).
Proof. ascii_cases c; reflexivity. Qed.

Lemma uri_decode_encode (s : string) :
  uri_decode (rd_kafka_aws_uri_encode s) = s.
Proof.
  rewrite uri_encode_is_escape.
  induction s as [|c s IH]; [reflexivity|].
  cbn [curl_easy_escape]. now rewrite uri_decode_escape_char, IH.
Qed.

(** X2. Percent-decoding what [rd_kafka_aws_uri_encode] returns gives the
    input back, so two different inputs never have the same encoding. *)
Theorem uri_encode_round_trip_injective :
  (forall s : string, uri_decode (rd_kafka_aws_uri_encode s) = s)
  /\ (forall a b : string,
         rd_kafka_aws_uri_encode a = rd_kafka_aws_uri_encode b <-> a = b).
Proof.
  split; [exact uri_decode_encode|].
  intros a b. split; [|now intros ->].
  intros H. rewrite <- (uri_decode_encode a), <- (uri_decode_encode b).
  now rewrite H.
Qed.

(** X3. The encoding is longer than the input by exactly two characters per
    character outside the unreserved set; it is the input itself exactly
    when no such character occurs. *)
Theorem uri_encode_length :
  forall s : string,
    String.length (rd_kafka_aws_uri_encode s)
    = (String.length s + 2 * count_escaped s)%nat
    /\ (rd_kafka_aws_uri_encode s = s <-> count_escaped s = 0%nat).
Proof.
  intros s.
  assert (Hlen : String.length (rd_kafka_aws_uri_encode s)
                 = (String.length s + 2 * count_escaped s)%nat).
  { rewrite uri_encode_is_escape.
    induction s as [|c s IH]; [reflexivity|].
    cbn [curl_easy_escape count_escaped String.length].
    rewrite length_append, IH. unfold escape_char, percent_escape.
    destruct (is_unreserved c); cbn [String.length]; lia. }
  split; [exact Hlen|]. split.
  - intros H. rewrite H in Hlen. lia.
  - clear Hlen. rewrite uri_encode_is_escape.
    induction s as [|c s IH]; [reflexivity|].
    cbn [curl_easy_escape count_escaped]. unfold escape_char.
    destruct (is_unreserved c); [|intros H; cbn in H; discriminate H].
    intros H. cbn [append]. rewrite IH by exact H. reflexivity.
Qed.

(** ** The signed query string cannot be restructured by its inputs *)

Lemma count_delimiter_uri_encode (c : ascii) (s : string) :
  unreserved_or_percent c = false ->
  count_char c (rd_kafka_aws_uri_encode s) = 0%nat.
Proof.
  intros Hc. apply (all_chars_count_zero unreserved_or_percent); [exact Hc|].
  apply uri_encode_output_alphabet_aux.
Qed.

(** X4. Whatever the action, access key id, region, date, time, service and
    session token contain, the SASL canonical query string has exactly five
    [&] and six [=] without a token, six and seven with one: no input can
    add a pair to the signed query string or merge two. *)
Theorem sasl_querystring_separator_count :
  forall (action key region ymd hms service : string)
         (token : option string),
    let q :=
      rd_kafka_aws_build_sasl_canonical_querystring action key region ymd
        hms service token in
    let extra := match token with Some _ => 1%nat | None => 0%nat end in
    count_char "&"%char q = (5 + extra)%nat
    /\ count_char "="%char q = (6 + extra)%nat.
Proof.
  intros action key region ymd hms service token q extra. subst q extra.
  rewrite sasl_canonical_querystring_pairs.
  unfold render_query, spec_sasl_query_pairs.
  destruct token as [t|];
    cbn [List.app map String.concat fst snd];
    rewrite !count_char_append;
    rewrite !count_delimiter_uri_encode by reflexivity;
    split; reflexivity.
Qed.

(** ** Hexadecimal rendering *)

Lemma lower_digit_value (h : Z) :
  (0 <= h < 16)%Z -> lower_hex_value (digit_of hex_lower h) = Some h.
Proof.
  intros H.
  assert (E : (h = 0 \/ h = 1 \/ h = 2 \/ h = 3 \/ h = 4 \/ h = 5 \/ h = 6
               \/ h = 7 \/ h = 8 \/ h = 9 \/ h = 10 \/ h = 11 \/ h = 12
               \/ h = 13 \/ h = 14 \/ h = 15)%Z) by lia.
  repeat (destruct E as [->|E]; [reflexivity|]). subst h. reflexivity.
Qed.

Lemma unhex_sprintf_02x (b : Z) (r : string) :
  (0 <= b < 256)%Z ->
  unhex (sprintf_02x b ++ r)
  = match unhex r with
    | Some v => Some (b :: v)
    | None => None
    end.
Proof.
  intros Hb. unfold sprintf_02x. cbn [append unhex].
  rewrite !lower_digit_value.
  - destruct (unhex r); [|reflexivity]. f_equal. f_equal.
    pose proof (Z.div_mod b 16 ltac:(lia)). lia.
  - apply Z.mod_pos_bound. lia.
  - split; [apply Z.div_pos; lia | apply Z.div_lt_upper_bound; lia].
Qed.

(** X5. The hexadecimal rendering used for the payload hash and for the
    signature loses nothing: reading the digits back two by two gives the
    bytes that were rendered, so different byte buffers have different
    renderings. *)
Theorem hex_of_bytes_round_trip :
  forall v : bytes,
    all_bytes v ->
    unhex (hex_of_bytes v) = Some v
    /\ (forall w : bytes,
           all_bytes w -> hex_of_bytes v = hex_of_bytes w -> v = w).
Proof.
  assert (Hrt : forall v, all_bytes v -> unhex (hex_of_bytes v) = Some v).
  { induction v as [|b v IH]; intros Hv; [reflexivity|].
    inversion Hv as [|? ? Hb Hv']; subst.
    cbn [hex_of_bytes]. rewrite (unhex_sprintf_02x b _ Hb), (IH Hv').
    reflexivity. }
  intros v Hv. split; [exact (Hrt v Hv)|].
  intros w Hw Heq.
  pose proof (Hrt v Hv) as H1. pose proof (Hrt w Hw) as H2.
  rewrite Heq in H1. congruence.
Qed.

Lemma hex_of_bytes_round_trip_witness :
  unhex (hex_of_bytes [0; 171; 255]%Z) = Some [0; 171; 255]%Z.
Proof.
  apply (hex_of_bytes_round_trip [0; 171; 255]%Z).
  repeat constructor; lia.
Defined.

(** ** Receiving the STS response *)

Lemma grow_buflen_spec (fuel : nat) :
  forall buflen need : nat,
    (need <= buflen + fuel * CHUNK_SIZE)%nat ->
    let r := grow_buflen fuel buflen need in
    (need <= r)%nat
    /\ (exists k, r = buflen + k * CHUNK_SIZE)%nat
    /\ (need <= buflen -> r = buflen)%nat
    /\ (buflen < need -> r < need + CHUNK_SIZE)%nat.
Proof.
  induction fuel as [|fuel IH]; intros buflen need Hfuel; cbn [grow_buflen].
  - cbv zeta. split; [lia|]. split; [exists 0%nat; lia|]. split; lia.
  - cbv zeta. destruct (Nat.ltb_spec buflen need) as [Hlt|Hge].
    + destruct (IH (buflen + CHUNK_SIZE)%nat need) as (H1 & (k & H2) & H3 & H4);
        [lia|].
      split; [exact H1|]. split; [exists (S k); lia|]. split; [lia|].
      intros _.
      destruct (Nat.le_gt_cases need (buflen + CHUNK_SIZE)) as [Hfit|Hmore].
      * rewrite (H3 Hfit). lia.
      * apply H4. lia.
    + split; [lia|]. split; [exists 0%nat; lia|]. split; lia.
Qed.

(** X6. One call of the curl write callback with a chunk of
    [size * nmemb] bytes returns that number, appends exactly those bytes
    to what was received before, and leaves an allocation that grew by a
    whole number of 2048-byte chunks, is strictly larger than the data (room
    for the terminating NUL), is untouched when the chunk already fits and
    never overshoots by a whole chunk. *)
Theorem curl_write_callback_appends :
  forall (ptr : bytes) (size nmemb : nat) (req : curl_in_mem_buf),
    (size * nmemb <= List.length ptr)%nat ->
    len req = List.length (buffer req) ->
    let realsize := (size * nmemb)%nat in
    let res := rd_kafka_aws_curl_write_callback ptr size nmemb req in
    fst res = realsize
    /\ buffer (snd res) = (buffer req ++ firstn realsize ptr)%list
    /\ len (snd res) = List.length (buffer (snd res))
    /\ len (snd res) = (len req + realsize)%nat
    /\ (len (snd res) < buflen (snd res))%nat
    /\ (exists k, buflen (snd res) = buflen req + k * CHUNK_SIZE)%nat
    /\ (len req + realsize < buflen req -> buflen (snd res) = buflen req)%nat
    /\ (buflen req <= len req + realsize ->
        buflen (snd res) <= len req + realsize + CHUNK_SIZE)%nat.
Proof.
  intros ptr size nmemb req Hptr Hlen realsize res. subst res.
  unfold rd_kafka_aws_curl_write_callback. fold realsize.
  cbn [fst snd buffer len buflen].
  destruct (grow_buflen_spec (len req + realsize + 1) (buflen req)
              (len req + realsize + 1)) as (H1 & H2 & H3 & H4).
  { unfold CHUNK_SIZE. lia. }
  assert (Hkeep : firstn (len req) (buffer req) = buffer req)
    by (rewrite Hlen; apply firstn_all).
  assert (Hchunk : List.length (firstn realsize ptr) = realsize)
    by (apply firstn_length_le; exact Hptr).
  rewrite Hkeep.
  split; [reflexivity|]. split; [reflexivity|].
  split; [rewrite length_app, Hchunk; lia|].
  split; [reflexivity|]. split; [lia|]. split; [exact H2|].
  split; [intros Hfit; apply H3; lia | intros Hfull].
  assert (buflen req < len req + realsize + 1)%nat by lia.
  specialize (H4 H). lia.
Qed.

Lemma curl_write_callback_witness :
  let res :=
    rd_kafka_aws_curl_write_callback [60; 63; 120]%Z 1 3 initial_mem_buf in
  fst res = 3%nat
  /\ buffer (snd res) = [60; 63; 120]%Z
  /\ buflen (snd res) = 2048%nat.
Proof.
  destruct (curl_write_callback_appends [60; 63; 120]%Z 1 3 initial_mem_buf)
    as (H1 & H2 & _ & _ & _ & _ & H3 & _);
    [cbn [List.length]; lia | reflexivity |].
  cbv zeta. split; [exact H1|]. split; [exact H2|].
  apply H3. unfold initial_mem_buf, CHUNK_SIZE. cbn [len buflen]. lia.
Defined.

Lemma curl_write_callback_step (chunk : bytes) (req : curl_in_mem_buf) :
  len req = List.length (buffer req) ->
  let req' :=
    snd (rd_kafka_aws_curl_write_callback chunk 1 (List.length chunk) req) in
  buffer req' = (buffer req ++ chunk)%list
  /\ len req' = List.length (buffer req')
  /\ (len req' < buflen req')%nat
  /\ (exists k, buflen req' = buflen req + k * CHUNK_SIZE)%nat.
Proof.
  intros Hlen. unfold rd_kafka_aws_curl_write_callback.
  cbn [snd buffer len buflen].
  replace (1 * List.length chunk)%nat with (List.length chunk) by lia.
  destruct (grow_buflen_spec (len req + List.length chunk + 1) (buflen req)
              (len req + List.length chunk + 1)) as (H1 & H2 & _).
  { unfold CHUNK_SIZE. lia. }
  rewrite firstn_all, Hlen, firstn_all.
  split; [reflexivity|]. split; [rewrite length_app; reflexivity|].
  rewrite Hlen in H1. split; [lia|]. rewrite Hlen in H2. exact H2.
Qed.

Lemma receive_chunks_invariant (chunks : list bytes) :
  forall req : curl_in_mem_buf,
    len req = List.length (buffer req) ->
    (len req < buflen req)%nat ->
    let req' := receive_chunks chunks req in
    buffer req' = (buffer req ++ List.concat chunks)%list
    /\ len req' = List.length (buffer req')
    /\ (len req' < buflen req')%nat
    /\ (exists k, buflen req' = buflen req + k * CHUNK_SIZE)%nat.
Proof.
  induction chunks as [|chunk chunks IH]; intros req Hlen Hcap.
  - cbn. rewrite app_nil_r. repeat split; try assumption.
    exists 0%nat. lia.
  - cbn [receive_chunks fold_left List.concat].
    destruct (curl_write_callback_step chunk req Hlen)
      as (Hb & Hl & Hc & (k & Hk)).
    set (req1 := snd (rd_kafka_aws_curl_write_callback chunk 1
                        (List.length chunk) req)) in *.
    destruct (IH req1 Hl Hc) as (Hb' & Hl' & Hc' & (k' & Hk')).
    fold (receive_chunks chunks req1).
    repeat split; try assumption.
    + rewrite Hb', Hb, <- app_assoc. reflexivity.
    + exists (k + k')%nat. lia.
Qed.

(** X7. However libcurl cuts the response into chunks, after the last
    callback the buffer handed to the XML parser holds the chunks in order
    and nothing else, its length field is the number of bytes received, the
    terminating NUL fits in the allocation, and the allocation is a whole
    number of 2048-byte chunks. *)
Theorem curl_response_is_concatenation_of_chunks :
  forall chunks : list bytes,
    let req := receive_chunks chunks initial_mem_buf in
    buffer req = List.concat chunks
    /\ len req = List.length (List.concat chunks)
    /\ (len req < buflen req)%nat
    /\ (exists k, buflen req = (S k) * CHUNK_SIZE)%nat.
Proof.
  intros chunks req. subst req.
  destruct (receive_chunks_invariant chunks initial_mem_buf)
    as (Hb & Hl & Hc & (k & Hk));
    [reflexivity | unfold initial_mem_buf, CHUNK_SIZE; cbn [len buflen]; lia |].
  cbn [buffer initial_mem_buf List.app] in Hb.
  split; [exact Hb|]. split; [now rewrite Hl, Hb|]. split; [exact Hc|].
  exists k. rewrite Hk. cbn [buflen initial_mem_buf]. lia.
Qed.

(** ** Configuration and initialisation *)

(** X8. [rd_kafka_sasl_aws_msk_iam_conf_validate] returns 0, leaving the
    error buffer alone, exactly when access key id, secret access key and
    region are set and, with STS enabled, role ARN and session name too;
    otherwise it returns -1.  A configuration it accepts has every string
    the initializer and the STS refresher copy without a NULL check: the
    initializer then returns, and with STS enabled the strings of the STS
    request are all set. *)
Theorem conf_validate_guards_init_and_refresh :
  forall (rk : rd_kafka_t) (errstr : string) (errstr_size : nat),
    let res := rd_kafka_sasl_aws_msk_iam_conf_validate rk errstr errstr_size in
    (fst res = 0%Z \/ fst res = (-1)%Z)
    /\ (fst res = 0%Z <-> conf_valid (rk_conf rk) = true)
    /\ (fst res = 0%Z -> snd res = errstr)
    /\ (fst res = 0%Z ->
        (exists out, rd_kafka_sasl_aws_msk_iam_init rk errstr errstr_size
                     = Some out)
        /\ (Conf.enable_use_sts (rk_conf rk) = true ->
            sts_conf_complete (rk_conf rk) = true)).
Proof.
  intros rk errstr errstr_size res. subst res.
  unfold rd_kafka_sasl_aws_msk_iam_conf_validate, conf_valid,
    sts_conf_complete, rd_kafka_sasl_aws_msk_iam_init, configured_handle.
  cbn [set_handle rk_conf rk_sasl_handle].
  destruct (Conf.aws_access_key_id (rk_conf rk)) as [k|];
    destruct (Conf.aws_secret_access_key (rk_conf rk)) as [s|];
    destruct (Conf.aws_region (rk_conf rk)) as [g|];
    destruct (Conf.enable_use_sts (rk_conf rk));
    destruct (Conf.role_arn (rk_conf rk)) as [a|];
    destruct (Conf.role_session_name (rk_conf rk)) as [n|];
    destruct (Conf.provider (rk_conf rk));
    cbn [fst snd andb orb negb];
    (split; [auto|]); (split; [split; (reflexivity || discriminate)|]);
    (split; [try reflexivity; discriminate|]);
    try discriminate; intros _;
    (split; [|try reflexivity; discriminate]);
    try (eexists; reflexivity);
    match goal with
    | |- context [if ?b then _ else _] => destruct b; eexists; reflexivity
    end.
Qed.

Lemma init_value (rk : rd_kafka_t) (key secret region errstr : string)
    (errstr_size : nat) :
  Conf.provider (rk_conf rk) = rd_kafka_sasl_aws_msk_iam_provider ->
  Conf.aws_access_key_id (rk_conf rk) = Some key ->
  Conf.aws_secret_access_key (rk_conf rk) = Some secret ->
  Conf.aws_region (rk_conf rk) = Some region ->
  let period :=
    uint64 (uint64 (uint64 (Conf.duration_sec (rk_conf rk)) * 800) * 1000) in
  let armed :=
    Conf.enable_use_sts (rk_conf rk) && (0 <? Conf.duration_sec (rk_conf rk))%Z in
  rd_kafka_sasl_aws_msk_iam_init rk errstr errstr_size
  = Some (RD_KAFKA_RESP_ERR_NO_ERROR,
          mk_rk (rk_conf rk)
            (Some (Handle.mk (Some key) (Some secret) (Some region) None None
                     (if armed then mk_timer true period 0 else timer_zero)))
            (rk_events rk
             ++ (if armed
                 then [ Ev_rwlock_wrlock; Ev_timer_start period;
                        Ev_timer_override_once 0; Ev_rwlock_wrunlock ]
                 else [ Ev_rwlock_wrlock; Ev_rwlock_wrunlock ]))%list,
          errstr).
Proof.
  intros Hp Hk Hs Hg period armed. subst period armed.
  unfold rd_kafka_sasl_aws_msk_iam_init, configured_handle.
  cbn [set_handle rk_conf rk_sasl_handle]. rewrite Hp, Hk, Hs, Hg.
  destruct (Conf.enable_use_sts (rk_conf rk) && _);
    unfold emit, set_handle, rd_strdup, rd_kafka_timer_override_once,
      rd_kafka_timer_start;
    cbn [rk_conf rk_sasl_handle rk_events Handle.calloc
         Handle.aws_access_key_id Handle.aws_secret_access_key
         Handle.aws_region Handle.aws_security_token Handle.errstr
         Handle.credential_refresh_tmr rtmr_started rtmr_interval];
    rewrite <- ?app_assoc; reflexivity.
Qed.

(** X9. On a client whose provider is AWS_MSK_IAM and whose three
    credential strings are configured, the initializer stores them (no
    session token, no last error).  With STS enabled and a positive
    [aws.duration.sec] it arms the refresh timer with a period of 0.8 times
    that duration and overrides the first fire to be immediate; otherwise
    the timer stays unarmed, so static credentials are never refreshed. *)
Theorem init_stores_conf_and_arms_timer :
  forall (rk : rd_kafka_t) (key secret region errstr : string)
         (errstr_size : nat),
    Conf.provider (rk_conf rk) = rd_kafka_sasl_aws_msk_iam_provider ->
    Conf.aws_access_key_id (rk_conf rk) = Some key ->
    Conf.aws_secret_access_key (rk_conf rk) = Some secret ->
    Conf.aws_region (rk_conf rk) = Some region ->
    (Conf.duration_sec (rk_conf rk) < 23058430092137)%Z ->
    exists rk' handle,
      rd_kafka_sasl_aws_msk_iam_init rk errstr errstr_size
      = Some (RD_KAFKA_RESP_ERR_NO_ERROR, rk', errstr)
      /\ configured_handle rk' = Some handle
      /\ stored_credentials handle
         = (Some key, Some secret, Some region, None)
      /\ Handle.errstr handle = None
      /\ (Conf.enable_use_sts (rk_conf rk) = true
          /\ (0 < Conf.duration_sec (rk_conf rk))%Z ->
          Handle.credential_refresh_tmr handle
          = mk_timer true (Conf.duration_sec (rk_conf rk) * 800 * 1000) 0
          /\ (10 * rtmr_interval (Handle.credential_refresh_tmr handle)
              = 8 * (Conf.duration_sec (rk_conf rk) * 1000000))%Z)
      /\ (Conf.enable_use_sts (rk_conf rk) = false
          \/ (Conf.duration_sec (rk_conf rk) <= 0)%Z ->
          rtmr_started (Handle.credential_refresh_tmr handle) = false
          /\ rk_events rk'
             = (rk_events rk ++ [ Ev_rwlock_wrlock; Ev_rwlock_wrunlock ])%list).
Proof.
  intros rk key secret region errstr errstr_size Hp Hk Hs Hg Hd.
  rewrite (init_value rk key secret region errstr errstr_size Hp Hk Hs Hg).
  do 2 eexists. split; [reflexivity|].
  unfold configured_handle. cbn [rk_conf rk_sasl_handle]. rewrite Hp.
  split; [reflexivity|]. split; [reflexivity|]. split; [reflexivity|].
  cbn [Handle.credential_refresh_tmr rk_events].
  split.
  - intros [Hsts Hpos]. rewrite Hsts.
    assert (Hlt : (0 <? Conf.duration_sec (rk_conf rk))%Z = true)
      by (apply Z.ltb_lt; exact Hpos).
    rewrite Hlt. cbn [andb].
    rewrite (uint64_id (Conf.duration_sec (rk_conf rk))) by lia.
    rewrite (uint64_id (Conf.duration_sec (rk_conf rk) * 800)) by lia.
    rewrite (uint64_id (Conf.duration_sec (rk_conf rk) * 800 * 1000)) by lia.
    split; [reflexivity|]. cbn [rtmr_interval]. lia.
  - intros [Hsts | Hneg].
    + rewrite Hsts. cbn [andb]. split; reflexivity.
    + assert (Hlt : (0 <? Conf.duration_sec (rk_conf rk))%Z = false)
        by (apply Z.ltb_ge; exact Hneg).
      rewrite Hlt, andb_false_r. split; reflexivity.
Qed.

Lemma init_witness :
  exists rk' handle,
    rd_kafka_sasl_aws_msk_iam_init (mk_rk example_conf None []) "" 512
    = Some (RD_KAFKA_RESP_ERR_NO_ERROR, rk', "")
    /\ configured_handle rk' = Some handle
    /\ Handle.credential_refresh_tmr handle = mk_timer true 720000000 0.
Proof.
  destruct (init_stores_conf_and_arms_timer (mk_rk example_conf None [])
              "TESTKEY" "TESTSECRET" "us-east-1" "" 512)
    as (rk' & handle & Hinit & Hconf & _ & _ & Harmed & _);
    try reflexivity.
  exists rk', handle. split; [exact Hinit|]. split; [exact Hconf|].
  apply Harmed. split; reflexivity.
Defined.

(** ** From the store to a connection *)

Lemma client_new_value
    (env : fsm_env_t) (rk : rd_kafka_t) (handle : Handle.t)
    (rktrans : rd_kafka_transport_t) (key secret region : string)
    (hostname errstr : string) (errstr_size : nat) :
  rk_sasl_handle rk = Some handle ->
  Handle.aws_access_key_id handle = Some key ->
  Handle.aws_secret_access_key handle = Some secret ->
  Handle.aws_region handle = Some region ->
  let rk' := emit (emit rk Ev_rwlock_rdlock) Ev_rwlock_rdunlock in
  let token := Handle.aws_security_token handle in
  let message := client_first_message env hostname key secret region token in
  let started :=
    mk_transport
      (Some (State.mk RD_KAFKA_SASL_AWS_MSK_IAM_RECEIVE_SERVER_RESPONSE
               (Some EVP_get_digestbyname_SHA256) (Some hostname) (Some key)
               (Some secret) (Some region) token))
      (rktrans_sent rktrans ++ [ message ])%list
      (rktrans_auth_done rktrans) in
  rd_kafka_sasl_aws_msk_iam_client_new env rk rktrans hostname errstr
    errstr_size
  = if Conf.enable_use_sts (rk_conf rk)
       && match token with None => true | Some _ => false end
    then
      Some ((-1)%Z, rk',
            mk_transport (Some State.calloc) (rktrans_sent rktrans)
              (rktrans_auth_done rktrans),
            rd_snprintf_into errstr errstr_size
              ("AWS_MSK_IAM_STS cannot authenticate; last error: "
               ++ last_error_text handle))
    else
      Some match env_sasl_send env message with
           | None => (0%Z, rk', started, errstr)
           | Some e =>
               ((-1)%Z, rk', started, rd_snprintf_into errstr errstr_size e)
           end.
Proof.
  intros Hh Hk Hs Hg rk' token message started.
  subst rk' token message started.
  unfold rd_kafka_sasl_aws_msk_iam_client_new.
  rewrite Hh, Hk, Hs, Hg. cbn [rk_conf emit].
  destruct (Conf.enable_use_sts (rk_conf rk)
            && match Handle.aws_security_token handle with
               | None => true
               | Some _ => false
               end); [reflexivity|].
  unfold rd_kafka_sasl_aws_msk_iam_fsm.
  cbn [rktrans_sasl_state State.state State.calloc State.set_state
       State.md State.hostname State.aws_access_key_id
       State.aws_secret_access_key State.aws_region
       State.aws_security_token rktrans_sent rktrans_auth_done].
  unfold rd_strdup.
  replace (match Handle.aws_security_token handle with
           | Some token => Some token
           | None => None
           end) with (Handle.aws_security_token handle)
    by (destruct (Handle.aws_security_token handle); reflexivity).
  rewrite build_client_first_message_value.
  unfold rd_kafka_sasl_send.
  cbn [ptr rktrans_sasl_state rktrans_sent rktrans_auth_done].
  destruct (env_sasl_send env _); reflexivity.
Qed.

Lemma set_credential_ok_handle
    (rk rk1 : rd_kafka_t) (key secret region : string)
    (token : option string) (md uclock : Z) (errstr errstr1 : string)
    (errstr_size : nat) :
  rd_kafka_aws_msk_iam_set_credential rk (Some key) (Some secret)
    (Some region) token md uclock errstr errstr_size
  = Some (RD_KAFKA_RESP_ERR_NO_ERROR, rk1, errstr1) ->
  exists interval,
    rk_sasl_handle rk1
    = Some (Handle.mk (Some key) (Some secret) (Some region) token None
              (rd_kafka_timer_start interval))
    /\ rk_conf rk1 = rk_conf rk
    /\ configured_handle rk <> None
    /\ errstr1 = errstr
    /\ rk_events rk1
       = (rk_events rk
          ++ [ Ev_rwlock_wrlock; Ev_timer_start interval; Ev_rwlock_wrunlock;
               Ev_all_brokers_wakeup "AWS_MSK_IAM credential refresh" ])%list.
Proof.
  unfold rd_kafka_aws_msk_iam_set_credential.
  destruct (configured_handle rk) as [handle|]; [|discriminate].
  destruct (int64 (md * 1000) <=? uclock)%Z; [discriminate|].
  intros [= <- <-]. eexists.
  unfold emit, set_handle, rd_strdup.
  cbn [rk_conf rk_sasl_handle rk_events]. rewrite <- !app_assoc.
  split; [destruct token; reflexivity|]. split; [reflexivity|].
  split; [discriminate|]. split; reflexivity.
Qed.

(** X10. Installing a credential and then creating an authenticator gives a
    snapshot of exactly what was installed: after an accepted
    [set_credential] with a session token, [client_new] (STS enabled or
    not) copies the installed access key id, secret, region and token
    together with the hostname, sends the first message built from them,
    and reports what the send reported. *)
Theorem install_then_snapshot_returns_installed :
  forall (env : fsm_env_t) (rk rk1 : rd_kafka_t)
         (key secret region token hostname errstr : string)
         (md_lifetime_ms uclock : Z) (errstr_size : nat)
         (rktrans : rd_kafka_transport_t),
    rd_kafka_aws_msk_iam_set_credential rk (Some key) (Some secret)
      (Some region) (Some token) md_lifetime_ms uclock errstr errstr_size
    = Some (RD_KAFKA_RESP_ERR_NO_ERROR, rk1, errstr) ->
    exists r rk2 rktrans' errstr' st,
      rd_kafka_sasl_aws_msk_iam_client_new env rk1 rktrans hostname errstr
        errstr_size
      = Some (r, rk2, rktrans', errstr')
      /\ rktrans_sasl_state rktrans' = Some st
      /\ snapshot_fields st
         = (Some hostname, Some key, Some secret, Some region, Some token)
      /\ State.state st = RD_KAFKA_SASL_AWS_MSK_IAM_RECEIVE_SERVER_RESPONSE
      /\ rktrans_sent rktrans'
         = (rktrans_sent rktrans
            ++ [ client_first_message env hostname key secret region
                   (Some token) ])%list
      /\ (r = 0%Z <->
          env_sasl_send env
            (client_first_message env hostname key secret region
               (Some token)) = None).
Proof.
  intros env rk rk1 key secret region token hostname errstr md uclock
    errstr_size rktrans Hset.
  destruct (set_credential_ok_handle _ _ _ _ _ _ _ _ _ _ _ Hset)
    as (interval & Hh & _).
  rewrite (client_new_value env rk1 _ rktrans key secret region hostname
             errstr errstr_size Hh eq_refl eq_refl eq_refl).
  cbn [Handle.aws_security_token]. rewrite andb_false_r.
  destruct (env_sasl_send env _) eqn:Hsend;
    do 5 eexists; (split; [reflexivity|]);
    (split; [reflexivity|]); (split; [reflexivity|]);
    (split; [reflexivity|]); (split; [reflexivity|]);
    split; congruence.
Qed.

Lemma install_then_snapshot_witness :
  exists r rk2 rktrans' errstr' st,
    rd_kafka_sasl_aws_msk_iam_client_new example_env
      (mk_rk example_conf
         (Some (Handle.mk (Some "K") (Some "S") (Some "eu-west-1")
                  (Some "T") None (rd_kafka_timer_start 800000)))
         [ Ev_rwlock_wrlock; Ev_timer_start 800000; Ev_rwlock_wrunlock;
           Ev_all_brokers_wakeup "AWS_MSK_IAM credential refresh" ])
      fresh_transport "broker" "" 512
    = Some (r, rk2, rktrans', errstr')
    /\ rktrans_sasl_state rktrans' = Some st
    /\ snapshot_fields st
       = (Some "broker", Some "K", Some "S", Some "eu-west-1", Some "T").
Proof.
  destruct (install_then_snapshot_returns_installed example_env example_rk
              _ "K" "S" "eu-west-1" "T" "broker" "" 2000 1000000 512
              fresh_transport eq_refl)
    as (r & rk2 & t & e & st & H1 & H2 & H3 & _).
  exists r, rk2, t, e, st. split; [exact H1|]. split; [exact H2 | exact H3].
Defined.

(** X11. Right after initialisation (provider AWS_MSK_IAM, the three
    strings configured): with STS enabled every attempt to create an
    authenticator fails with
    [AWS_MSK_IAM_STS cannot authenticate; last error: (not available)] and
    sends nothing, since no session token is stored before the first
    refresh; with STS disabled the attempt snapshots the configured
    credentials without a token and sends the first message. *)
Theorem client_new_right_after_init :
  forall (env : fsm_env_t) (rk rk' : rd_kafka_t)
         (key secret region hostname errstr : string) (errstr_size : nat)
         (rktrans : rd_kafka_transport_t),
    Conf.provider (rk_conf rk) = rd_kafka_sasl_aws_msk_iam_provider ->
    Conf.aws_access_key_id (rk_conf rk) = Some key ->
    Conf.aws_secret_access_key (rk_conf rk) = Some secret ->
    Conf.aws_region (rk_conf rk) = Some region ->
    rd_kafka_sasl_aws_msk_iam_init rk errstr errstr_size
    = Some (RD_KAFKA_RESP_ERR_NO_ERROR, rk', errstr) ->
    let result :=
      rd_kafka_sasl_aws_msk_iam_client_new env rk' rktrans hostname errstr
        errstr_size in
    (Conf.enable_use_sts (rk_conf rk) = true ->
     result
     = Some ((-1)%Z, emit (emit rk' Ev_rwlock_rdlock) Ev_rwlock_rdunlock,
             mk_transport (Some State.calloc) (rktrans_sent rktrans)
               (rktrans_auth_done rktrans),
             rd_snprintf_into errstr errstr_size
               "AWS_MSK_IAM_STS cannot authenticate; last error: (not available)"))
    /\ (Conf.enable_use_sts (rk_conf rk) = false ->
        exists r errstr' st,
          result
          = Some (r, emit (emit rk' Ev_rwlock_rdlock) Ev_rwlock_rdunlock,
                  mk_transport (Some st)
                    (rktrans_sent rktrans
                     ++ [ client_first_message env hostname key secret
                            region None ])%list
                    (rktrans_auth_done rktrans),
                  errstr')
          /\ snapshot_fields st
             = (Some hostname, Some key, Some secret, Some region, None)).
Proof.
  intros env rk rk' key secret region hostname errstr errstr_size rktrans
    Hp Hk Hs Hg Hinit result. subst result.
  rewrite (init_value rk key secret region errstr errstr_size Hp Hk Hs Hg)
    in Hinit.
  injection Hinit as <-.
  match goal with
  | |- context [rd_kafka_sasl_aws_msk_iam_client_new env ?r _ _ _ _] =>
      set (rk1 := r)
  end.
  rewrite (client_new_value env rk1 _ rktrans key secret region hostname
             errstr errstr_size eq_refl eq_refl eq_refl eq_refl).
  cbn [Handle.aws_security_token rk1 rk_conf].
  split.
  - intros Hsts. rewrite Hsts. reflexivity.
  - intros Hsts. rewrite Hsts. cbn [andb].
    destruct (env_sasl_send env _); do 3 eexists; split; reflexivity.
Qed.

Lemma client_new_right_after_init_witness :
  rd_kafka_sasl_aws_msk_iam_client_new example_env
    (mk_rk example_conf (Some example_handle)
       [ Ev_rwlock_wrlock; Ev_timer_start 720000000;
         Ev_timer_override_once 0; Ev_rwlock_wrunlock ])
    fresh_transport "hostname" "" 512
  = Some ((-1)%Z,
          emit (emit (mk_rk example_conf (Some example_handle)
                        [ Ev_rwlock_wrlock; Ev_timer_start 720000000;
                          Ev_timer_override_once 0; Ev_rwlock_wrunlock ])
                  Ev_rwlock_rdlock) Ev_rwlock_rdunlock,
          mk_transport (Some State.calloc) [] false,
          "AWS_MSK_IAM_STS cannot authenticate; last error: (not available)").
Proof.
  apply (client_new_right_after_init example_env (mk_rk example_conf None [])
           _ "TESTKEY" "TESTSECRET" "us-east-1" "hostname" "" 512
           fresh_transport eq_refl eq_refl eq_refl eq_refl eq_refl).
  reflexivity.
Defined.

(** ** Recording failures *)

Lemma configured_handle_mk (conf : Conf.sasl_t) (h : Handle.t)
    (events : list event) :
  Conf.provider conf = rd_kafka_sasl_aws_msk_iam_provider ->
  configured_handle (mk_rk conf (Some h) events) = Some h.
Proof.
  intros Hp. unfold configured_handle. cbn [rk_conf rk_sasl_handle].
  now rewrite Hp.
Qed.

Lemma configured_provider (rk : rd_kafka_t) (handle : Handle.t) :
  configured_handle rk = Some handle ->
  Conf.provider (rk_conf rk) = rd_kafka_sasl_aws_msk_iam_provider
  /\ rk_sasl_handle rk = Some handle.
Proof.
  unfold configured_handle.
  destruct (Conf.provider (rk_conf rk)); [auto | discriminate].
Qed.

Lemma set_credential_failure_shape
    (rk : rd_kafka_t) (handle : Handle.t) (errstr : option string) :
  configured_handle rk = Some handle ->
  exists last added,
    rd_kafka_aws_msk_iam_set_credential_failure rk errstr
    = mk_rk (rk_conf rk)
        (Some (Handle.mk (Handle.aws_access_key_id handle)
                 (Handle.aws_secret_access_key handle)
                 (Handle.aws_region handle)
                 (Handle.aws_security_token handle) last
                 (rd_kafka_timer_start 10000000)))
        (rk_events rk
         ++ Ev_rwlock_wrlock :: Ev_timer_start 10000000 :: added)%list.
Proof.
  intros Hconf.
  unfold rd_kafka_aws_msk_iam_set_credential_failure. rewrite Hconf.
  destruct errstr as [[|c e]|];
    cbv zeta;
    try match goal with
        | |- context [if ?b then _ else _] => destruct b
        end;
    unfold emit, set_handle;
    cbn [rk_conf rk_sasl_handle rk_events Handle.aws_access_key_id
         Handle.aws_secret_access_key Handle.aws_region
         Handle.aws_security_token Handle.errstr
         Handle.credential_refresh_tmr];
    do 2 eexists; rewrite <- !app_assoc; reflexivity.
Qed.

Lemma set_credential_failure_configured
    (rk : rd_kafka_t) (handle : Handle.t) (errstr : option string) :
  configured_handle rk = Some handle ->
  exists handle',
    configured_handle (rd_kafka_aws_msk_iam_set_credential_failure rk errstr)
    = Some handle'
    /\ rk_conf (rd_kafka_aws_msk_iam_set_credential_failure rk errstr)
       = rk_conf rk
    /\ stored_credentials handle' = stored_credentials handle
    /\ Handle.credential_refresh_tmr handle'
       = rd_kafka_timer_start 10000000
    /\ (exists added,
           rk_events (rd_kafka_aws_msk_iam_set_credential_failure rk errstr)
           = (rk_events rk
              ++ Ev_rwlock_wrlock :: Ev_timer_start 10000000 :: added)%list).
Proof.
  intros Hconf.
  destruct (configured_provider rk handle Hconf) as [Hprov _].
  destruct (set_credential_failure_shape rk handle errstr Hconf)
    as (last & added & ->).
  eexists. split; [apply configured_handle_mk; exact Hprov|].
  split; [reflexivity|]. split; [reflexivity|]. split; [reflexivity|].
  exists added. reflexivity.
Qed.

(** X12. Recording the same non-empty error twice in a row on a configured
    client reports it once: the second call emits no error event, only
    re-arms the 10-second timer, and leaves the store as the first call
    left it. *)
Theorem set_credential_failure_twice_reports_once :
  forall (rk : rd_kafka_t) (handle : Handle.t) (errstr : string),
    configured_handle rk = Some handle ->
    errstr <> "" ->
    let rk1 := rd_kafka_aws_msk_iam_set_credential_failure rk (Some errstr) in
    let rk2 := rd_kafka_aws_msk_iam_set_credential_failure rk1 (Some errstr) in
    rk_sasl_handle rk2 = rk_sasl_handle rk1
    /\ rk_conf rk2 = rk_conf rk1
    /\ rk_events rk2
       = (rk_events rk1
          ++ [ Ev_rwlock_wrlock; Ev_timer_start 10000000;
               Ev_rwlock_wrunlock ])%list.
Proof.
  intros rk handle errstr Hconf Hne rk1 rk2.
  assert (Hrk1 : rk1 = _)
    by exact (set_credential_failure_value rk handle errstr Hconf Hne).
  destruct (configured_provider rk handle Hconf) as [Hprov _].
  assert (Hconf1 : configured_handle rk1
                   = Some (Handle.mk (Handle.aws_access_key_id handle)
                             (Handle.aws_secret_access_key handle)
                             (Handle.aws_region handle)
                             (Handle.aws_security_token handle)
                             (Some errstr)
                             (rd_kafka_timer_start (10 * 1000 * 1000)))).
  { rewrite Hrk1. apply configured_handle_mk. exact Hprov. }
  subst rk2.
  rewrite (set_credential_failure_value rk1 _ errstr Hconf1 Hne).
  cbn [Handle.errstr Handle.aws_access_key_id Handle.aws_secret_access_key
       Handle.aws_region Handle.aws_security_token rk_sasl_handle rk_conf
       rk_events].
  unfold strcmp_ne. rewrite String.eqb_refl. cbn [negb].
  rewrite Hrk1 at 1. cbn [rk_sasl_handle].
  split; [reflexivity|]. split; reflexivity.
Qed.

Lemma set_credential_failure_twice_witness :
  let rk1 :=
    rd_kafka_aws_msk_iam_set_credential_failure example_rk (Some "boom") in
  let rk2 := rd_kafka_aws_msk_iam_set_credential_failure rk1 (Some "boom") in
  rk_sasl_handle rk2 = rk_sasl_handle rk1
  /\ rk_conf rk2 = rk_conf rk1
  /\ rk_events rk2
     = (rk_events rk1
        ++ [ Ev_rwlock_wrlock; Ev_timer_start 10000000;
             Ev_rwlock_wrunlock ])%list.
Proof.
  apply (set_credential_failure_twice_reports_once example_rk example_handle
           "boom"); [reflexivity | discriminate].
Defined.

(** X13. A successful install re-opens the error channel: whatever the last
    error was before, the first non-empty failure recorded after an accepted
    [set_credential] emits the authentication error event, and the installed
    credentials stay in place. *)
Theorem failure_after_install_is_reported :
  forall (rk rk1 : rd_kafka_t) (key secret region : string)
         (token : option string) (md_lifetime_ms uclock : Z)
         (errstr errstr1 failure : string) (errstr_size : nat),
    rd_kafka_aws_msk_iam_set_credential rk (Some key) (Some secret)
      (Some region) token md_lifetime_ms uclock errstr errstr_size
    = Some (RD_KAFKA_RESP_ERR_NO_ERROR, rk1, errstr1) ->
    failure <> "" ->
    let rk2 := rd_kafka_aws_msk_iam_set_credential_failure rk1 (Some failure) in
    rk_events rk2
    = (rk_events rk1
       ++ [ Ev_rwlock_wrlock; Ev_timer_start 10000000; Ev_rwlock_wrunlock;
            Ev_op_err RD_KAFKA_RESP_ERR__AUTHENTICATION
              ("Failed to acquire SASL AWS_MSK_IAM credential: " ++ failure)
          ])%list
    /\ rk_sasl_handle rk2
       = Some (Handle.mk (Some key) (Some secret) (Some region) token
                 (Some failure) (rd_kafka_timer_start 10000000)).
Proof.
  intros rk rk1 key secret region token md uclock errstr errstr1 failure
    errstr_size Hset Hne rk2.
  destruct (set_credential_ok_handle _ _ _ _ _ _ _ _ _ _ _ Hset)
    as (interval & Hh & Hc & Hconf & _).
  assert (Hconf1 : configured_handle rk1
                   = Some (Handle.mk (Some key) (Some secret) (Some region)
                             token None (rd_kafka_timer_start interval))).
  { unfold configured_handle in *. rewrite Hc.
    destruct (Conf.provider (rk_conf rk)); [exact Hh | congruence]. }
  subst rk2.
  rewrite (set_credential_failure_value rk1 _ failure Hconf1 Hne).
  cbn [Handle.errstr Handle.aws_access_key_id Handle.aws_secret_access_key
       Handle.aws_region Handle.aws_security_token rk_sasl_handle rk_conf
       rk_events].
  split; reflexivity.
Qed.

Lemma failure_after_install_witness :
  exists rk1,
    rd_kafka_aws_msk_iam_set_credential example_rk (Some "K") (Some "S")
      (Some "eu-west-1") (Some "T") 2000 1000000 "" 512
    = Some (RD_KAFKA_RESP_ERR_NO_ERROR, rk1, "")
    /\ rk_sasl_handle
         (rd_kafka_aws_msk_iam_set_credential_failure rk1 (Some "boom"))
       = Some (Handle.mk (Some "K") (Some "S") (Some "eu-west-1") (Some "T")
                 (Some "boom") (rd_kafka_timer_start 10000000)).
Proof.
  eexists. split; [reflexivity|].
  apply (failure_after_install_is_reported example_rk _ "K" "S" "eu-west-1"
           (Some "T") 2000 1000000 "" "" "boom" 512 eq_refl).
  discriminate.
Defined.

(** ** Answers of STS *)

Lemma message_fold_some (errbuf_size : nat) (kids : list xmlNode) :
  forall acc out,
    fold_left
      (fun (acc : option string) (cur : xmlNode) =>
         match acc with
         | None => None
         | Some buf =>
             if String.eqb (xml_name cur) "Message" then
               match xmlNodeListGetString (xml_children cur) with
               | None => None
               | Some content => Some (rd_strlcpy buf content errbuf_size)
               end
             else Some buf
         end) kids acc = Some out ->
    acc <> None.
Proof.
  induction kids as [|cur kids IH]; intros acc out H.
  - cbn in H. congruence.
  - cbn [fold_left] in H. destruct acc as [buf|]; [discriminate|].
    apply IH in H. congruence.
Qed.

Lemma parse_document_outcome
    (libc : libc_t) (document : option xmlNode)
    (credential credential' : Credential.t) (errbuf errbuf' : option string)
    (errbuf_size : nat) (ret : rd_kafka_resp_err_t) :
  sts_parse_document libc document credential errbuf errbuf_size
  = Some (ret, credential', errbuf') ->
  (ret = RD_KAFKA_RESP_ERR_NO_ERROR
   /\ (exists creds, sts_credentials (Curl_ok document) = Some creds)
   /\ errbuf' = errbuf
   \/ ret = RD_KAFKA_RESP_ERR_UNKNOWN
      /\ sts_credentials (Curl_ok document) = None
      /\ credential' = credential)
  /\ (errbuf = None <-> errbuf' = None).
Proof.
  unfold sts_parse_document, sts_credentials.
  destruct document as [root|];
    [|intros [= <- <- <-]; split; [right; auto | reflexivity]].
  destruct (String.eqb (xml_name root) "ErrorResponse").
  - destruct errbuf as [buf|];
      [|intros [= <- <- <-]; split; [right; auto | reflexivity]].
    destruct (xml_find "Error" (xml_children root)) as [err|];
      [|intros [= <- <- <-]; split; [right; auto | reflexivity]].
    destruct (fold_left _ (xml_children err) (Some buf)) as [out|];
      [|discriminate].
    intros [= <- <- <-]. split; [right; auto | split; discriminate].
  - destruct (xml_find "AssumeRoleResult" (xml_children root)) as [result|];
      [|intros [= <- <- <-]; split; [right; auto | reflexivity]].
    destruct (xml_find "Credentials" (xml_children result)) as [creds|];
      [|intros [= <- <- <-]; split; [right; auto | reflexivity]].
    destruct (fold_left (sts_credentials_child libc) (xml_children creds)
                (Some credential)) as [c|]; [|discriminate].
    intros [= <- <- <-]. split; [|reflexivity].
    left. split; [reflexivity|]. split; [now exists creds | reflexivity].
Qed.

Lemma send_request_succeeds_iff_credentials_element_aux
    (libc : libc_t) (reply : sts_reply_t) (credential credential' : Credential.t)
    (ymd hms host key secret region service method algorithm ch sh
       body : string) (md : EVP_MD) (errbuf errbuf' : option string)
    (errbuf_size : nat) (ret : rd_kafka_resp_err_t)
    (request : http_request_t) :
  rd_kafka_aws_send_request libc reply credential ymd hms host key secret
    region service method algorithm ch sh body md errbuf errbuf_size
  = Some (ret, credential', errbuf', request) ->
  (ret = RD_KAFKA_RESP_ERR_NO_ERROR <->
   exists creds, sts_credentials reply = Some creds)
  /\ (ret <> RD_KAFKA_RESP_ERR_NO_ERROR ->
      ret = RD_KAFKA_RESP_ERR_UNKNOWN /\ credential' = credential)
  /\ req_postfields request = body
  /\ req_method request = method.
Proof.
  unfold rd_kafka_aws_send_request.
  destruct reply as [e|document].
  - intros [= <- <- _ <-]. cbn [sts_credentials req_postfields req_method].
    split; [split; [discriminate | intros [c Hc]; discriminate Hc]|].
    split; [auto | split; reflexivity].
  - destruct (sts_parse_document libc document credential errbuf
                errbuf_size) as [[[r c] eb]|] eqn:Hparse; [|discriminate].
    intros [= <- <- _ <-]. cbn [req_postfields req_method].
    destruct (parse_document_outcome _ _ _ _ _ _ _ _ Hparse)
      as [[(-> & Hc & _) | (-> & Hc & ->)] _].
    + split; [split; auto|]. split; [congruence | split; reflexivity].
    + split; [split; [discriminate | intros [x Hx]; congruence]|].
      split; [auto | split; reflexivity].
Qed.

(** X14. When [rd_kafka_aws_send_request] returns, it reports success
    exactly when the answer is a document, not an [ErrorResponse], with a
    [Credentials] element under [AssumeRoleResult]; in every other case
    (transfer failed, no document, [ErrorResponse], element missing) the
    code is [RD_KAFKA_RESP_ERR_UNKNOWN] and the credential passed in comes
    back untouched.  After a failed transfer it always returns. *)
Theorem send_request_succeeds_iff_credentials_element :
  forall (libc : libc_t) (reply : sts_reply_t) (credential : Credential.t)
         (ymd hms host key secret region service method algorithm ch sh
            body : string) (md : EVP_MD) (errbuf : option string)
         (errbuf_size : nat),
    let result :=
      rd_kafka_aws_send_request libc reply credential ymd hms host key
        secret region service method algorithm ch sh body md errbuf
        errbuf_size in
    (forall ret credential' errbuf' request,
        result = Some (ret, credential', errbuf', request) ->
        (ret = RD_KAFKA_RESP_ERR_NO_ERROR <->
         exists creds, sts_credentials reply = Some creds)
        /\ (ret <> RD_KAFKA_RESP_ERR_NO_ERROR ->
            ret = RD_KAFKA_RESP_ERR_UNKNOWN /\ credential' = credential)
        /\ req_postfields request = body
        /\ req_method request = method)
    /\ (forall e, reply = Curl_failed e -> exists out, result = Some out).
Proof.
  intros libc reply credential ymd hms host key secret region service method
    algorithm ch sh body md errbuf errbuf_size result. subst result.
  split.
  - intros ret credential' errbuf' request Hres.
    exact (send_request_succeeds_iff_credentials_element_aux _ _ _ _ _ _ _ _
             _ _ _ _ _ _ _ _ _ _ _ _ _ _ Hres).
  - intros e ->. unfold rd_kafka_aws_send_request. eexists. reflexivity.
Qed.

Lemma substring_prefix_nonempty (n : nat) (s : string) :
  s <> "" -> String.substring 0 (S n) s <> "".
Proof. destruct s as [|c s]; [congruence | discriminate]. Qed.

(** X15. A failing [rd_kafka_aws_send_request] that was given an error
    buffer of at least two bytes never leaves it empty.  After a failed
    transfer the text is curl's error text cut to the buffer, or, when curl
    gave none, [AWS send request: unknown error]. *)
Theorem send_request_failure_has_error_text :
  forall (libc : libc_t) (reply : sts_reply_t)
         (credential credential' : Credential.t)
         (ymd hms host key secret region service method algorithm ch sh
            body : string) (md : EVP_MD) (errbuf : string)
         (errbuf' : option string) (errbuf_size : nat)
         (ret : rd_kafka_resp_err_t) (request : http_request_t),
    (2 <= errbuf_size)%nat ->
    rd_kafka_aws_send_request libc reply credential ymd hms host key secret
      region service method algorithm ch sh body md (Some errbuf) errbuf_size
    = Some (ret, credential', errbuf', request) ->
    ret <> RD_KAFKA_RESP_ERR_NO_ERROR ->
    exists text,
      errbuf' = Some text /\ text <> ""
      /\ (forall e, reply = Curl_failed e -> e <> "" ->
                    text = String.substring 0 (errbuf_size - 1) e)
      /\ (reply = Curl_failed "" ->
          text = String.substring 0 (errbuf_size - 1)
                   "AWS send request: unknown error").
Proof.
  intros libc reply credential credential' ymd hms host key secret region
    service method algorithm ch sh body md errbuf errbuf' errbuf_size ret
    request Hsize.
  destruct errbuf_size as [|[|n]]; try lia. clear Hsize.
  unfold rd_kafka_aws_send_request.
  destruct reply as [e|document].
  - unfold rd_strlcpy, rd_snprintf_into.
    replace (S (S n) - 1)%nat with (S n) by lia.
    destruct e as [|c e].
    + cbn [String.substring resp_err_eqb].
      intros [= <- <- <- <-] _. eexists. split; [reflexivity|].
      split; [discriminate|]. split; [intros e [= <-] He; congruence|].
      reflexivity.
    + cbn [String.substring].
      intros [= <- <- <- <-] _. eexists. split; [reflexivity|].
      split; [discriminate|].
      split; [intros e' [= <-] _; reflexivity | discriminate].
  - destruct (sts_parse_document libc document credential (Some errbuf)
                (S (S n))) as [[[r c] eb]|] eqn:Hparse; [|discriminate].
    destruct (parse_document_outcome _ _ _ _ _ _ _ _ Hparse) as [_ Hsome].
    destruct eb as [t|]; [|exfalso; destruct Hsome as [_ H]; now discriminate H].
    destruct t as [|x t].
    + destruct (resp_err_eqb r RD_KAFKA_RESP_ERR_NO_ERROR) eqn:Hr.
      * destruct r; try discriminate Hr. intros [= <- <- <- <-] H. congruence.
      * intros [= <- <- <- <-] _. eexists. split; [reflexivity|].
        split; [discriminate|]. split; [discriminate | discriminate].
    + intros [= <- <- <- <-] _. eexists. split; [reflexivity|].
      split; [discriminate|]. split; [discriminate | discriminate].
Qed.

Lemma send_request_failure_witness :
  exists text,
    text <> ""
    /\ text = String.substring 0 (512 - 1) "AWS send request: unknown error".
Proof.
  destruct (send_request_failure_has_error_text example_libc (Curl_failed "")
              Credential.zero _ "20210910" "190714" "sts.amazonaws.com" "K"
              "S" "us-east-1" "sts" "POST" "AWS4-HMAC-SHA256" "" "" ""
              EVP_get_digestbyname_SHA256 "" _ 512 _ _ ltac:(lia) eq_refl)
    as (text & _ & Hne & _ & Hunknown); [discriminate|].
  exists text. split; [exact Hne | exact (Hunknown eq_refl)].
Defined.

Lemma credentials_child_fields
    (libc : libc_t) (c c' : Credential.t) (cur : xmlNode) :
  sts_credentials_child libc (Some c) cur = Some c' ->
  Credential.aws_region c' = Credential.aws_region c
  /\ (String.eqb (xml_name cur) "AccessKeyId" = false ->
      Credential.aws_access_key_id c' = Credential.aws_access_key_id c)
  /\ (String.eqb (xml_name cur) "SecretAccessKey" = false ->
      Credential.aws_secret_access_key c'
      = Credential.aws_secret_access_key c)
  /\ (String.eqb (xml_name cur) "SessionToken" = false ->
      Credential.aws_security_token c' = Credential.aws_security_token c).
Proof.
  unfold sts_credentials_child.
  destruct (xmlNodeListGetString (xml_children cur)) as [content|];
    destruct (String.eqb (xml_name cur) "AccessKeyId");
    destruct (String.eqb (xml_name cur) "SecretAccessKey");
    destruct (String.eqb (xml_name cur) "SessionToken");
    destruct (String.eqb (xml_name cur) "Expiration");
    try discriminate;
    try (destruct (libc_sscanf libc content) as [scanned|];
         [match goal with
          | |- context [(0 <? ?e)%Z] => destruct (0 <? e)%Z
          end|]);
    intros [= <-]; cbn; repeat split; congruence.
Qed.

Lemma credentials_fold_fields (libc : libc_t) (kids : list xmlNode) :
  forall c c',
    fold_left (sts_credentials_child libc) kids (Some c) = Some c' ->
    Credential.aws_region c' = Credential.aws_region c
    /\ (no_child_named "AccessKeyId" kids = true ->
        Credential.aws_access_key_id c' = Credential.aws_access_key_id c)
    /\ (no_child_named "SecretAccessKey" kids = true ->
        Credential.aws_secret_access_key c'
        = Credential.aws_secret_access_key c)
    /\ (no_child_named "SessionToken" kids = true ->
        Credential.aws_security_token c' = Credential.aws_security_token c).
Proof.
  induction kids as [|cur kids IH]; intros c c' Hfold.
  - injection Hfold as <-. auto.
  - cbn [fold_left] in Hfold.
    destruct (sts_credentials_child libc (Some c) cur) as [c1|] eqn:Hchild;
      [|rewrite credentials_fold_none in Hfold; discriminate Hfold].
    destruct (IH _ _ Hfold) as (Hr & Hk & Hs & Ht).
    destruct (credentials_child_fields _ _ _ _ Hchild)
      as (Hr1 & Hk1 & Hs1 & Ht1).
    unfold no_child_named in *. cbn [forallb].
    split; [congruence|].
    repeat split; intros H; apply andb_prop in H as [Hcur Hkids];
      apply negb_true_iff in Hcur.
    + rewrite (Hk Hkids). auto.
    + rewrite (Hs Hkids). auto.
    + rewrite (Ht Hkids). auto.
Qed.

Lemma send_request_fields
    (libc : libc_t) (reply : sts_reply_t) (c c' : Credential.t)
    (ymd hms host key secret region service method algorithm ch sh
       body : string) (md : EVP_MD) (errbuf errbuf' : option string)
    (errbuf_size : nat) (ret : rd_kafka_resp_err_t)
    (request : http_request_t) :
  rd_kafka_aws_send_request libc reply c ymd hms host key secret region
    service method algorithm ch sh body md errbuf errbuf_size
  = Some (ret, c', errbuf', request) ->
  Credential.aws_region c' = Credential.aws_region c
  /\ forall creds,
       sts_credentials reply = Some creds ->
       (no_child_named "AccessKeyId" (xml_children creds) = true ->
        Credential.aws_access_key_id c' = Credential.aws_access_key_id c)
       /\ (no_child_named "SecretAccessKey" (xml_children creds) = true ->
           Credential.aws_secret_access_key c'
           = Credential.aws_secret_access_key c)
       /\ (no_child_named "SessionToken" (xml_children creds) = true ->
           Credential.aws_security_token c'
           = Credential.aws_security_token c).
Proof.
  unfold rd_kafka_aws_send_request.
  destruct reply as [e|document].
  - intros [= _ <- _ _]. split; [reflexivity | discriminate].
  - destruct (sts_parse_document libc document c errbuf errbuf_size)
      as [[[r x] eb]|] eqn:Hparse; [|discriminate].
    intros [= _ <- _ _]. revert Hparse.
    unfold sts_parse_document, sts_credentials.
    destruct document as [root|];
      [|intros [= _ <- _]; split; [reflexivity | discriminate]].
    destruct (String.eqb (xml_name root) "ErrorResponse").
    + destruct errbuf as [buf|];
        [|intros [= _ <- _]; split; [reflexivity | discriminate]].
      destruct (xml_find "Error" (xml_children root)) as [err|];
        [|intros [= _ <- _]; split; [reflexivity | discriminate]].
      destruct (fold_left _ (xml_children err) (Some buf));
        [|discriminate].
      intros [= _ <- _]. split; [reflexivity | discriminate].
    + destruct (xml_find "AssumeRoleResult" (xml_children root)) as [result|];
        [|intros [= _ <- _]; split; [reflexivity | discriminate]].
      destruct (xml_find "Credentials" (xml_children result)) as [creds|];
        [|intros [= _ <- _]; split; [reflexivity | discriminate]].
      destruct (fold_left (sts_credentials_child libc) (xml_children creds)
                  (Some c)) as [c1|] eqn:Hfold; [|discriminate].
      intros [= _ <- _].
      destruct (credentials_fold_fields _ _ _ _ Hfold) as (Hr & Hrest).
      split; [exact Hr|]. intros creds' [= <-]. exact Hrest.
Qed.

Lemma refresh0_some_conf
    (env : refresh_env_t) (rk : rd_kafka_t) (errstr : string)
    (errstr_size : nat) out :
  rd_kafka_aws_msk_iam_credential_refresh0 env rk errstr errstr_size
  = Some out ->
  sts_conf_complete (rk_conf rk) = true.
Proof.
  unfold rd_kafka_aws_msk_iam_credential_refresh0, sts_conf_complete.
  destruct (Conf.aws_access_key_id (rk_conf rk));
    destruct (Conf.aws_secret_access_key (rk_conf rk));
    destruct (Conf.aws_region (rk_conf rk));
    destruct (Conf.role_arn (rk_conf rk));
    destruct (Conf.role_session_name (rk_conf rk));
    try discriminate; reflexivity.
Qed.

Lemma refresh0_region
    (env : refresh_env_t) (rk rk0 : rd_kafka_t) (errstr errstr' : string)
    (errstr_size : nat) (ret : rd_kafka_resp_err_t) (c : Credential.t)
    (q : http_request_t) :
  rd_kafka_aws_msk_iam_credential_refresh0 env rk errstr errstr_size
  = Some (ret, rk0, c, errstr', q) ->
  Credential.aws_region c = Conf.aws_region (rk_conf rk).
Proof.
  intros Hret.
  pose proof (refresh0_some_conf _ _ _ _ _ Hret) as Hconf.
  destruct (refresh0_calls_send_request env rk errstr errstr_size Hconf)
    as (key & secret & region & ch & body & Hregion & Hcall).
  rewrite Hcall in Hret.
  destruct (rd_kafka_aws_send_request _ _ _ _ _ _ _ _ _ _ _ _ _ _ _ _ _ _)
    as [[[[r x] e] y]|] eqn:Hsend; [|discriminate].
  injection Hret as _ _ <- _ _.
  destruct (send_request_fields _ _ _ _ _ _ _ _ _ _ _ _ _ _ _ _ _ _ _ _ _ _
              Hsend) as (Hr & _).
  rewrite Hr, Hregion. reflexivity.
Qed.

(** X16. In what the STS refresher returns, the region is always the
    configured [aws.region], never something from the answer; and a field
    for which the [Credentials] element has no child ([AccessKeyId],
    [SecretAccessKey], [SessionToken]) is left NULL although the return
    code is [RD_KAFKA_RESP_ERR_NO_ERROR]: the refresher does not check that
    the answer is complete. *)
Theorem refresh0_region_from_conf_fields_from_children :
  forall (env : refresh_env_t) (rk rk0 : rd_kafka_t)
         (ret : rd_kafka_resp_err_t) (credential : Credential.t)
         (errstr errstr' : string) (errstr_size : nat)
         (request : http_request_t),
    rd_kafka_aws_msk_iam_credential_refresh0 env rk errstr errstr_size
    = Some (ret, rk0, credential, errstr', request) ->
    Credential.aws_region credential = Conf.aws_region (rk_conf rk)
    /\ Conf.aws_region (rk_conf rk) <> None
    /\ forall creds,
         sts_credentials (renv_reply env) = Some creds ->
         ret = RD_KAFKA_RESP_ERR_NO_ERROR
         /\ (no_child_named "AccessKeyId" (xml_children creds) = true ->
             Credential.aws_access_key_id credential = None)
         /\ (no_child_named "SecretAccessKey" (xml_children creds) = true ->
             Credential.aws_secret_access_key credential = None)
         /\ (no_child_named "SessionToken" (xml_children creds) = true ->
             Credential.aws_security_token credential = None).
Proof.
  intros env rk rk0 ret credential errstr errstr' errstr_size request Hret.
  pose proof (refresh0_some_conf _ _ _ _ _ Hret) as Hconf.
  destruct (refresh0_calls_send_request env rk errstr errstr_size Hconf)
    as (key & secret & region & ch & body & Hregion & Hcall).
  rewrite Hcall in Hret.
  destruct (rd_kafka_aws_send_request _ _ _ _ _ _ _ _ _ _ _ _ _ _ _ _ _ _)
    as [[[[r c] e] q]|] eqn:Hsend; [|discriminate].
  injection Hret as <- _ <- _ _.
  destruct (send_request_fields _ _ _ _ _ _ _ _ _ _ _ _ _ _ _ _ _ _ _ _ _ _
              Hsend) as (Hr & Hfields).
  destruct (send_request_succeeds_iff_credentials_element_aux _ _ _ _ _ _ _
              _ _ _ _ _ _ _ _ _ _ _ _ _ _ _ Hsend) as [Hok _].
  split; [rewrite Hr, Hregion; reflexivity|].
  split; [congruence|].
  intros creds Hcreds. split; [apply Hok; now exists creds|].
  exact (Hfields creds Hcreds).
Qed.

Lemma refresh0_witness :
  exists ret rk0 credential errstr' request,
    rd_kafka_aws_msk_iam_credential_refresh0 example_refresh_env example_rk
      "" 512 = Some (ret, rk0, credential, errstr', request)
    /\ Credential.aws_region credential = Some "us-east-1"
    /\ ret = RD_KAFKA_RESP_ERR_NO_ERROR.
Proof.
  destruct (refresh0_calls_send_request example_refresh_env example_rk ""
              512 eq_refl) as (key & secret & region & ch & body & _ & Hcall).
  destruct (send_request_defined example_libc
              (Curl_ok (Some example_sts_document))
              (refresh0_initial_credential example_conf region
                 1631300834000000)
              "20210910" "190714" "sts.amazonaws.com" key secret region
              "sts" "POST" "AWS4-HMAC-SHA256" ch
              "content-length;content-type;host;x-amz-date" body
              EVP_get_digestbyname_SHA256 "" 512)
    as (ret & c & e & q & Hsend & _).
  { eexists. split; reflexivity. }
  cbn [renv_libc renv_reply renv_uclock_refresh renv_ymd renv_hms
       example_refresh_env rk_conf example_rk] in Hcall.
  rewrite Hsend in Hcall.
  do 5 eexists. split; [exact Hcall|].
  destruct (refresh0_region_from_conf_fields_from_children _ _ _ _ _ _ _ _
              _ Hcall) as (Hr & _ & Hc).
  split; [exact Hr|].
  destruct (Hc (XmlElement "Credentials"
                  [ XmlElement "AccessKeyId" [ XmlText "ASIAEXAMPLE" ];
                    XmlElement "SecretAccessKey" [ XmlText "SECRETEXAMPLE" ];
                    XmlElement "SessionToken" [ XmlText "TOKENEXAMPLE" ] ])
              eq_refl) as [Hret _].
  exact Hret.
Defined.

(** ** The refresh timer callback *)

Lemma set_credential_outcome
    (rk rk1 : rd_kafka_t) (handle : Handle.t)
    (k s g token : option string) (md uclock : Z) (errstr errstr1 : string)
    (errstr_size : nat) (err : rd_kafka_resp_err_t) :
  configured_handle rk = Some handle ->
  rd_kafka_aws_msk_iam_set_credential rk k s g token md uclock errstr
    errstr_size = Some (err, rk1, errstr1) ->
  (err = RD_KAFKA_RESP_ERR__INVALID_ARG /\ rk1 = rk
   /\ (int64 (md * 1000) <= uclock)%Z)
  \/ (err = RD_KAFKA_RESP_ERR_NO_ERROR
      /\ (uclock < int64 (md * 1000))%Z
      /\ exists interval,
           rk1 = mk_rk (rk_conf rk)
                   (Some (Handle.mk k s g token None
                            (rd_kafka_timer_start interval)))
                   (rk_events rk
                    ++ [ Ev_rwlock_wrlock; Ev_timer_start interval;
                         Ev_rwlock_wrunlock;
                         Ev_all_brokers_wakeup
                           "AWS_MSK_IAM credential refresh" ])%list).
Proof.
  intros Hconf. unfold rd_kafka_aws_msk_iam_set_credential. rewrite Hconf.
  destruct (Z.leb_spec (int64 (md * 1000)) uclock) as [Hexp|Hfresh].
  - intros [= <- <- _]. left. auto.
  - destruct k as [key|]; [|discriminate].
    destruct s as [secret|]; [|discriminate].
    destruct g as [region|]; [|discriminate].
    intros [= <- <- _]. right. split; [reflexivity|]. split; [exact Hfresh|].
    eexists. unfold emit, set_handle, rd_strdup.
    cbn [rk_conf rk_sasl_handle rk_events]. rewrite <- !app_assoc.
    destruct token; reflexivity.
Qed.

Lemma refresh0_client
    (env : refresh_env_t) (rk rk0 : rd_kafka_t) (errstr errstr' : string)
    (errstr_size : nat) (ret : rd_kafka_resp_err_t) (c : Credential.t)
    (q : http_request_t) :
  rd_kafka_aws_msk_iam_credential_refresh0 env rk errstr errstr_size
  = Some (ret, rk0, c, errstr', q) ->
  rk0 = emit (emit rk Ev_rwlock_wrlock) Ev_rwlock_wrunlock.
Proof.
  intros Hret.
  pose proof (refresh0_some_conf _ _ _ _ _ Hret) as Hconf.
  destruct (refresh0_calls_send_request env rk errstr errstr_size Hconf)
    as (key & secret & region & ch & body & _ & Hcall).
  rewrite Hcall in Hret.
  destruct (rd_kafka_aws_send_request _ _ _ _ _ _ _ _ _ _ _ _ _ _ _ _ _ _)
    as [[[[r x] e] y]|]; [|discriminate].
  now injection Hret as _ <- _ _ _.
Qed.

(** X17. The refresh callback never lets the refresh loop die and never
    loses credentials on a failure.  With STS disabled it does nothing.
    With STS enabled on a configured client, whenever it returns the refresh
    timer is armed again, and either the refresh failed, in which case the
    four stored credential fields are what they were and the timer is set
    10 seconds out, or new credentials were installed, in which case the
    last error is cleared, the stored region is the configured region, and
    the broker threads were woken last. *)
Theorem refresh_rearms_timer_and_keeps_credentials_on_failure :
  forall (env : refresh_env_t) (rk : rd_kafka_t),
    (Conf.enable_use_sts (rk_conf rk) = false ->
     rd_kafka_sasl_aws_msk_iam_credential_refresh_tmr_cb env rk = Some rk)
    /\ (forall (handle : Handle.t) (rk' : rd_kafka_t),
           Conf.enable_use_sts (rk_conf rk) = true ->
           configured_handle rk = Some handle ->
           rd_kafka_sasl_aws_msk_iam_credential_refresh_tmr_cb env rk
           = Some rk' ->
           exists handle',
             configured_handle rk' = Some handle'
             /\ rk_conf rk' = rk_conf rk
             /\ rtmr_started (Handle.credential_refresh_tmr handle') = true
             /\ (stored_credentials handle' = stored_credentials handle
                 /\ Handle.credential_refresh_tmr handle'
                    = rd_kafka_timer_start 10000000
                 \/ Handle.errstr handle' = None
                    /\ Handle.aws_region handle'
                       = Conf.aws_region (rk_conf rk)
                    /\ exists before,
                         rk_events rk'
                         = (before
                            ++ [ Ev_all_brokers_wakeup
                                   "AWS_MSK_IAM credential refresh" ])%list)).
Proof.
  intros env rk.
  unfold rd_kafka_sasl_aws_msk_iam_credential_refresh_tmr_cb,
    rd_kafka_aws_msk_iam_credential_refresh.
  split; [intros ->; reflexivity|].
  intros handle rk' Hsts Hconf. rewrite Hsts.
  destruct (rd_kafka_aws_msk_iam_credential_refresh0 env rk "" 512)
    as [[[[[ret rk0] c] e] q]|] eqn:Hret; [|discriminate].
  pose proof (refresh0_client _ _ _ _ _ _ _ _ _ Hret) as Hrk0.
  destruct (configured_provider rk handle Hconf) as [Hprov Hh].
  assert (Hconf0 : configured_handle rk0 = Some handle).
  { rewrite Hrk0. unfold configured_handle, emit.
    cbn [rk_conf rk_sasl_handle]. now rewrite Hprov. }
  assert (Hc0 : rk_conf rk0 = rk_conf rk) by (rewrite Hrk0; reflexivity).
  assert (Hfail : forall r1 h1 text,
             configured_handle r1 = Some h1 ->
             rk_conf r1 = rk_conf rk ->
             stored_credentials h1 = stored_credentials handle ->
             Some (rd_kafka_aws_msk_iam_set_credential_failure r1 text)
             = Some rk' ->
             exists handle',
               configured_handle rk' = Some handle'
               /\ rk_conf rk' = rk_conf rk
               /\ rtmr_started (Handle.credential_refresh_tmr handle') = true
               /\ (stored_credentials handle' = stored_credentials handle
                   /\ Handle.credential_refresh_tmr handle'
                      = rd_kafka_timer_start 10000000
                   \/ Handle.errstr handle' = None
                      /\ Handle.aws_region handle'
                         = Conf.aws_region (rk_conf rk)
                      /\ exists before,
                           rk_events rk'
                           = (before
                              ++ [ Ev_all_brokers_wakeup
                                     "AWS_MSK_IAM credential refresh" ])%list)).
  { intros r1 h1 text H1 Hc1 Hs1 [= <-].
    destruct (set_credential_failure_configured r1 h1 text H1)
      as (h' & Hh' & Hc' & Hs' & Ht' & _).
    exists h'. split; [exact Hh'|]. split; [congruence|].
    split; [rewrite Ht'; reflexivity|]. left. split; congruence. }
  destruct (resp_err_eqb ret RD_KAFKA_RESP_ERR_NO_ERROR) eqn:Hok;
    cbn [negb].
  - destruct (rd_kafka_aws_msk_iam_set_credential rk0 _ _ _ _ _ _ e 512)
      as [[[err rk1] e1]|] eqn:Hset; [|discriminate].
    destruct (set_credential_outcome _ _ _ _ _ _ _ _ _ _ _ _ _ Hconf0 Hset)
      as [(-> & -> & _) | (-> & _ & interval & ->)]; cbn [resp_err_eqb negb].
    + apply (Hfail rk0 handle (Some e1) Hconf0 Hc0 eq_refl).
    + intros [= <-]. eexists.
      split; [apply configured_handle_mk; rewrite Hc0; exact Hprov|].
      split; [exact Hc0|]. split; [reflexivity|]. right.
      split; [reflexivity|]. cbn [Handle.aws_region].
      split; [exact (refresh0_region _ _ _ _ _ _ _ _ _ Hret)|].
      exists (rk_events rk0
              ++ [ Ev_rwlock_wrlock; Ev_timer_start interval;
                   Ev_rwlock_wrunlock ])%list.
      cbn [rk_events]. rewrite <- app_assoc. reflexivity.
  - apply (Hfail rk0 handle (Some e) Hconf0 Hc0 eq_refl).
Qed.

Lemma refresh_witness :
  exists handle',
    configured_handle
      (rd_kafka_aws_msk_iam_set_credential_failure
         (emit (emit example_rk Ev_rwlock_wrlock) Ev_rwlock_wrunlock)
         (Some "Could not resolve host: sts.amazonaws.com"))
    = Some handle'
    /\ rtmr_started (Handle.credential_refresh_tmr handle') = true.
Proof.
  destruct (refresh_rearms_timer_and_keeps_credentials_on_failure
              example_failed_env example_rk) as [_ H].
  destruct (H example_handle _ eq_refl eq_refl eq_refl)
    as (h' & H1 & _ & H2 & _).
  exists h'. split; [exact H1 | exact H2].
Defined.

(** X18. When the transfer to STS fails (STS enabled, configured client,
    configuration strings set), the callback records curl's error text, cut
    to 511 characters, or [AWS send request: unknown error] when curl gave
    no text, as the last error; it leaves the four credential fields alone,
    arms the timer 10 seconds out, and reports the error on the error
    channel unless that same text is already the last error. *)
Theorem refresh_transfer_failure_is_recorded :
  forall (env : refresh_env_t) (rk : rd_kafka_t) (handle : Handle.t)
         (e : string),
    Conf.enable_use_sts (rk_conf rk) = true ->
    sts_conf_complete (rk_conf rk) = true ->
    configured_handle rk = Some handle ->
    renv_reply env = Curl_failed e ->
    let text :=
      match e with
      | EmptyString => "AWS send request: unknown error"
      | _ => String.substring 0 511 e
      end in
    let report :=
      Ev_op_err RD_KAFKA_RESP_ERR__AUTHENTICATION
        ("Failed to acquire SASL AWS_MSK_IAM credential: " ++ text) in
    exists rk' handle' reported,
      rd_kafka_sasl_aws_msk_iam_credential_refresh_tmr_cb env rk = Some rk'
      /\ rk_sasl_handle rk' = Some handle'
      /\ Handle.errstr handle' = Some text
      /\ text <> ""
      /\ stored_credentials handle' = stored_credentials handle
      /\ Handle.credential_refresh_tmr handle'
         = rd_kafka_timer_start 10000000
      /\ rk_events rk'
         = (rk_events rk
            ++ [ Ev_rwlock_wrlock; Ev_rwlock_wrunlock; Ev_rwlock_wrlock;
                 Ev_timer_start 10000000; Ev_rwlock_wrunlock ]
            ++ reported)%list
      /\ (Handle.errstr handle = Some text -> reported = [])
      /\ (Handle.errstr handle <> Some text -> reported = [ report ]).
Proof.
  intros env rk handle e Hsts Hcomplete Hconf Hreply text report.
  assert (Hne : text <> "").
  { subst text. destruct e as [|c e]; discriminate. }
  destruct (configured_provider rk handle Hconf) as [Hprov Hh].
  set (rk0 := emit (emit rk Ev_rwlock_wrlock) Ev_rwlock_wrunlock).
  assert (Hconf0 : configured_handle rk0 = Some handle).
  { unfold rk0, configured_handle, emit. cbn [rk_conf rk_sasl_handle].
    now rewrite Hprov. }
  assert (Hcb : rd_kafka_sasl_aws_msk_iam_credential_refresh_tmr_cb env rk
                = Some (rd_kafka_aws_msk_iam_set_credential_failure rk0
                          (Some text))).
  { unfold rd_kafka_sasl_aws_msk_iam_credential_refresh_tmr_cb,
      rd_kafka_aws_msk_iam_credential_refresh. rewrite Hsts.
    destruct (refresh0_calls_send_request env rk "" 512 Hcomplete)
      as (key & secret & region & ch & body & _ & ->).
    rewrite Hreply. unfold rd_kafka_aws_send_request.
    subst text. destruct e as [|c e]; reflexivity. }
  rewrite Hcb, (set_credential_failure_value rk0 handle text Hconf0 Hne).
  rewrite error_changed_iff.
  do 3 eexists. split; [reflexivity|]. split; [reflexivity|].
  split; [reflexivity|]. split; [exact Hne|]. split; [reflexivity|].
  split; [reflexivity|].
  split; [unfold rk0, emit; cbn [rk_events]; rewrite <- !app_assoc;
          reflexivity|].
  fold report.
  destruct (option_string_eq_dec (Handle.errstr handle) (Some text));
    cbn [negb]; split; congruence.
Qed.

Lemma refresh_transfer_failure_witness :
  exists rk' handle',
    rd_kafka_sasl_aws_msk_iam_credential_refresh_tmr_cb example_failed_env
      example_rk = Some rk'
    /\ rk_sasl_handle rk' = Some handle'
    /\ Handle.errstr handle'
       = Some "Could not resolve host: sts.amazonaws.com".
Proof.
  destruct (refresh_transfer_failure_is_recorded example_failed_env
              example_rk example_handle
              "Could not resolve host: sts.amazonaws.com"
              eq_refl eq_refl eq_refl eq_refl)
    as (rk' & h' & reported & H1 & H2 & H3 & _).
  exists rk', h'. split; [exact H1|]. split; [exact H2 | exact H3].
Defined.

(** X19. An answer of STS that is accepted although it has no [AccessKeyId]
    (or no [SecretAccessKey]) is not turned into a failure: when its expiry
    is still ahead, the callback calls the installer with the NULL string,
    and the installer, which does not check its string arguments, hands it
    to [rd_strdup].  The callback has no result in that case. *)
Theorem refresh_partial_answer_reaches_strdup_with_null :
  forall (env : refresh_env_t) (rk rk0 : rd_kafka_t) (handle : Handle.t)
         (credential : Credential.t) (errstr' : string)
         (request : http_request_t),
    Conf.enable_use_sts (rk_conf rk) = true ->
    configured_handle rk = Some handle ->
    rd_kafka_aws_msk_iam_credential_refresh0 env rk "" 512
    = Some (RD_KAFKA_RESP_ERR_NO_ERROR, rk0, credential, errstr', request) ->
    Credential.aws_access_key_id credential = None
    \/ Credential.aws_secret_access_key credential = None ->
    (renv_uclock_install env
     < int64 (Credential.md_lifetime_ms credential * 1000))%Z ->
    rd_kafka_aws_msk_iam_set_credential rk0
      (Credential.aws_access_key_id credential)
      (Credential.aws_secret_access_key credential)
      (Credential.aws_region credential)
      (Credential.aws_security_token credential)
      (Credential.md_lifetime_ms credential) (renv_uclock_install env)
      errstr' 512 = None
    /\ rd_kafka_sasl_aws_msk_iam_credential_refresh_tmr_cb env rk = None.
Proof.
  intros env rk rk0 handle credential errstr' request Hsts Hconf Hret Hnull
    Hfresh.
  pose proof (refresh0_client _ _ _ _ _ _ _ _ _ Hret) as Hrk0.
  destruct (configured_provider rk handle Hconf) as [Hprov Hh].
  assert (Hconf0 : configured_handle rk0 = Some handle).
  { rewrite Hrk0. unfold configured_handle, emit.
    cbn [rk_conf rk_sasl_handle]. now rewrite Hprov. }
  assert (Hset : rd_kafka_aws_msk_iam_set_credential rk0
                   (Credential.aws_access_key_id credential)
                   (Credential.aws_secret_access_key credential)
                   (Credential.aws_region credential)
                   (Credential.aws_security_token credential)
                   (Credential.md_lifetime_ms credential)
                   (renv_uclock_install env) errstr' 512 = None).
  { unfold rd_kafka_aws_msk_iam_set_credential. rewrite Hconf0.
    assert (Hgt : (int64 (Credential.md_lifetime_ms credential * 1000)
                   <=? renv_uclock_install env)%Z = false)
      by (apply Z.leb_gt; exact Hfresh).
    rewrite Hgt.
    destruct Hnull as [-> | ->];
      [reflexivity|].
    destruct (Credential.aws_access_key_id credential); reflexivity. }
  split; [exact Hset|].
  unfold rd_kafka_sasl_aws_msk_iam_credential_refresh_tmr_cb,
    rd_kafka_aws_msk_iam_credential_refresh.
  rewrite Hsts, Hret. cbn [resp_err_eqb negb]. now rewrite Hset.
Qed.

Lemma refresh_partial_answer_witness :
  rd_kafka_sasl_aws_msk_iam_credential_refresh_tmr_cb example_partial_env
    example_rk = None.
Proof.
  destruct (refresh0_calls_send_request example_partial_env example_rk ""
              512 eq_refl) as (key & secret & region & ch & body & _ & Hcall).
  cbn [renv_libc renv_reply renv_uclock_refresh renv_ymd renv_hms
       example_partial_env rk_conf example_rk] in Hcall.
  destruct (send_request_defined example_libc
              (renv_reply example_partial_env)
              (refresh0_initial_credential example_conf region
                 1631300834000000)
              "20210910" "190714" "sts.amazonaws.com" key secret region
              "sts" "POST" "AWS4-HMAC-SHA256" ch
              "content-length;content-type;host;x-amz-date" body
              EVP_get_digestbyname_SHA256 "" 512)
    as (ret & c & e & q & Hsend & Hok).
  { eexists. split; reflexivity. }
  cbn [renv_reply example_partial_env] in Hsend, Hok.
  rewrite Hsend in Hcall.
  assert (Hret : ret = RD_KAFKA_RESP_ERR_NO_ERROR)
    by (apply Hok; eexists; reflexivity).
  subst ret.
  destruct (send_request_fields _ _ _ _ _ _ _ _ _ _ _ _ _ _ _ _ _ _ _ _ _ _
              Hsend) as (_ & Hfields).
  destruct (Hfields _ eq_refl) as (Hkey & _).
  pose proof (send_request_lifetime _ _ _ _ _ _ _ _ _ _ _ _ _ _ _ _ _ _ _ _
                _ _ Hsend) as Hmd.
  apply (refresh_partial_answer_reaches_strdup_with_null example_partial_env
           example_rk _ example_handle c _ q eq_refl eq_refl Hcall).
  - left. rewrite (Hkey eq_refl). reflexivity.
  - rewrite Hmd. vm_compute. reflexivity.
Defined.

(** ** The state machine of a connection *)

Lemma build_client_first_message_defined (env : fsm_env_t) (st : State.t) :
  rd_kafka_sasl_aws_msk_iam_build_client_first_message env st <> None
  <-> snapshot_complete st = true.
Proof.
  unfold rd_kafka_sasl_aws_msk_iam_build_client_first_message,
    snapshot_complete.
  destruct (State.aws_access_key_id st);
    destruct (State.aws_secret_access_key st);
    destruct (State.aws_region st); destruct (State.hostname st);
    destruct (State.md st); split; congruence.
Qed.

(** X20. A step of the state machine has a result exactly when the
    connection has a state object and either no server input is given while
    the first message is still to be sent (and the snapshot is complete), or
    server input is given while the response is awaited; every other call
    trips an [rd_assert] or dereferences NULL.  After any step the
    authenticator awaits the response: it never goes back to sending.  The
    step returns 0 or -1, never clears the authentication-done mark, sends
    exactly one frame when it started in the sending state and none when it
    started awaiting the response. *)
Theorem fsm_step_defined_and_monotone :
  forall (env : fsm_env_t) (rktrans : rd_kafka_transport_t)
         (in_ : option rd_chariov_t) (errstr : string) (errstr_size : nat),
    let res :=
      rd_kafka_sasl_aws_msk_iam_fsm env rktrans in_ errstr errstr_size in
    (res <> None <->
     exists st,
       rktrans_sasl_state rktrans = Some st
       /\ (State.state st
           = RD_KAFKA_SASL_AWS_MSK_IAM_SEND_CLIENT_FIRST_MESSAGE
           /\ in_ = None /\ snapshot_complete st = true
           \/ State.state st
              = RD_KAFKA_SASL_AWS_MSK_IAM_RECEIVE_SERVER_RESPONSE
              /\ in_ <> None))
    /\ (forall r rktrans' errstr',
           res = Some (r, rktrans', errstr') ->
           awaiting_response rktrans'
           /\ (r = 0%Z \/ r = (-1)%Z)
           /\ (rktrans_auth_done rktrans = true ->
               rktrans_auth_done rktrans' = true)
           /\ (fsm_state_of rktrans
               = Some RD_KAFKA_SASL_AWS_MSK_IAM_RECEIVE_SERVER_RESPONSE ->
               rktrans_sent rktrans' = rktrans_sent rktrans)
           /\ (fsm_state_of rktrans
               = Some RD_KAFKA_SASL_AWS_MSK_IAM_SEND_CLIENT_FIRST_MESSAGE ->
               rktrans_auth_done rktrans' = rktrans_auth_done rktrans
               /\ exists message,
                    rktrans_sent rktrans'
                    = (rktrans_sent rktrans ++ [ message ])%list)).
Proof.
  intros env rktrans in_ errstr errstr_size res. subst res.
  unfold rd_kafka_sasl_aws_msk_iam_fsm, fsm_state_of.
  destruct (rktrans_sasl_state rktrans) as [st|] eqn:Hst.
  2:{ split; [split; [congruence | intros (st & H & _); discriminate H]|].
      discriminate. }
  destruct (State.state st) eqn:Hstate.
  - destruct in_ as [i|].
    + split; [|discriminate]. split; [congruence|].
      intros (st' & [= <-] & [(_ & H & _) | (H & _)]); congruence.
    + pose proof (build_client_first_message_defined env st) as Hdef.
      destruct (rd_kafka_sasl_aws_msk_iam_build_client_first_message env st)
        as [out|].
      * split.
        -- split; [|discriminate]. intros _. exists st.
           split; [reflexivity|]. left. split; [exact Hstate|].
           split; [reflexivity|]. apply Hdef. discriminate.
        -- intros r t' e'. unfold rd_kafka_sasl_send.
           destruct (env_sasl_send env (ptr out));
             intros [= <- <- <-];
             (split; [eexists; split; reflexivity|]);
             (split; [auto|]); (split; [auto|]);
             (split; [discriminate|]); intros _;
             (split; [reflexivity|]); eexists; reflexivity.
      * split; [|discriminate]. split; [congruence|].
        intros (st' & [= <-] & [(_ & _ & H) | (H & _)]); [|congruence].
        apply Hdef in H. congruence.
  - destruct in_ as [i|].
    + split.
      * split; [|discriminate]. intros _. exists st.
        split; [reflexivity|]. right. split; [exact Hstate | discriminate].
      * intros r t' e'.
        unfold rd_kafka_sasl_aws_msk_iam_handle_server_response.
        destruct (negb (Nat.eqb (size i) 0));
          intros [= <- <- <-];
          (split; [exists st; split; [exact Hst | exact Hstate]|]);
          (split; [auto|]); (split; [auto|]);
          (split; [reflexivity|]); discriminate.
    + split; [|discriminate]. split; [congruence|].
      intros (st' & [= <-] & [(H & _) | (_ & H)]); congruence.
Qed.

(** X21. [client_new] always leaves a state object on the transport for
    [close] to free, also when it fails, and always returns when the client
    has a handle.  [close] drops the state object and nothing else, is a
    no-op the second time, and a state machine step after it has no
    result. *)
Theorem client_new_leaves_state_close_drops_it :
  forall (env : fsm_env_t) (rk : rd_kafka_t) (handle : Handle.t)
         (rktrans : rd_kafka_transport_t) (hostname errstr : string)
         (errstr_size : nat),
    rk_sasl_handle rk = Some handle ->
    exists r rk' rktrans' errstr' st,
      rd_kafka_sasl_aws_msk_iam_client_new env rk rktrans hostname errstr
        errstr_size = Some (r, rk', rktrans', errstr')
      /\ rktrans_sasl_state rktrans' = Some st
      /\ let closed := rd_kafka_sasl_aws_msk_iam_close rktrans' in
         rktrans_sasl_state closed = None
         /\ rktrans_sent closed = rktrans_sent rktrans'
         /\ rktrans_auth_done closed = rktrans_auth_done rktrans'
         /\ rd_kafka_sasl_aws_msk_iam_close closed = closed
         /\ (forall in_ e n,
                rd_kafka_sasl_aws_msk_iam_fsm env closed in_ e n = None).
Proof.
  intros env rk handle rktrans hostname errstr errstr_size Hh.
  assert (Hclose : forall t st,
            rktrans_sasl_state t = Some st ->
            let closed := rd_kafka_sasl_aws_msk_iam_close t in
            rktrans_sasl_state closed = None
            /\ rktrans_sent closed = rktrans_sent t
            /\ rktrans_auth_done closed = rktrans_auth_done t
            /\ rd_kafka_sasl_aws_msk_iam_close closed = closed
            /\ (forall in_ e n,
                   rd_kafka_sasl_aws_msk_iam_fsm env closed in_ e n = None)).
  { intros t st Hst. unfold rd_kafka_sasl_aws_msk_iam_close,
      rd_kafka_sasl_aws_msk_iam_fsm. rewrite Hst.
    cbn [rktrans_sasl_state rktrans_sent rktrans_auth_done].
    repeat split. }
  destruct (Handle.aws_access_key_id handle) as [key|] eqn:Hk.
  1: destruct (Handle.aws_secret_access_key handle) as [secret|] eqn:Hs.
  1: destruct (Handle.aws_region handle) as [region|] eqn:Hg.
  1:{ rewrite (client_new_value env rk handle rktrans key secret region
                 hostname errstr errstr_size Hh Hk Hs Hg).
      destruct (Conf.enable_use_sts (rk_conf rk) && _);
        [|destruct (env_sasl_send env _)];
        do 5 eexists; (split; [reflexivity|]); (split; [reflexivity|]);
        eapply Hclose; reflexivity. }
  all: unfold rd_kafka_sasl_aws_msk_iam_client_new;
    rewrite Hh, Hk, ?Hs, ?Hg;
    try (destruct (Handle.aws_secret_access_key handle));
    try (destruct (Handle.aws_region handle));
    do 5 eexists; (split; [reflexivity|]); (split; [reflexivity|]);
    eapply Hclose; reflexivity.
Qed.

Lemma client_new_close_witness :
  exists r rk' rktrans' errstr',
    rd_kafka_sasl_aws_msk_iam_client_new example_env example_rk
      fresh_transport "hostname" "" 512 = Some (r, rk', rktrans', errstr')
    /\ rktrans_sasl_state (rd_kafka_sasl_aws_msk_iam_close rktrans') = None.
Proof.
  destruct (client_new_leaves_state_close_drops_it example_env example_rk
              example_handle fresh_transport "hostname" "" 512 eq_refl)
    as (r & rk' & t & e & st & H1 & _ & H2 & _).
  exists r, rk', t, e. split; [exact H1 | exact H2].
Defined.

(** ** Tearing the client down *)

(** X22. [term] removes the handle and stops the refresh timer; it changes
    nothing else and does nothing the second time.  On the client it
    leaves, the installer refuses every call with
    [RD_KAFKA_RESP_ERR__STATE] and the failure recorder does nothing, so a
    refresh that fires late can neither install nor report anything. *)
Theorem term_detaches_the_store :
  forall (rk : rd_kafka_t),
    let rk' := fst (rd_kafka_sasl_aws_msk_iam_term rk) in
    rk_sasl_handle rk' = None
    /\ rk_conf rk' = rk_conf rk
    /\ rk_events rk' = rk_events rk
    /\ (forall handle,
           rk_sasl_handle rk = Some handle ->
           snd (rd_kafka_sasl_aws_msk_iam_term rk)
           = Some (mk_timer false
                     (rtmr_interval (Handle.credential_refresh_tmr handle))
                     (rtmr_next_in (Handle.credential_refresh_tmr handle))))
    /\ rd_kafka_sasl_aws_msk_iam_term rk' = (rk', None)
    /\ (forall k s g t md uclock errstr errstr_size,
           rd_kafka_aws_msk_iam_set_credential rk' k s g t md uclock errstr
             errstr_size
           = Some (RD_KAFKA_RESP_ERR__STATE, rk',
                   rd_snprintf_into errstr errstr_size
                     "SASL/AWS_MSK_IAM is not the configured authentication mechanism"))
    /\ (forall errstr,
           rd_kafka_aws_msk_iam_set_credential_failure rk' errstr = rk').
Proof.
  intros rk rk'. subst rk'. unfold rd_kafka_sasl_aws_msk_iam_term.
  destruct rk as [conf [h|] events]; cbn [rk_sasl_handle fst snd rk_conf rk_events].
  - split; [reflexivity|]. split; [reflexivity|]. split; [reflexivity|].
    split; [intros handle [= <-]; reflexivity|]. split; [reflexivity|].
    split.
    + intros. unfold rd_kafka_aws_msk_iam_set_credential, configured_handle.
      cbn [rk_conf rk_sasl_handle]. destruct (Conf.provider conf); reflexivity.
    + intros. unfold rd_kafka_aws_msk_iam_set_credential_failure,
        configured_handle.
      cbn [rk_conf rk_sasl_handle]. destruct (Conf.provider conf); reflexivity.
  - split; [reflexivity|]. split; [reflexivity|]. split; [reflexivity|].
    split; [discriminate|]. split; [reflexivity|].
    split.
    + intros. unfold rd_kafka_aws_msk_iam_set_credential, configured_handle.
      cbn [rk_conf rk_sasl_handle]. destruct (Conf.provider conf); reflexivity.
    + intros. unfold rd_kafka_aws_msk_iam_set_credential_failure,
        configured_handle.
      cbn [rk_conf rk_sasl_handle]. destruct (Conf.provider conf); reflexivity.
Qed.

(** ** Error texts fit their buffer *)

Lemma substring_0_length_le (n : nat) (s : string) :
  (String.length (String.substring 0 n s) <= n)%nat.
Proof.
  revert s. induction n as [|n IH]; intros [|c s]; cbn; try lia.
  specialize (IH s). lia.
Qed.

Lemma rd_snprintf_into_fits (buf : string) (n : nat) (text : string) :
  (0 < n)%nat -> (String.length (rd_snprintf_into buf n text) < n)%nat.
Proof.
  destruct n as [|n]; [lia|]. intros _. cbn [rd_snprintf_into].
  pose proof (substring_0_length_le n text). lia.
Qed.

(** X23. No error path of the provider writes past the caller's error
    buffer: whenever the installer returns an error, the server-response
    handler returns -1, or [client_new] returns -1, the text in a buffer of
    [errstr_size > 0] bytes is shorter than [errstr_size], however long the
    stored last error, the hostname or the broker's text is; a buffer of
    size 0 is not written at all. *)
Theorem error_texts_fit_the_buffer :
  forall (errstr : string) (errstr_size : nat),
    (forall rk k s g t md uclock err rk' errstr',
        rd_kafka_aws_msk_iam_set_credential rk k s g t md uclock errstr
          errstr_size = Some (err, rk', errstr') ->
        err <> RD_KAFKA_RESP_ERR_NO_ERROR ->
        ((0 < errstr_size)%nat ->
         (String.length errstr' < errstr_size)%nat)
        /\ (errstr_size = 0%nat -> errstr' = errstr))
    /\ (forall rktrans in_ rktrans' errstr',
           rd_kafka_sasl_aws_msk_iam_handle_server_response rktrans in_
             errstr errstr_size = ((-1)%Z, rktrans', errstr') ->
           ((0 < errstr_size)%nat ->
            (String.length errstr' < errstr_size)%nat)
           /\ (errstr_size = 0%nat -> errstr' = errstr))
    /\ (forall env rk rktrans hostname rk' rktrans' errstr',
           rd_kafka_sasl_aws_msk_iam_client_new env rk rktrans hostname
             errstr errstr_size = Some ((-1)%Z, rk', rktrans', errstr') ->
           ((0 < errstr_size)%nat ->
            (String.length errstr' < errstr_size)%nat)
           /\ (errstr_size = 0%nat -> errstr' = errstr)).
Proof.
  intros errstr errstr_size.
  assert (Hfit : forall text,
            ((0 < errstr_size)%nat ->
             (String.length (rd_snprintf_into errstr errstr_size text)
              < errstr_size)%nat)
            /\ (errstr_size = 0%nat ->
                rd_snprintf_into errstr errstr_size text = errstr)).
  { intros text. split; [apply rd_snprintf_into_fits|].
    intros ->. reflexivity. }
  split; [|split].
  - intros rk k s g t md uclock err rk' errstr'.
    unfold rd_kafka_aws_msk_iam_set_credential.
    destruct (configured_handle rk) as [h|];
      [|intros [= <- <- <-] _; apply Hfit].
    destruct (int64 (md * 1000) <=? uclock)%Z;
      [intros [= <- <- <-] _; apply Hfit|].
    destruct k; [|discriminate]. destruct s; [|discriminate].
    destruct g; [|discriminate]. intros [= <- <- <-] H. congruence.
  - intros rktrans in_ rktrans' errstr'.
    unfold rd_kafka_sasl_aws_msk_iam_handle_server_response.
    destruct (negb (Nat.eqb (size in_) 0)); [discriminate|].
    intros [= <- <-]. apply Hfit.
  - intros env rk rktrans hostname rk' rktrans' errstr'.
    unfold rd_kafka_sasl_aws_msk_iam_client_new.
    destruct (rk_sasl_handle rk) as [handle|] eqn:Hh; [|discriminate].
    destruct (Handle.aws_access_key_id handle) as [key|] eqn:Hk;
      [|intros [= <- <- <-]; apply Hfit].
    destruct (Handle.aws_secret_access_key handle) as [secret|] eqn:Hs;
      [|intros [= <- <- <-]; apply Hfit].
    destruct (Handle.aws_region handle) as [region|] eqn:Hg;
      [|intros [= <- <- <-]; apply Hfit].
    destruct (Conf.enable_use_sts (rk_conf (emit rk Ev_rwlock_rdlock)) && _);
      [intros [= <- <- <-]; apply Hfit|].
    destruct (rd_kafka_sasl_aws_msk_iam_fsm _ _ _ _ _)
      as [[[r t] e]|] eqn:Hfsm; [|discriminate].
    intros [= -> <- <- <-].
    revert Hfsm. unfold rd_kafka_sasl_aws_msk_iam_fsm.
    cbn [rktrans_sasl_state State.state State.calloc].
    destruct (rd_kafka_sasl_aws_msk_iam_build_client_first_message _ _)
      as [out|]; [|discriminate].
    unfold rd_kafka_sasl_send.
    destruct (env_sasl_send env (ptr out)); [|discriminate].
    intros [= <- <-]. apply Hfit.
Qed.

(** ** A whole handshake *)

(** X24. A complete successful handshake: on a client whose store holds the
    three credential strings (and a session token if STS is enabled),
    [client_new] followed by the delivery of any non-empty broker response
    sends exactly one frame, the first client message signed with the
    stored credentials for that hostname, marks the authentication done,
    returns 0 both times, and leaves the error buffer as it was. *)
Theorem handshake_sends_one_frame_then_done :
  forall (env env' : fsm_env_t) (rk : rd_kafka_t) (handle : Handle.t)
         (rktrans : rd_kafka_transport_t)
         (key secret region hostname errstr buf : string)
         (errstr_size n : nat),
    rk_sasl_handle rk = Some handle ->
    stored_credentials handle
    = (Some key, Some secret, Some region, Handle.aws_security_token handle) ->
    (Conf.enable_use_sts (rk_conf rk) = true ->
     Handle.aws_security_token handle <> None) ->
    let message :=
      client_first_message env hostname key secret region
        (Handle.aws_security_token handle) in
    env_sasl_send env message = None ->
    n <> 0%nat ->
    exists rk' t1 t2 st,
      rd_kafka_sasl_aws_msk_iam_client_new env rk rktrans hostname errstr
        errstr_size = Some (0%Z, rk', t1, errstr)
      /\ rd_kafka_sasl_aws_msk_iam_recv env' t1 buf n errstr errstr_size
         = Some (0%Z, t2, errstr)
      /\ rktrans_sent t2 = (rktrans_sent rktrans ++ [ message ])%list
      /\ rktrans_auth_done t2 = true
      /\ rktrans_sasl_state t2 = Some st
      /\ snapshot_fields st
         = (Some hostname, Some key, Some secret, Some region,
            Handle.aws_security_token handle).
Proof.
  intros env env' rk handle rktrans key secret region hostname errstr buf
    errstr_size n Hh Hcreds Htok message Hsend Hn.
  unfold stored_credentials in Hcreds. injection Hcreds as Hk Hs Hg.
  pose proof (client_new_value env rk handle rktrans key secret region
                hostname errstr errstr_size Hh Hk Hs Hg) as Hnew.
  cbv zeta in Hnew. fold message in Hnew. rewrite Hsend in Hnew.
  assert (Hgate : Conf.enable_use_sts (rk_conf rk)
                  && match Handle.aws_security_token handle with
                     | None => true
                     | Some _ => false
                     end = false).
  { destruct (Conf.enable_use_sts (rk_conf rk)); [|reflexivity].
    destruct (Handle.aws_security_token handle); [reflexivity|].
    exfalso. now apply Htok. }
  rewrite Hgate in Hnew.
  do 4 eexists. split; [exact Hnew|].
  rewrite recv_is_handle_server_response
    by (eexists; split; reflexivity).
  unfold rd_kafka_sasl_aws_msk_iam_handle_server_response.
  cbn [size]. destruct n as [|n]; [congruence|].
  cbn [Nat.eqb negb].
  split; [reflexivity|]. repeat split.
Qed.

Lemma handshake_witness :
  exists rk' t1 t2,
    rd_kafka_sasl_aws_msk_iam_client_new example_env example_static_rk
      fresh_transport "hostname" "" 512 = Some (0%Z, rk', t1, "")
    /\ rd_kafka_sasl_aws_msk_iam_recv example_env t1 "ok" 2 "" 512
       = Some (0%Z, t2, "")
    /\ rktrans_auth_done t2 = true.
Proof.
  destruct (handshake_sends_one_frame_then_done example_env example_env
              example_static_rk
              (Handle.mk (Some "AWS_ACCESS_KEY_ID")
                 (Some "AWS_SECRET_ACCESS_KEY") (Some "us-east-1") None None
                 timer_zero)
              fresh_transport "AWS_ACCESS_KEY_ID" "AWS_SECRET_ACCESS_KEY"
              "us-east-1" "hostname" "" "ok" 512 2 eq_refl eq_refl)
    as (rk' & t1 & t2 & st & H1 & H2 & _ & H3 & _);
    [discriminate | reflexivity | discriminate |].
  exists rk', t1, t2. split; [exact H1|]. split; [exact H2 | exact H3].
Defined.

(** ** The body of the STS request *)

Lemma string_of_uint_decimal (d : Decimal.uint) :
  all_chars decimal_char (NilEmpty.string_of_uint d) = true.
Proof. induction d; cbn; auto. Qed.

Lemma dec_decimal (z : Z) : all_chars decimal_char (dec z) = true.
Proof.
  unfold dec, NilZero.string_of_int, NilZero.string_of_uint.
  destruct (Z.to_int z) as [d|d].
  - destruct d; try reflexivity; apply (string_of_uint_decimal (_ d)).
  - change (all_chars decimal_char
              (String "-"
                 match d with
                 | Decimal.Nil => "0"
                 | _ => NilEmpty.string_of_uint d
                 end) = true).
    unfold all_chars. cbn [list_ascii_of_string forallb].
    destruct d; try reflexivity; apply (string_of_uint_decimal (_ d)).
Qed.

Lemma all_chars_substring (p : ascii -> bool) (n : nat) (s : string) :
  all_chars p s = true -> all_chars p (String.substring 0 n s) = true.
Proof.
  revert s. induction n as [|n IH]; intros [|c s]; try reflexivity.
  unfold all_chars. cbn [String.substring list_ascii_of_string forallb].
  intros H. apply andb_prop in H as [Hc Hs]. rewrite Hc. exact (IH s Hs).
Qed.

Lemma count_delimiter_decimal (c : ascii) (n : nat) (z : Z) :
  decimal_char c = false -> count_char c (rd_snprintf n (dec z)) = 0%nat.
Proof.
  intros Hc. apply (all_chars_count_zero decimal_char); [exact Hc|].
  apply all_chars_substring, dec_decimal.
Qed.

Lemma send_request_url
    (libc : libc_t) (reply : sts_reply_t) (credential credential' : Credential.t)
    (ymd hms host key secret region service method algorithm ch sh
       body : string) (md : EVP_MD) (errbuf errbuf' : option string)
    (errbuf_size : nat) (ret : rd_kafka_resp_err_t)
    (request : http_request_t) :
  rd_kafka_aws_send_request libc reply credential ymd hms host key secret
    region service method algorithm ch sh body md errbuf errbuf_size
  = Some (ret, credential', errbuf', request) ->
  req_url request = "https://" ++ host.
Proof.
  unfold rd_kafka_aws_send_request.
  destruct reply as [e|document].
  - intros [= _ _ _ <-]. reflexivity.
  - destruct (sts_parse_document libc document credential errbuf
                errbuf_size) as [[[r c] eb]|]; [|discriminate].
    intros [= _ _ _ <-]. reflexivity.
Qed.

Lemma refresh0_request_body
    (env : refresh_env_t) (rk rk0 : rd_kafka_t) (errstr errstr' : string)
    (errstr_size : nat) (ret : rd_kafka_resp_err_t) (c : Credential.t)
    (q : http_request_t) :
  rd_kafka_aws_msk_iam_credential_refresh0 env rk errstr errstr_size
  = Some (ret, rk0, c, errstr', q) ->
  exists arn session,
    Conf.role_arn (rk_conf rk) = Some arn
    /\ Conf.role_session_name (rk_conf rk) = Some session
    /\ req_method q = "POST"
    /\ req_url q = "https://sts.amazonaws.com"
    /\ req_postfields q
       = "Action=AssumeRole&DurationSeconds="
         ++ rd_snprintf 256 (dec (Conf.duration_sec (rk_conf rk)))
         ++ "&RoleArn=" ++ rd_kafka_aws_uri_encode arn
         ++ "&RoleSessionName=" ++ session
         ++ match Conf.aws_external_id (rk_conf rk) with
            | Some id => "&ExternalId=" ++ rd_kafka_aws_uri_encode id
            | None => ""
            end
         ++ "&Version=2011-06-15".
Proof.
  unfold rd_kafka_aws_msk_iam_credential_refresh0.
  destruct (Conf.aws_access_key_id (rk_conf rk)) as [key|]; [|discriminate].
  destruct (Conf.aws_secret_access_key (rk_conf rk)) as [secret|];
    [|discriminate].
  destruct (Conf.aws_region (rk_conf rk)) as [region|]; [|discriminate].
  destruct (Conf.role_arn (rk_conf rk)) as [arn|]; [|discriminate].
  destruct (Conf.role_session_name (rk_conf rk)) as [session|];
    [|discriminate].
  cbv zeta.
  destruct (rd_kafka_aws_send_request _ _ _ _ _ _ _ _ _ _ _ _ _ _ _ _ _ _)
    as [[[[r x] e] y]|] eqn:Hsend; [|discriminate].
  intros [= _ _ _ _ <-].
  destruct (send_request_succeeds_iff_credentials_element_aux _ _ _ _ _ _ _
              _ _ _ _ _ _ _ _ _ _ _ _ _ _ _ Hsend) as (_ & _ & Hbody & Hm).
  exists arn, session. split; [reflexivity|]. split; [reflexivity|].
  split; [exact Hm|].
  split; [exact (send_request_url _ _ _ _ _ _ _ _ _ _ _ _ _ _ _ _ _ _ _ _ _
                   _ Hsend)|].
  rewrite Hbody. builder. unfold rd_strdup.
  destruct (Conf.aws_external_id (rk_conf rk));
    rewrite !append_assoc; reflexivity.
Qed.

(** X25. The request the refresher hands to libcurl is a POST to
    [https://sts.amazonaws.com] whose body is [Action=AssumeRole],
    [DurationSeconds], [RoleArn], [RoleSessionName], [ExternalId] (only when
    configured) and [Version=2011-06-15], in that order.  The role ARN and
    the external id are URI-encoded and the duration is a number, so they
    cannot add parameters; the role session name is copied as it is, and
    every [&] or [=] in it shows up in the body. *)
Theorem sts_request_body_parameters :
  forall (env : refresh_env_t) (rk rk0 : rd_kafka_t)
         (errstr errstr' : string) (errstr_size : nat)
         (ret : rd_kafka_resp_err_t) (credential : Credential.t)
         (request : http_request_t),
    rd_kafka_aws_msk_iam_credential_refresh0 env rk errstr errstr_size
    = Some (ret, rk0, credential, errstr', request) ->
    exists arn session,
      Conf.role_arn (rk_conf rk) = Some arn
      /\ Conf.role_session_name (rk_conf rk) = Some session
      /\ req_method request = "POST"
      /\ req_url request = "https://sts.amazonaws.com"
      /\ req_postfields request
         = "Action=AssumeRole&DurationSeconds="
           ++ rd_snprintf 256 (dec (Conf.duration_sec (rk_conf rk)))
           ++ "&RoleArn=" ++ rd_kafka_aws_uri_encode arn
           ++ "&RoleSessionName=" ++ session
           ++ match Conf.aws_external_id (rk_conf rk) with
              | Some id => "&ExternalId=" ++ rd_kafka_aws_uri_encode id
              | None => ""
              end
           ++ "&Version=2011-06-15"
      /\ let extra :=
           match Conf.aws_external_id (rk_conf rk) with
           | Some _ => 1%nat
           | None => 0%nat
           end in
         count_char "&"%char (req_postfields request)
         = (4 + extra + count_char "&"%char session)%nat
         /\ count_char "="%char (req_postfields request)
            = (5 + extra + count_char "="%char session)%nat.
Proof.
  intros env rk rk0 errstr errstr' errstr_size ret credential request Hret.
  destruct (refresh0_request_body _ _ _ _ _ _ _ _ _ Hret)
    as (arn & session & Harn & Hsession & Hm & Hu & Hbody).
  exists arn, session. split; [exact Harn|]. split; [exact Hsession|].
  split; [exact Hm|]. split; [exact Hu|]. split; [exact Hbody|].
  rewrite Hbody. cbv zeta.
  destruct (Conf.aws_external_id (rk_conf rk)) as [id|];
    rewrite !count_char_append;
    rewrite !count_delimiter_uri_encode by reflexivity;
    rewrite !count_delimiter_decimal by reflexivity;
    cbn [count_char Ascii.eqb Bool.eqb]; split; lia.
Qed.

Lemma sts_request_body_witness :
  exists request,
    req_method request = "POST"
    /\ count_char "&"%char (req_postfields request) = 4%nat.
Proof.
  destruct (rd_kafka_aws_msk_iam_credential_refresh0 example_failed_env
              example_rk "" 512) as [[[[[ret rk0] c] e] q]|] eqn:H.
  - destruct (sts_request_body_parameters _ _ _ _ _ _ _ _ _ H)
      as (arn & session & _ & Hs & Hm & _ & _ & Hamp & _).
    exists q. split; [exact Hm|]. rewrite Hamp.
    cbn in Hs. injection Hs as <-. reflexivity.
  - exfalso.
    destruct (refresh0_calls_send_request example_failed_env example_rk ""
                512 eq_refl) as (key & secret & region & ch & body & _ & Hcall).
    rewrite Hcall in H. unfold rd_kafka_aws_send_request in H.
    cbn [renv_reply example_failed_env] in H. discriminate H.
Defined.

(** ** Buffers of the date and of the credential scope *)

(** X26. The buffers [rd_kafka_aws_construct_amz_date] and
    [rd_kafka_aws_construct_credential_scope] allocate are exactly as long
    as the text and its NUL: for inputs of any length the results are
    [ymdThmsZ] and [ymd/region/service/aws4_request] in full, never cut
    short by [rd_snprintf]. *)
Theorem amz_date_and_scope_are_never_truncated :
  forall ymd hms region service : string,
    rd_kafka_aws_construct_amz_date ymd hms = ymd ++ "T" ++ hms ++ "Z"
    /\ String.length (rd_kafka_aws_construct_amz_date ymd hms)
       = (String.length ymd + String.length hms + 2)%nat
    /\ rd_kafka_aws_construct_credential_scope ymd region service
       = ymd ++ "/" ++ region ++ "/" ++ service ++ "/aws4_request"
    /\ String.length
         (rd_kafka_aws_construct_credential_scope ymd region service)
       = (String.length ymd + String.length region + String.length service
          + 15)%nat.
Proof.
  intros ymd hms region service.
  rewrite amz_date_value, credential_scope_value.
  split; [reflexivity|]. split; [|split; [reflexivity|]].
  - rewrite !length_append. cbn [String.length]. lia.
  - rewrite !length_append. cbn [String.length]. lia.
Qed.
